(** * Batch inferencing notebook: entry script, batch-data generation and
      the top-level cell sequence

    The repository is one notebook,
    [10 - Create a Batch Inferencing Service].  Three parts of it carry
    behaviour of their own and are embedded here:

    - [Script]: the entry script [batch_diabetes.py] written by the
      notebook ([init] and [run]);
    - [BatchData]: the sample of the data set and the loop that writes the
      hundred batch files;
    - [Notebook]: the top-level cells, as a program over the calls it makes
      into the platform SDK and the local libraries.

    [Results] reads the results file back, and [Demo] holds
    sample files, frames and platforms on which the properties are
    exercised.

    Library calls (numpy, scikit-learn, joblib, pandas, the platform SDK,
    requests) are not part of the repository: they are parameters of the
    sections below, and may raise.  The definitions come first, the
    properties after them. *)

From Stdlib Require Import ZArith Lia Ascii.
From Stdlib Require String.
From stdpp Require Import base tactics option list strings pretty gmap sorting.

(* ===================================================================== *)
(** ** Python values shared by the three parts *)
(* ===================================================================== *)

Module Py.

(** The exception classes the code can meet.  [KeyboardInterrupt] stands
    for the classes that derive from [BaseException] only, which
    [except Exception] does not catch. *)
Inductive exn_class :=
| NameError
| IndexError
| KeyError
| ValueError
| OSError
| AttributeError
| ComputeTargetException
| OtherException
| KeyboardInterrupt.

Record exn := Exn { exn_cls : exn_class; exn_msg : string }.

Global Instance exn_class_eq_dec : EqDecision exn_class.
Proof. solve_decision. Defined.

Global Instance exn_eq_dec : EqDecision exn.
Proof. solve_decision. Defined.

(** [except Exception]: every class but the [BaseException]-only ones. *)
Definition is_Exception (e : exn) : bool :=
  match exn_cls e with
  | KeyboardInterrupt => false
  | _ => true
  end.

(** [except ComputeTargetException]. *)
Definition is_ComputeTargetException (e : exn) : bool :=
  match exn_cls e with
  | ComputeTargetException => true
  | _ => false
  end.

(** The outcome of evaluating an expression or running a statement. *)
Inductive outcome (A : Type) :=
| Ok (a : A)
| Raise (e : exn).
Arguments Ok {A} a.
Arguments Raise {A} e.

Definition is_Ok {A} (r : outcome A) : bool :=
  match r with Ok _ => true | Raise _ => false end.

(** State and exceptions: the effects made before an exception stay. *)
Definition M (S A : Type) : Type := S -> outcome A * S.

Definition ret {S A} (a : A) : M S A := fun s => (Ok a, s).

Definition bind {S A B} (m : M S A) (k : A -> M S B) : M S B :=
  fun s =>
    match m s with
    | (Ok a, s') => k a s'
    | (Raise e, s') => (Raise e, s')
    end.

(** [try: body / except <handles>: handler]. *)
Definition try_except {S A} (body : M S A) (handles : exn -> bool)
    (handler : exn -> M S A) : M S A :=
  fun s =>
    match body s with
    | (Ok a, s') => (Ok a, s')
    | (Raise e, s') => if handles e then handler e s' else (Raise e, s')
    end.

(** A value that may raise, used as a statement. *)
Definition lift {S A} (r : outcome A) : M S A := fun s => (r, s).

(** [try: body / finally: cleanup]: the cleanup runs however the body
    ends, and the body's outcome stays unless the cleanup raises. *)
Definition finally {S A} (body : M S A) (cleanup : M S unit) : M S A :=
  fun s =>
    match body s with
    | (r, s') =>
        match cleanup s' with
        | (Ok _, s'') => (r, s'')
        | (Raise e, s'') => (Raise e, s'')
        end
    end.

(** [str(i)] for a non-negative integer. *)
Definition str_nat (n : nat) : string := pretty n.

(** [s.rfind(c)]: the index of the last [c] in [s], or [-1]. *)
Fixpoint rfind_from (c : ascii) (s : string) (i last : Z) : Z :=
  match s with
  | EmptyString => last
  | String a s' =>
      rfind_from c s' (i + 1) (if Ascii.eqb a c then i else last)
  end.

Definition rfind (c : ascii) (s : string) : Z := rfind_from c s 0 (-1).

(** [s.startswith(c)] and [s.endswith(c)] for a single character. *)
Definition startswith (c : ascii) (s : string) : bool :=
  match s with
  | String a _ => Ascii.eqb a c
  | EmptyString => false
  end.

Fixpoint endswith (c : ascii) (s : string) : bool :=
  match s with
  | EmptyString => false
  | String a EmptyString => Ascii.eqb a c
  | String _ s' => endswith c s'
  end.

(** [s[i:]] for [i >= 0]. *)
Fixpoint slice_from (i : nat) (s : string) : string :=
  match i, s with
  | O, _ => s
  | S _, EmptyString => EmptyString
  | S i', String _ s' => slice_from i' s'
  end.

(** [os.path.basename] of [posixpath]:
    [i = p.rfind('/') + 1; return p[i:]]. *)
Definition basename (p : string) : string :=
  let i := (rfind "/" p + 1)%Z in
  slice_from (Z.to_nat i) p.

(** [s[:i]] for [i >= 0]. *)
Fixpoint slice_to (i : nat) (s : string) : string :=
  match i, s with
  | O, _ => EmptyString
  | S _, EmptyString => EmptyString
  | S i', String c s' => String c (slice_to i' s')
  end.

(** [s.rstrip(c)]. *)
Fixpoint rstrip (c : ascii) (s : string) : string :=
  match s with
  | EmptyString => EmptyString
  | String a s' =>
      match rstrip c s' with
      | EmptyString => if Ascii.eqb a c then EmptyString else String a EmptyString
      | t => String a t
      end
  end.

(** [c * n]. *)
Fixpoint times (c : ascii) (n : nat) : string :=
  match n with
  | O => EmptyString
  | S n' => String c (times c n')
  end.

(** [os.path.dirname] of [posixpath]:
    [i = p.rfind('/') + 1; head = p[:i]]
    [if head and head != '/'*len(head): head = head.rstrip('/')]. *)
Definition dirname (p : string) : string :=
  let i := (rfind "/" p + 1)%Z in
  let head := slice_to (Z.to_nat i) p in
  if negb (String.eqb head EmptyString)
     && negb (String.eqb head (times "/" (String.length head)))
  then rstrip "/" head
  else head.

(** [os.path.join(a, b)] of [posixpath]: [b] alone when it is absolute,
    no separator added when [a] is empty or already ends with one. *)
Definition path_join (a b : string) : string :=
  if startswith "/" b then b
  else if decide (a = EmptyString) then a +:+ b
  else if endswith "/" a then a +:+ b
  else a +:+ "/" +:+ b.


(** Splitting a line at every occurrence of a delimiter, the way a
    delimited-text reader cuts an unquoted record into fields. *)
Fixpoint split_on (d : ascii) (s : string) : list string :=
  match s with
  | EmptyString => [EmptyString]
  | String c s' =>
      if Ascii.eqb c d then EmptyString :: split_on d s'
      else match split_on d s' with
           | h :: t => String c h :: t
           | [] => [String c EmptyString]
           end
  end.

End Py.

Notation "'let!' x ':=' m 'in' k" := (Py.bind m (fun x => k))
  (at level 10, x name, m at level 100, k at level 200,
   format "'[v' 'let!'  x  ':='  m  'in'  '/' k ']'").
Notation "m ';;' k" := (Py.bind m (fun _ => k))
  (at level 100, k at level 200, right associativity,
   format "'[v' m  ';;'  '/' k ']'").

(* ===================================================================== *)
(** ** The entry script [batch_diabetes.py] *)
(* ===================================================================== *)

Module Script.

(** A numpy array: its shape and its elements in row-major order. *)
Record ndarray (A : Type) := NdArray { shape : list nat; data : list A }.
Arguments NdArray {A} shape data.
Arguments shape {A} _.
Arguments data {A} _.

(** [a.reshape(1, -1)]: one row holding every element of [a]. *)
Definition reshape_1_row {A} (a : ndarray A) : ndarray A :=
  NdArray [1; length (data a)] (data a).

(** ["{}: {}".format(a, b)] on the string forms of its arguments. *)
Definition format_result (a b : string) : string := a +:+ ": " +:+ b.

Section WithLibraries.

(** [value]: the numbers read from a file; [label]: an element of a
    prediction array; [model_t]: an unpickled model. *)
Context {value label model_t : Type}.

(** The library calls of the script. *)
Variable get_model_path : string -> Py.outcome string.
Variable joblib_load : string -> Py.outcome model_t.
Variable genfromtxt : string -> Py.outcome (ndarray value).
Variable predict : model_t -> ndarray value -> Py.outcome (list label).
(** [str] of a prediction element, as [format] renders it. *)
Variable str_label : label -> string.

(** The library calls made so far, oldest first. *)
Inductive event :=
| EvGetModelPath (name : string)
| EvJoblibLoad (path : string)
| EvGenfromtxt (f : string)
| EvPredict (m : model_t) (x : ndarray value).

(** The module's state: the global [model], unbound until [init] has
    assigned it, and the calls made. *)
Record state := State { glob_model : option model_t; events : list event }.

Definition emit (e : event) : Py.M state unit :=
  fun s => (Py.Ok tt, State (glob_model s) (events s ++ [e])).

Definition set_model (m : model_t) : Py.M state unit :=
  fun s => (Py.Ok tt, State (Some m) (events s)).

(** Reading the global [model]: [NameError] while it is unbound. *)
Definition get_model : Py.M state model_t :=
  fun s =>
    match glob_model s with
    | Some m => (Py.Ok m, s)
    | None => (Py.Raise (Py.Exn Py.NameError "name 'model' is not defined"), s)
    end.

(** [prediction[0]]. *)
Definition getitem0 (prediction : list label) : Py.outcome label :=
  match prediction with
  | p :: _ => Py.Ok p
  | [] => Py.Raise (Py.Exn Py.IndexError "index 0 is out of bounds")
  end.

Definition init : Py.M state unit :=
  emit (EvGetModelPath "diabetes_model") ;;
  let! model_path := Py.lift (get_model_path "diabetes_model") in
  emit (EvJoblibLoad model_path) ;;
  let! m := Py.lift (joblib_load model_path) in
  set_model m.

(** The body of the loop of [run] for the file [f]; it returns the
    string appended to [resultList]. *)
Definition run_body (f : string) : Py.M state string :=
  emit (EvGenfromtxt f) ;;
  let! data := Py.lift (genfromtxt f) in
  let! model := get_model in
  let x := reshape_1_row data in
  emit (EvPredict model x) ;;
  let! prediction := Py.lift (predict model x) in
  let! p0 := Py.lift (getitem0 prediction) in
  Py.ret (format_result (Py.basename f) (str_label p0)).

Fixpoint run_loop (mini_batch : list string) (resultList : list string)
    : Py.M state (list string) :=
  match mini_batch with
  | [] => Py.ret resultList
  | f :: rest =>
      let! line := run_body f in
      run_loop rest (resultList ++ [line])
  end.

Definition run (mini_batch : list string) : Py.M state (list string) :=
  run_loop mini_batch [].

(** The states the module goes through while the platform calls [run]
    on one mini-batch after another, whatever each call's outcome. *)
Inductive runs_to : state -> state -> Prop :=
| runs_refl s : runs_to s s
| runs_step s mini_batch s' :
    runs_to s s' -> runs_to s (snd (run mini_batch s')).

(** Every prediction among the calls [evs] was asked of the model [m]. *)
Definition predictions_by (m : model_t) (evs : list event) : Prop :=
  Forall (fun e => match e with
                   | EvPredict m' _ => m' = m
                   | _ => True
                   end) evs.

(** No prediction was made among the calls [evs]. *)
Definition no_prediction (evs : list event) : Prop :=
  Forall (fun e => match e with
                   | EvPredict _ _ => False
                   | _ => True
                   end) evs.

(** The file [f] can be read, and the model [m] answers for its values,
    put in one row, with an array that starts with [p]. *)
Definition predicted (m : model_t) (f : string) (p : label) : Prop :=
  exists data rest,
    genfromtxt f = Py.Ok data /\
    predict m (reshape_1_row data) = Py.Ok (p :: rest).

(** The calls made between the states [s] and [s']. *)
Definition new_events (s s' : state) : list event :=
  drop (length (events s)) (events s').

(** The files read among the calls [evs], in the order of the reads. *)
Definition reads (evs : list event) : list string :=
  omap (fun e => match e with
                 | EvGenfromtxt f => Some f
                 | _ => None
                 end) evs.

(** The turn of the loop for the file [f] ends with the exception [e]
    under the model [m]: the read raises it, or the prediction does, or
    the prediction array is empty and taking its first element does. *)
Definition refused (m : model_t) (f : string) (e : Py.exn) : Prop :=
  genfromtxt f = Py.Raise e \/
  exists data,
    genfromtxt f = Py.Ok data /\
    (predict m (reshape_1_row data) = Py.Raise e \/
     (predict m (reshape_1_row data) = Py.Ok [] /\
      getitem0 [] = Py.Raise e)).

End WithLibraries.

End Script.

(* ===================================================================== *)
(** ** Generating the batch data (the sample and the loop that saves it) *)
(* ===================================================================== *)

Module BatchData.

(** The feature columns the sample is taken from, in the order written. *)
Definition feature_columns : list string :=
  ["Pregnancies"; "PlasmaGlucose"; "DiastolicBloodPressure";
   "TricepsThickness"; "SerumInsulin"; "BMI"; "DiabetesPedigree"; "Age"].

Definition label_column : string := "Diabetic".

Definition batch_folder : string := "./batch-data".

(** The name of the file written at index [i] of the loop. *)
Definition fname (i : nat) : string := Py.str_nat (i + 1) +:+ ".csv".

(** [sep.join(items)]. *)
Fixpoint join (sep : string) (items : list string) : string :=
  match items with
  | [] => EmptyString
  | [x] => x
  | x :: rest => x +:+ sep +:+ join sep rest
  end.

Section WithValues.

(** The numbers of the data set and the types of its columns ([int64],
    [float64], ...).  Three things are numpy's: the text [tofile] writes
    for a number, the common type of the types of several columns, and
    the conversion of a number to a type. *)
Context {value dtype : Type}.
Variable repr : value -> string.
Variable common_type : list dtype -> dtype.
Variable astype : dtype -> value -> value.

(** A column of a frame: its type and one value per row. *)
Record Column := Col { col_dtype : dtype; col_values : list value }.

(** A pandas frame: its columns in order, each with its name.
    [pd.read_csv] gives every column a name of its own. *)
Record DataFrame := Frame {
  df_nrows : nat;
  df_columns : list (string * Column)
}.

(** Every column holds one value per row. *)
Definition df_wf (df : DataFrame) : Prop :=
  Forall (fun c => length (col_values (snd c)) = df_nrows df) (df_columns df).

Fixpoint assoc {A} (k : string) (l : list (string * A)) : option A :=
  match l with
  | [] => None
  | (k', v) :: rest => if decide (k' = k) then Some v else assoc k rest
  end.

Definition column (name : string) (df : DataFrame) : option Column :=
  assoc name (df_columns df).

(** The value of column [name] at row [i]. *)
Definition cell (df : DataFrame) (name : string) (i : nat) : option value :=
  col ← column name df; col_values col !! i.

(** [df[[names]]]: the named columns in the order asked, [KeyError] when
    one is missing. *)
Fixpoint getitem_columns_go (names : list string) (df : DataFrame)
    : Py.outcome (list (string * Column)) :=
  match names with
  | [] => Py.Ok []
  | name :: rest =>
      match column name df with
      | None => Py.Raise (Py.Exn Py.KeyError (name +:+ " not in index"))
      | Some col =>
          match getitem_columns_go rest df with
          | Py.Ok cols => Py.Ok ((name, col) :: cols)
          | Py.Raise e => Py.Raise e
          end
      end
  end.

Definition getitem_columns (names : list string) (df : DataFrame)
    : Py.outcome DataFrame :=
  match getitem_columns_go names df with
  | Py.Ok cols => Py.Ok (Frame (df_nrows df) cols)
  | Py.Raise e => Py.Raise e
  end.

(** The rows of a column at the positions [picked]. *)
Definition take_column (picked : list nat) (c : Column) : Column :=
  Col (col_dtype c) (omap (fun i => col_values c !! i) picked).

(** [df.take(picked)]: the rows at the positions [picked], [IndexError]
    when a position is not a row. *)
Definition take_rows (picked : list nat) (df : DataFrame)
    : Py.outcome DataFrame :=
  if forallb (fun i => i <? df_nrows df) picked then
    Py.Ok (Frame (length picked)
             (map (fun c => (fst c, take_column picked (snd c)))
                  (df_columns df)))
  else Py.Raise (Py.Exn Py.IndexError "indices are out-of-bounds").

(** [df.sample(n=n)]: without replacement, so it refuses a frame of fewer
    than [n] rows; otherwise it takes the rows at the positions [picked]
    that the random generator has drawn ([n] distinct row positions). *)
Definition sample (n : nat) (picked : list nat) (df : DataFrame)
    : Py.outcome DataFrame :=
  if df_nrows df <? n then
    Py.Raise (Py.Exn Py.ValueError
      "Cannot take a larger sample than population when 'replace=False'")
  else take_rows picked df.

(** The types of the columns of a frame, in order. *)
Definition dtypes (df : DataFrame) : list dtype :=
  map (fun c => col_dtype (snd c)) (df_columns df).

(** [df.values]: the frame as one two-dimensional array, one list per
    row.  An array has one type: every value is converted to the common
    type of the columns (integers next to a column of floats become
    floats). *)
Definition values (df : DataFrame) : list (list value) :=
  let t := common_type (dtypes df) in
  map (fun i => omap (fun c => astype t <$> col_values (snd c) !! i)
                     (df_columns df))
      (seq 0 (df_nrows df)).

(** [sample[i]] on the array. *)
Definition getitem_row (a : list (list value)) (i : nat)
    : Py.outcome (list value) :=
  match a !! i with
  | Some row => Py.Ok row
  | None => Py.Raise (Py.Exn Py.IndexError "index is out of bounds for axis 0")
  end.

(** The local disk and the cell's output: the regular files by path with
    their text, the paths that are directories, and what has been
    printed. *)
Record state := State {
  files : gmap string string;
  dirs : gset string;
  stdout : list string
}.

Definition print (line : string) : Py.M state unit :=
  fun s => (Py.Ok tt, State (files s) (dirs s) (stdout s ++ [line])).

(** The path [d] names a directory of the disk: one of [dirs], or the
    working directory, which is always there (written [.], or empty as
    the directory part of a bare file name). *)
Definition is_dir (s : state) (d : string) : bool :=
  bool_decide (d = EmptyString \/ d = "." \/ d ∈ dirs s).

(** [os.makedirs(folder, exist_ok=True)] for a folder of the working
    directory: a directory of that name is left as it is, a regular file
    of that name makes the call raise [FileExistsError] (an [OSError]),
    and otherwise the directory is made. *)
Definition makedirs (folder : string) : Py.M state unit :=
  fun s =>
    match files s !! folder with
    | Some _ =>
        (Py.Raise (Py.Exn Py.OSError ("[Errno 17] File exists: '" +:+ folder +:+ "'")), s)
    | None => (Py.Ok tt, State (files s) ({[ folder ]} ∪ dirs s) (stdout s))
    end.

(** [row.tofile(path, sep=",")] for a path made of a directory and a file
    name: the file is opened for writing, which needs its directory to be
    there ([FileNotFoundError] otherwise) and the path not to be a
    directory ([IsADirectoryError]); then the text of the elements,
    separated, replaces whatever the file held.  Both errors are
    [OSError]s. *)
Definition tofile (row : list value) (path : string) (sep : string)
    : Py.M state unit :=
  fun s =>
    if negb (is_dir s (Py.dirname path)) then
      (Py.Raise (Py.Exn Py.OSError
         ("[Errno 2] No such file or directory: '" +:+ path +:+ "'")), s)
    else if is_dir s path then
      (Py.Raise (Py.Exn Py.OSError
         ("[Errno 21] Is a directory: '" +:+ path +:+ "'")), s)
    else
      (Py.Ok tt,
       State (<[path := join sep (map repr row)]> (files s)) (dirs s) (stdout s)).

(** [for i in range(100): ...] over the indices [range_]. *)
Fixpoint save_loop (range_ : list nat) (sample_ : list (list value))
    : Py.M state unit :=
  match range_ with
  | [] => Py.ret tt
  | i :: rest =>
      let fname_ := fname i in
      let! row := Py.lift (getitem_row sample_ i) in
      tofile row (Py.path_join batch_folder fname_) "," ;;
      save_loop rest sample_
  end.

(** From the sample to ["files saved!"], given the frame read from
    [data/diabetes2.csv] and the rows the random generator picks. *)
Definition generate (diabetes : DataFrame) (picked : list nat)
    : Py.M state unit :=
  let! features := Py.lift (getitem_columns feature_columns diabetes) in
  let! sampled := Py.lift (sample 100 picked features) in
  let sample_ := values sampled in
  makedirs batch_folder ;;
  print "Folder created!" ;;
  print "Saving files..." ;;
  save_loop (seq 0 100) sample_ ;;
  print "files saved!".

(** The path of the [k]-th batch file, [k] counted from one. *)
Definition batch_file (k : nat) : string :=
  "./batch-data/" +:+ Py.str_nat k +:+ ".csv".

(** Two frames hold the same feature columns over the same rows. *)
Definition same_features (d1 d2 : DataFrame) : Prop :=
  df_nrows d1 = df_nrows d2 /\
  forall name, name ∈ feature_columns -> column name d1 = column name d2.

(** The disk lets the step write: no regular file stands where the
    folder goes, and no directory where a batch file goes. *)
Definition writable (s : state) : Prop :=
  files s !! batch_folder = None /\
  forall k, 1 <= k <= 100 -> batch_file k ∉ dirs s.

End WithValues.

End BatchData.

(* ===================================================================== *)
(** ** The notebook's top-level cells *)
(* ===================================================================== *)

Module Notebook.

(** The libraries the cells call into.  [AzureML] is the platform SDK and
    [Requests] carries the call to the REST endpoint; the others work on
    the local machine.  [Builtins] stands for Python itself, when it calls
    a value that a global name holds. *)
Inductive library :=
| AzureML | Requests | Pandas | Numpy | Sklearn | Joblib | OS | Shutil
| IPython | Builtins.

Definition is_platform (l : library) : bool :=
  match l with
  | AzureML | Requests => true
  | _ => false
  end.

(** The values the cells handle.  What a library builds (a workspace, a
    frame, a fitted model, a response) is a handle [VObj] that only the
    library can look into.  [VModule] is an imported module, [VBuiltin] a
    function of Python's own, [VExc] an exception bound by [except ... as]. *)
#[local] Set Warnings "-register-all".
Inductive val :=
| VNone
| VBool (b : bool)
| VInt (n : Z)
| VFloat (literal : string)
| VStr (s : string)
| VObj (h : nat)
| VList (items : list val)
| VDict (items : list (string * val))
| VModule (name : string)
| VBuiltin (name : string)
| VExc (e : Py.exn).
#[local] Set Warnings "register-all".

(** One call into a library: a function, a method (its receiver is the
    first argument), or the reading or writing of a property. *)
Record call := Call {
  call_lib : library;
  call_fn : string;
  call_args : list val;
  call_kwargs : list (string * val)
}.

(** A call as it happened: the cell that made it and how it ended. *)
Record ev := Ev {
  ev_cell : nat;
  ev_call : call;
  ev_result : Py.outcome val
}.

(** The kernel's state: the calls made, oldest first, what was printed,
    and the global names. *)
Record state := State {
  trace : list ev;
  stdout : list string;
  globals : gmap string val
}.

Definition initial : state := State [] [] ∅.

(** [a == b]. *)
Fixpoint val_eqb (a b : val) : bool :=
  match a, b with
  | VNone, VNone => true
  | VBool x, VBool y => Bool.eqb x y
  | VInt x, VInt y => Z.eqb x y
  | VFloat x, VFloat y => String.eqb x y
  | VStr x, VStr y => String.eqb x y
  | VObj x, VObj y => Nat.eqb x y
  | VList l, VList l' =>
      (fix go (l l' : list val) : bool :=
         match l, l' with
         | [], [] => true
         | x :: r, y :: r' => val_eqb x y && go r r'
         | _, _ => false
         end) l l'
  | VDict d, VDict d' =>
      (fix go (d d' : list (string * val)) : bool :=
         match d, d' with
         | [], [] => true
         | (k, x) :: r, (k', y) :: r' =>
             String.eqb k k' && val_eqb x y && go r r'
         | _, _ => false
         end) d d'
  | VModule x, VModule y => String.eqb x y
  | VBuiltin x, VBuiltin y => String.eqb x y
  | VExc x, VExc y => bool_decide (x = y)
  | _, _ => false
  end.

(** [str(v)], for what the cells print. *)
Definition str_val (v : val) : string :=
  match v with
  | VNone => "None"
  | VBool true => "True"
  | VBool false => "False"
  | VInt n => pretty n
  | VFloat literal => literal
  | VStr s => s
  | VObj h => "<object " +:+ pretty h +:+ ">"
  | VList _ => "[...]"
  | VDict _ => "{...}"
  | VModule name => "<module '" +:+ name +:+ "'>"
  | VBuiltin name => "<built-in function " +:+ name +:+ ">"
  | VExc e => Py.exn_msg e
  end.

Definition type_error {A} (msg : string) : Py.outcome A :=
  Py.Raise (Py.Exn Py.OtherException msg).

Definition attribute_error {A} (attribute : string) : Py.outcome A :=
  Py.Raise (Py.Exn Py.AttributeError
              ("object has no attribute '" +:+ attribute +:+ "'")).

(** [d[key]] for a string key. *)
Definition subscript (d : val) (key : string) : Py.outcome val :=
  match d with
  | VDict items =>
      match BatchData.assoc key items with
      | Some v => Py.Ok v
      | None => Py.Raise (Py.Exn Py.KeyError key)
      end
  | _ => type_error "object is not subscriptable"
  end.

(** What a [for] loop goes through: the items of a list, the keys of a
    dictionary. *)
Definition iterate (v : val) : Py.outcome (list val) :=
  match v with
  | VList items => Py.Ok items
  | VDict items => Py.Ok (map (fun kv => VStr (fst kv)) items)
  | _ => type_error "object is not iterable"
  end.

(** [a, b, c = v] and [a, b, c, d = v]. *)
Definition unpack3 (v : val) : Py.outcome (val * val * val) :=
  match v with
  | VList [a; b; c] => Py.Ok (a, b, c)
  | VList _ => Py.Raise (Py.Exn Py.ValueError "wrong number of values to unpack")
  | _ => type_error "cannot unpack non-iterable object"
  end.

Definition unpack4 (v : val) : Py.outcome (val * val * val * val) :=
  match v with
  | VList [a; b; c; d] => Py.Ok (a, b, c, d)
  | VList _ => Py.Raise (Py.Exn Py.ValueError "wrong number of values to unpack")
  | _ => type_error "cannot unpack non-iterable object"
  end.

(** [suffix] ends [s]: [s.endswith(suffix)]. *)
Definition str_endswith (suffix s : string) : bool :=
  let n := String.length s in
  let k := String.length suffix in
  (k <=? n) && String.eqb (Py.slice_from (n - k) s) suffix.

(** [f.endswith(suffix)] on a value: only strings have the method. *)
Definition endswith (f : val) (suffix : string) : Py.outcome bool :=
  match f with
  | VStr s => Py.Ok (str_endswith suffix s)
  | _ => type_error "object has no attribute 'endswith'"
  end.

(** [posixpath.join(root, file)] on values. *)
Definition join_paths (root file : val) : Py.outcome val :=
  match root, file with
  | VStr r, VStr f => Py.Ok (VStr (Py.path_join r f))
  | _, _ => type_error "expected str, bytes or os.PathLike object"
  end.

(** The module that [import os] binds to the name [os]. *)
Definition os_module : val := VModule "os".

Definition is_os (v : val) : bool :=
  match v with
  | VModule name => String.eqb name "os"
  | _ => false
  end.

(** [os.path.join(root, file)], where [os] is what the global name [os]
    holds: of the values the cells handle, only the module has [path]. *)
Definition os_path_join (os root file : val) : Py.outcome val :=
  if is_os os then join_paths root file else attribute_error "path".

(** [for x in items: body]. *)
Fixpoint for_each {A} (items : list A) (body : A -> Py.M state unit)
    : Py.M state unit :=
  match items with
  | [] => Py.ret tt
  | x :: rest => body x ;; for_each rest body
  end.

Definition assign (name : string) (v : val) : Py.M state unit :=
  fun s => (Py.Ok tt, State (trace s) (stdout s) (<[name := v]> (globals s))).

(** Reading a global name: [NameError] while it is unbound. *)
Definition load (name : string) : Py.M state val :=
  fun s =>
    match globals s !! name with
    | Some v => (Py.Ok v, s)
    | None =>
        (Py.Raise (Py.Exn Py.NameError ("name '" +:+ name +:+ "' is not defined")), s)
    end.

(** Reading the name of a function of Python's own, such as [next]: a
    global of that name comes first, the builtin stands in while no cell
    has bound one. *)
Definition load_builtin (name : string) : Py.M state val :=
  fun s =>
    match globals s !! name with
    | Some v => (Py.Ok v, s)
    | None => (Py.Ok (VBuiltin name), s)
    end.

(** [del name], for a name that is bound or not. *)
Definition unbind (name : string) : Py.M state unit :=
  fun s => (Py.Ok tt, State (trace s) (stdout s) (delete name (globals s))).

(** [import os]: the module is bound to the global name [os].  The names
    a cell imports for its own statements are used by that cell only and
    are left out of the globals; [os], imported by cells 6 and 10, is
    read again by cells 22 and 34, which do not import it. *)
Definition import_os : Py.M state unit := assign "os" os_module.

(** [except ... as name: handler]: the exception is bound to [name] for
    the handler, and [name] is unbound when the handler ends, however it
    ends. *)
Definition except_as {A} (name : string) (handler : Py.M state A)
    (e : Py.exn) : Py.M state A :=
  assign name (VExc e) ;;
  Py.finally handler (unbind name).

(** [print(a, b, ...)]: one line, the parts separated by a space. *)
Definition print (parts : list string) : Py.M state unit :=
  fun s => (Py.Ok tt,
            State (trace s) (stdout s ++ [BatchData.join " " parts]) (globals s)).

Section WithLibraries.

(** The libraries: how a call ends, given the calls made before it. *)
Variable lib : list ev -> call -> Py.outcome val.

(** The constants [azureml.core.VERSION] and [DEFAULT_CPU_IMAGE]. *)
Variable azureml_VERSION : val.
Variable DEFAULT_CPU_IMAGE : val.

(** The call [c] made by the cell numbered [cell]. *)
Definition issue (cell : nat) (c : call) : Py.M state val :=
  fun s =>
    let r := lib (trace s) c in
    (r, State (trace s ++ [Ev cell c r]) (stdout s) (globals s)).

Definition lib_call (cell : nat) (l : library) (fn : string)
    (args : list val) (kwargs : list (string * val)) : Py.M state val :=
  issue cell (Call l fn args kwargs).

(** The same, for a statement that drops the result. *)
Definition lib_do (cell : nat) (l : library) (fn : string)
    (args : list val) (kwargs : list (string * val)) : Py.M state unit :=
  lib_call cell l fn args kwargs ;; Py.ret tt.

Definition feature_names : val :=
  VList (map VStr BatchData.feature_columns).

(** [os.walk(top)], where [os] is what the global name [os] holds. *)
Definition os_walk (cell : nat) (os : val) (top : string) : Py.M state val :=
  if is_os os then lib_call cell OS "walk" [VStr top] []
  else Py.lift (attribute_error "walk").

(** [f(x)] where [f] is what the name [next] holds: the builtin asks the
    generator for its next item; another function or an object of a
    library is called by Python, with an outcome of its own; a number, a
    text or another plain value cannot be called ([TypeError]). *)
Definition call_next (cell : nat) (f x : val) : Py.M state val :=
  match f with
  | VBuiltin name =>
      if String.eqb name "next"
      then lib_call cell AzureML "generator.__next__" [x] []
      else lib_call cell Builtins "__call__" [f; x] []
  | VObj _ => lib_call cell Builtins "__call__" [f; x] []
  | _ => Py.lift (type_error "object is not callable")
  end.

(** *** Connect to your workspace *)

Definition cell_2 : Py.M state unit :=
  let! ws := lib_call 2 AzureML "Workspace.from_config" [] [] in
  assign "ws" ws ;;
  let! name := lib_call 2 AzureML "Workspace.name" [ws] [] in
  print ["Ready to use Azure ML " +:+ str_val azureml_VERSION
           +:+ " to work with " +:+ str_val name].

(** *** Train and register a model *)

Definition cell_4_train : Py.M state unit :=
  let! ws := load "ws" in
  let! experiment := lib_call 4 AzureML "Experiment" []
                       [("workspace", ws); ("name", VStr "mslearn-train-diabetes")] in
  assign "experiment" experiment ;;
  let! run := lib_call 4 AzureML "Experiment.start_logging" [experiment] [] in
  assign "run" run ;;
  let! ename := lib_call 4 AzureML "Experiment.name" [experiment] [] in
  print ["Starting experiment:"; str_val ename] ;;
  print ["Loading Data..."] ;;
  let! diabetes := lib_call 4 Pandas "read_csv" [VStr "data/diabetes.csv"] [] in
  assign "diabetes" diabetes ;;
  let! fx := lib_call 4 Pandas "DataFrame.__getitem__" [diabetes; feature_names] [] in
  let! X := lib_call 4 Pandas "DataFrame.values" [fx] [] in
  let! fy := lib_call 4 Pandas "DataFrame.__getitem__"
               [diabetes; VStr BatchData.label_column] [] in
  let! y := lib_call 4 Pandas "Series.values" [fy] [] in
  assign "X" X ;;
  assign "y" y ;;
  let! split := lib_call 4 Sklearn "train_test_split" [X; y]
                  [("test_size", VFloat "0.30"); ("random_state", VInt 0)] in
  let! parts := Py.lift (unpack4 split) in
  let '(X_train, X_test, y_train, y_test) := parts in
  assign "X_train" X_train ;;
  assign "X_test" X_test ;;
  assign "y_train" y_train ;;
  assign "y_test" y_test ;;
  print ["Training a decision tree model"] ;;
  let! tree := lib_call 4 Sklearn "DecisionTreeClassifier" [] [] in
  let! model := lib_call 4 Sklearn "DecisionTreeClassifier.fit"
                  [tree; X_train; y_train] [] in
  assign "model" model ;;
  let! y_hat := lib_call 4 Sklearn "DecisionTreeClassifier.predict"
                  [model; X_test] [] in
  assign "y_hat" y_hat ;;
  let! hits := lib_call 4 Numpy "ndarray.__eq__" [y_hat; y_test] [] in
  let! acc := lib_call 4 Numpy "average" [hits] [] in
  assign "acc" acc ;;
  print ["Accuracy:"; str_val acc] ;;
  let! facc := lib_call 4 Numpy "float" [acc] [] in
  lib_do 4 AzureML "Run.log" [run; VStr "Accuracy"; facc] [] ;;
  let! y_scores := lib_call 4 Sklearn "DecisionTreeClassifier.predict_proba"
                     [model; X_test] [] in
  assign "y_scores" y_scores ;;
  let! col1 := lib_call 4 Numpy "ndarray.__getitem__"
                 [y_scores; VStr ":"; VInt 1] [] in
  let! auc := lib_call 4 Sklearn "roc_auc_score" [y_test; col1] [] in
  assign "auc" auc ;;
  print ["AUC: " +:+ str_val auc] ;;
  let! fauc := lib_call 4 Numpy "float" [auc] [] in
  lib_do 4 AzureML "Run.log" [run; VStr "AUC"; fauc] [] ;;
  let model_file := "diabetes_model.pkl" in
  assign "model_file" (VStr model_file) ;;
  lib_do 4 Joblib "dump" [] [("value", model); ("filename", VStr model_file)] ;;
  lib_do 4 AzureML "Run.upload_file" [run]
    [("name", VStr ("outputs/" +:+ model_file));
     ("path_or_stream", VStr ("./" +:+ model_file))] ;;
  lib_do 4 AzureML "Run.complete" [run] [].

Definition cell_4_register : Py.M state unit :=
  let! run := load "run" in
  let! metrics1 := lib_call 4 AzureML "Run.get_metrics" [run] [] in
  let! auc := Py.lift (subscript metrics1 "AUC") in
  let! metrics2 := lib_call 4 AzureML "Run.get_metrics" [run] [] in
  let! accuracy := Py.lift (subscript metrics2 "Accuracy") in
  lib_do 4 AzureML "Run.register_model" [run]
    [("model_path", VStr "outputs/diabetes_model.pkl");
     ("model_name", VStr "diabetes_model");
     ("tags", VDict [("Training context", VStr "Inline Training")]);
     ("properties", VDict [("AUC", auc); ("Accuracy", accuracy)])] ;;
  print ["Model trained and registered."].

Definition cell_4 : Py.M state unit := cell_4_train ;; cell_4_register.

(** *** Generate and upload batch data *)

Definition cell_6_datastores : Py.M state unit :=
  let! ws := load "ws" in
  lib_do 6 AzureML "Workspace.set_default_datastore" [ws; VStr "workspaceblobstore"] [] ;;
  let! default_ds := lib_call 6 AzureML "Workspace.get_default_datastore" [ws] [] in
  assign "default_ds" default_ds ;;
  let! stores := lib_call 6 AzureML "Workspace.datastores" [ws] [] in
  let! names := Py.lift (iterate stores) in
  for_each names (fun ds_name =>
    assign "ds_name" ds_name ;;
    let! name := lib_call 6 AzureML "Datastore.name" [default_ds] [] in
    print [str_val ds_name; "- Default ="; str_val (VBool (val_eqb ds_name name))]).

(** The sample and the loop that saves it; [BatchData] gives the frame and
    the array their contents. *)
Definition cell_6_generate : Py.M state unit :=
  let! diabetes := lib_call 6 Pandas "read_csv" [VStr "data/diabetes2.csv"] [] in
  assign "diabetes" diabetes ;;
  let! features := lib_call 6 Pandas "DataFrame.__getitem__" [diabetes; feature_names] [] in
  let! sampled := lib_call 6 Pandas "DataFrame.sample" [features] [("n", VInt 100)] in
  let! sample := lib_call 6 Pandas "DataFrame.values" [sampled] [] in
  assign "sample" sample ;;
  let batch_folder := BatchData.batch_folder in
  assign "batch_folder" (VStr batch_folder) ;;
  lib_do 6 OS "makedirs" [VStr batch_folder] [("exist_ok", VBool true)] ;;
  print ["Folder created!"] ;;
  print ["Saving files..."] ;;
  for_each (seq 0 100) (fun i =>
    assign "i" (VInt (Z.of_nat i)) ;;
    let fname := BatchData.fname i in
    assign "fname" (VStr fname) ;;
    let! row := lib_call 6 Numpy "ndarray.__getitem__" [sample; VInt (Z.of_nat i)] [] in
    lib_do 6 Numpy "ndarray.tofile" [row; VStr (Py.path_join batch_folder fname)]
      [("sep", VStr ",")]) ;;
  print ["files saved!"].

Definition cell_6_upload : Py.M state unit :=
  print ["Uploading files to datastore..."] ;;
  let! ws := load "ws" in
  let! default_ds := lib_call 6 AzureML "Workspace.get_default_datastore" [ws] [] in
  assign "default_ds" default_ds ;;
  lib_do 6 AzureML "Datastore.upload" [default_ds]
    [("src_dir", VStr "batch-data"); ("target_path", VStr "batch-data");
     ("overwrite", VBool true); ("show_progress", VBool true)].

Definition register_call (batch_data_set ws : val) : call :=
  Call AzureML "FileDataset.register" [batch_data_set]
    [("workspace", ws); ("name", VStr "batch-data");
     ("description", VStr "batch data"); ("create_new_version", VBool true)].

(** [try: batch_data_set = batch_data_set.register(...)]
    [except Exception as ex: print(ex)]. *)
Definition cell_6_try_register : Py.M state unit :=
  Py.try_except
    (let! batch_data_set := load "batch_data_set" in
     let! ws := load "ws" in
     let! registered := issue 6 (register_call batch_data_set ws) in
     assign "batch_data_set" registered)
    Py.is_Exception
    (except_as "ex" (let! ex := load "ex" in print [str_val ex])).

Definition cell_6_register : Py.M state unit :=
  let! default_ds := load "default_ds" in
  let! batch_data_set := lib_call 6 AzureML "Dataset.File.from_files" []
      [("path", VList [default_ds; VStr "batch-data/"]); ("validate", VBool false)] in
  assign "batch_data_set" batch_data_set ;;
  cell_6_try_register ;;
  print ["Done!"].

Definition cell_6 : Py.M state unit :=
  import_os ;;
  cell_6_datastores ;; cell_6_generate ;; cell_6_upload ;; cell_6_register.

(** *** Create compute *)

Definition cluster_name : string := "CT-915-02-JMDL".

Definition lookup_call (ws : val) : call :=
  Call AzureML "ComputeTarget" [] [("workspace", ws); ("name", VStr cluster_name)].

(** The inner [try]: create the cluster, print whatever goes wrong. *)
Definition cell_8_create : Py.M state unit :=
  Py.try_except
    (let! compute_config :=
       lib_call 8 AzureML "AmlCompute.provisioning_configuration" []
         [("vm_size", VStr "STANDARD_DS11_V2"); ("max_nodes", VInt 2)] in
     assign "compute_config" compute_config ;;
     let! ws := load "ws" in
     let! inference_cluster :=
       lib_call 8 AzureML "ComputeTarget.create"
         [ws; VStr cluster_name; compute_config] [] in
     assign "inference_cluster" inference_cluster ;;
     lib_do 8 AzureML "ComputeTarget.wait_for_completion" [inference_cluster]
       [("show_output", VBool true)])
    Py.is_Exception
    (except_as "ex" (let! ex := load "ex" in print [str_val ex])).

Definition cell_8 : Py.M state unit :=
  assign "cluster_name" (VStr cluster_name) ;;
  Py.try_except
    (let! ws := load "ws" in
     let! inference_cluster := issue 8 (lookup_call ws) in
     assign "inference_cluster" inference_cluster ;;
     print ["Found existing cluster, use it."])
    Py.is_ComputeTargetException
    (fun _ => cell_8_create).

(** *** Create a pipeline for batch inferencing *)

Definition experiment_folder : string := "batch_pipeline".

Definition cell_10 : Py.M state unit :=
  import_os ;;
  assign "experiment_folder" (VStr experiment_folder) ;;
  lib_do 10 OS "makedirs" [VStr experiment_folder] [("exist_ok", VBool true)] ;;
  print [experiment_folder].

(** [%%writefile $experiment_folder/<name>]: the cell's text goes to the
    file.  The text of cell 12 is the script of [Script]. *)
Definition writefile (cell : nat) (name : string) : Py.M state unit :=
  let! folder := load "experiment_folder" in
  let path := str_val folder +:+ "/" +:+ name in
  lib_do cell IPython "writefile" [VStr path] [] ;;
  print ["Writing " +:+ path].

Definition cell_12 : Py.M state unit := writefile 12 "batch_diabetes.py".

Definition cell_14 : Py.M state unit := writefile 14 "batch_environment.yml".

Definition cell_16 : Py.M state unit :=
  let! folder := load "experiment_folder" in
  let! batch_env :=
    lib_call 16 AzureML "Environment.from_conda_specification"
      [VStr "experiment_env"; VStr (str_val folder +:+ "/batch_environment.yml")] [] in
  assign "batch_env" batch_env ;;
  let! docker := lib_call 16 AzureML "Environment.docker" [batch_env] [] in
  lib_do 16 AzureML "DockerSection.base_image=" [docker; DEFAULT_CPU_IMAGE] [] ;;
  print ["Configuration ready."].

Definition cell_18 : Py.M state unit :=
  let! output_dir := lib_call 18 AzureML "OutputFileDatasetConfig" []
                       [("name", VStr "inferences")] in
  assign "output_dir" output_dir ;;
  let! folder := load "experiment_folder" in
  let! batch_env := load "batch_env" in
  let! inference_cluster := load "inference_cluster" in
  let! parallel_run_config :=
    lib_call 18 AzureML "ParallelRunConfig" []
      [("source_directory", folder); ("entry_script", VStr "batch_diabetes.py");
       ("mini_batch_size", VStr "5"); ("error_threshold", VInt 10);
       ("output_action", VStr "append_row"); ("environment", batch_env);
       ("compute_target", inference_cluster); ("node_count", VInt 2)] in
  assign "parallel_run_config" parallel_run_config ;;
  let! batch_data_set := load "batch_data_set" in
  let! input := lib_call 18 AzureML "FileDataset.as_named_input"
                  [batch_data_set; VStr "diabetes_batch"] [] in
  let! parallelrun_step :=
    lib_call 18 AzureML "ParallelRunStep" []
      [("name", VStr "batch-score-diabetes");
       ("parallel_run_config", parallel_run_config);
       ("inputs", VList [input]); ("output", output_dir);
       ("arguments", VList []); ("allow_reuse", VBool true)] in
  assign "parallelrun_step" parallelrun_step ;;
  print ["Steps defined"].

Definition cell_20 : Py.M state unit :=
  let! ws := load "ws" in
  let! parallelrun_step := load "parallelrun_step" in
  let! pipeline := lib_call 20 AzureML "Pipeline" []
                     [("workspace", ws); ("steps", VList [parallelrun_step])] in
  assign "pipeline" pipeline ;;
  let! experiment := lib_call 20 AzureML "Experiment"
                       [ws; VStr "mslearn-diabetes-batch"] [] in
  let! pipeline_run := lib_call 20 AzureML "Experiment.submit"
                         [experiment; pipeline] [] in
  assign "pipeline_run" pipeline_run ;;
  lib_do 20 AzureML "PipelineRun.wait_for_completion" [pipeline_run]
    [("show_output", VBool true)].

(** Cells 22 and 34 hold the same code: fetch the output of the first
    step of [pipeline_run] and read the results file.  Neither cell
    imports [os]: the name is read from the globals, where cell 6 or
    cell 10 has left it. *)
Definition download_results (cell : nat) : Py.M state unit :=
  lib_do cell Shutil "rmtree" [VStr "diabetes-results"] [("ignore_errors", VBool true)] ;;
  let! next_ := load_builtin "next" in
  let! pipeline_run := load "pipeline_run" in
  let! children := lib_call cell AzureML "PipelineRun.get_children" [pipeline_run] [] in
  let! prediction_run := call_next cell next_ children in
  assign "prediction_run" prediction_run ;;
  let! prediction_output :=
    lib_call cell AzureML "StepRun.get_output_data" [prediction_run; VStr "inferences"] [] in
  assign "prediction_output" prediction_output ;;
  lib_do cell AzureML "OutputFileDataset.download" [prediction_output]
    [("local_path", VStr "diabetes-results")] ;;
  let! os := load "os" in
  let! walk := os_walk cell os "diabetes-results" in
  let! entries := Py.lift (iterate walk) in
  for_each entries (fun entry =>
    let! triple := Py.lift (unpack3 entry) in
    let '(root, dirs, files) := triple in
    assign "root" root ;;
    assign "dirs" dirs ;;
    assign "files" files ;;
    let! names := Py.lift (iterate files) in
    for_each names (fun file =>
      assign "file" file ;;
      let! hit := Py.lift (endswith file "parallel_run_step.txt") in
      if hit : bool then
        let! os := load "os" in
        let! result_file := Py.lift (os_path_join os root file) in
        assign "result_file" result_file
      else Py.ret tt)) ;;
  let! result_file := load "result_file" in
  let! df := lib_call cell Pandas "read_csv" [result_file]
               [("delimiter", VStr ":"); ("header", VNone)] in
  assign "df" df ;;
  lib_do cell Pandas "DataFrame.columns=" [df; VList [VStr "File"; VStr "Prediction"]] [] ;;
  lib_do cell Pandas "DataFrame.head" [df; VInt 20] [].

Definition cell_22 : Py.M state unit := download_results 22.

(** *** Publish the pipeline and use its REST interface *)

Definition cell_24 : Py.M state unit :=
  let! pipeline_run := load "pipeline_run" in
  let! published_pipeline :=
    lib_call 24 AzureML "PipelineRun.publish_pipeline" [pipeline_run]
      [("name", VStr "diabetes-batch-pipeline");
       ("description", VStr "Batch scoring of diabetes data");
       ("version", VStr "1.0")] in
  assign "published_pipeline" published_pipeline.

Definition cell_26 : Py.M state unit :=
  let! published_pipeline := load "published_pipeline" in
  let! rest_endpoint :=
    lib_call 26 AzureML "PublishedPipeline.endpoint" [published_pipeline] [] in
  assign "rest_endpoint" rest_endpoint ;;
  print [str_val rest_endpoint].

Definition cell_28 : Py.M state unit :=
  let! interactive_auth := lib_call 28 AzureML "InteractiveLoginAuthentication" [] [] in
  assign "interactive_auth" interactive_auth ;;
  let! auth_header :=
    lib_call 28 AzureML "InteractiveLoginAuthentication.get_authentication_header"
      [interactive_auth] [] in
  assign "auth_header" auth_header ;;
  print ["Authentication header ready."].

Definition endpoint_call (published_pipeline : val) : call :=
  Call AzureML "PublishedPipeline.endpoint" [published_pipeline] [].

Definition post_call (rest_endpoint auth_header : val) : call :=
  Call Requests "post" [rest_endpoint]
    [("headers", auth_header);
     ("json", VDict [("ExperimentName", VStr "mslearn-diabetes-batch")])].

Definition json_call (response : val) : call :=
  Call Requests "Response.json" [response] [].

Definition experiments_call (ws : val) : call :=
  Call AzureML "Workspace.experiments" [ws] [].

Definition pipeline_run_call (experiment run_id : val) : call :=
  Call AzureML "PipelineRun" [experiment; run_id] [].

Definition wait_call (published_pipeline_run : val) : call :=
  Call AzureML "PipelineRun.wait_for_completion" [published_pipeline_run]
    [("show_output", VBool true)].

Definition cell_30 : Py.M state unit :=
  let! published_pipeline := load "published_pipeline" in
  let! rest_endpoint := issue 30 (endpoint_call published_pipeline) in
  assign "rest_endpoint" rest_endpoint ;;
  let! auth_header := load "auth_header" in
  let! response := issue 30 (post_call rest_endpoint auth_header) in
  assign "response" response ;;
  let! body := issue 30 (json_call response) in
  let! run_id := Py.lift (subscript body "Id") in
  assign "run_id" run_id.

Definition cell_32 : Py.M state unit :=
  let! ws := load "ws" in
  let! experiments := issue 32 (experiments_call ws) in
  let! experiment := Py.lift (subscript experiments "mslearn-diabetes-batch") in
  let! run_id := load "run_id" in
  let! published_pipeline_run := issue 32 (pipeline_run_call experiment run_id) in
  assign "published_pipeline_run" published_pipeline_run ;;
  issue 32 (wait_call published_pipeline_run) ;;
  Py.ret tt.

Definition cell_34 : Py.M state unit := download_results 34.

(** The cells from the first to the last, as [Run All] runs them: an
    exception that leaves a cell stops the run. *)
Definition notebook : Py.M state unit :=
  cell_2 ;; cell_4 ;; cell_6 ;; cell_8 ;; cell_10 ;; cell_12 ;; cell_14 ;;
  cell_16 ;; cell_18 ;; cell_20 ;; cell_22 ;; cell_24 ;; cell_26 ;;
  cell_28 ;; cell_30 ;; cell_32 ;; cell_34.

End WithLibraries.

(** *** The stages of the notebook *)

Inductive stage :=
| Connect | Train | Register | Upload | Provision | Define | RunPipeline
| Publish | Rest | Poll | Download.

(** The calls that register the model, in the cell that also trains it. *)
Definition registers_model (c : call) : bool :=
  String.eqb (call_fn c) "Run.get_metrics"
  || String.eqb (call_fn c) "Run.register_model".

(** The stage a call belongs to, by the cell that makes it. *)
Definition stage_of (e : ev) : stage :=
  match ev_cell e with
  | 2 => Connect
  | 4 => if registers_model (ev_call e) then Register else Train
  | 6 => Upload
  | 8 => Provision
  | 10 | 12 | 14 | 16 | 18 => Define
  | 20 => RunPipeline
  | 22 => Download
  | 24 | 26 => Publish
  | 28 | 30 => Rest
  | 32 => Poll
  | _ => Download (* cell 34, the last *)
  end.

(** The place of a stage in the order connect, train, register, upload,
    provision, define, run, publish, REST call, poll, download. *)
Definition listed_rank (st : stage) : nat :=
  match st with
  | Connect => 0 | Train => 1 | Register => 2 | Upload => 3
  | Provision => 4 | Define => 5 | RunPipeline => 6 | Publish => 7
  | Rest => 8 | Poll => 9 | Download => 10
  end.

(** The place of a call in the order the cells give: as above, with a
    first download of the results between the run and the publishing. *)
Definition cell_rank (e : ev) : nat :=
  match stage_of e with
  | Connect => 0 | Train => 1 | Register => 2 | Upload => 3
  | Provision => 4 | Define => 5 | RunPipeline => 6
  | Download => if ev_cell e =? 22 then 7 else 11
  | Publish => 8 | Rest => 9 | Poll => 10
  end.

Definition platform_calls (t : list ev) : list ev :=
  filter (fun e => is_platform (call_lib (ev_call e)) = true) t.

(** The calls [t] go through the stages in the listed order. *)
Definition in_listed_order (t : list ev) : Prop :=
  StronglySorted (fun a b => listed_rank (stage_of a) <= listed_rank (stage_of b)) t.

(** The calls [t] go through the stages in the order of the cells. *)
Definition in_cell_order (t : list ev) : Prop :=
  StronglySorted (fun a b => cell_rank a <= cell_rank b) t.

(** The calls made between the states [s] and [s']. *)
Definition new_calls (s s' : state) : list ev :=
  drop (length (trace s)) (trace s').

(** What the platform answers to the calls of cells 30 and 32: the
    endpoint of the published pipeline, the response to the POST, its JSON
    body, the experiments of the workspace, the pipeline run built from
    the identifier, and the result of waiting for it. *)
Record rest_replies := RestReplies {
  rest_endpoint : val;
  response : val;
  body : val;
  experiments : val;
  published_pipeline_run : val;
  finished : val
}.

(** The libraries [lib] answer the calls [evs], made one after another
    from the calls [history] on, as [evs] records. *)
Definition answers (lib : list ev -> call -> Py.outcome val)
    (history evs : list ev) : Prop :=
  forall i e, evs !! i = Some e ->
    lib (history ++ take i evs) (ev_call e) = ev_result e.

Global Instance stage_eq_dec : EqDecision stage.
Proof. solve_decision. Defined.

(** The stages a run goes through: the stage of each call, a stage that
    lasts over several calls written once. *)
Fixpoint stage_sequence (t : list ev) : list stage :=
  match t with
  | [] => []
  | e :: rest =>
      match stage_sequence rest with
      | st :: sts =>
          if decide (stage_of e = st) then st :: sts
          else stage_of e :: st :: sts
      | [] => [stage_of e]
      end
  end.

(** The calls [evs] are in the order of the cells, and their places in it
    lie between [lo] and [hi]. *)
Definition ranked (lo hi : nat) (evs : list ev) : Prop :=
  lo <= hi /\ in_cell_order evs /\
  Forall (fun e => lo <= cell_rank e <= hi) evs.

(** Whatever the state it starts in and however it ends, the statement
    [m] only adds calls, and adds them as [ranked] says. *)
Definition adds_ranked {A} (lo hi : nat) (m : Py.M state A) : Prop :=
  forall s, exists evs,
    trace (snd (m s)) = trace s ++ evs /\ ranked lo hi evs.

(** The cell that started in [s] came to the exception [e] inside a
    [try] that handles [Exception] by printing it, and has ended as
    [ending] says: an [Exception] is caught and printed and the name [ex]
    is unbound again; an exception of another kind has left the cell with
    nothing printed. *)
Definition handled (e : Py.exn) (s : state)
    (ending : Py.outcome unit * state) : Prop :=
  if Py.is_Exception e
  then fst ending = Py.Ok tt /\
       stdout (snd ending) = stdout s ++ [Py.exn_msg e] /\
       globals (snd ending) !! "ex" = None
  else fst ending = Py.Raise e /\ stdout (snd ending) = stdout s.

(** *** The calls of cells 8, 18, 22 and 34, by name *)

Definition provisioning_call : call :=
  Call AzureML "AmlCompute.provisioning_configuration" []
    [("vm_size", VStr "STANDARD_DS11_V2"); ("max_nodes", VInt 2)].

Definition create_call (ws compute_config : val) : call :=
  Call AzureML "ComputeTarget.create" [ws; VStr cluster_name; compute_config] [].

Definition wait_cluster_call (inference_cluster : val) : call :=
  Call AzureML "ComputeTarget.wait_for_completion" [inference_cluster]
    [("show_output", VBool true)].

Definition output_dir_call : call :=
  Call AzureML "OutputFileDatasetConfig" [] [("name", VStr "inferences")].

Definition read_results_call (result_file : val) : call :=
  Call Pandas "read_csv" [result_file]
    [("delimiter", VStr ":"); ("header", VNone)].

(** What the libraries answer to the calls of a download up to the walk
    through the folder: the children of the run, the first of them, its
    output, and the results of removing the folder and of the download. *)
Record download_replies := DownloadReplies {
  removed : val;
  children : val;
  prediction_run : val;
  prediction_output : val;
  downloaded : val
}.

(** A folder as [os.walk] yields it: its path, its folders, its files. *)
Definition folder : Type := string * list string * list string.

Definition walk_val (tree : list folder) : val :=
  VList (map (fun d : folder =>
                let '(root, dirs, files) := d in
                VList [VStr root; VList (map VStr dirs); VList (map VStr files)])
             tree).

(** The calls of a download, from the first to the walk, answered. *)
Definition download_calls (cell : nat) (pipeline_run : val)
    (r : download_replies) (tree : list folder) : list ev :=
  [Ev cell (Call Shutil "rmtree" [VStr "diabetes-results"]
              [("ignore_errors", VBool true)]) (Py.Ok (removed r));
   Ev cell (Call AzureML "PipelineRun.get_children" [pipeline_run] [])
      (Py.Ok (children r));
   Ev cell (Call AzureML "generator.__next__" [children r] [])
      (Py.Ok (prediction_run r));
   Ev cell (Call AzureML "StepRun.get_output_data"
              [prediction_run r; VStr "inferences"] [])
      (Py.Ok (prediction_output r));
   Ev cell (Call AzureML "OutputFileDataset.download" [prediction_output r]
              [("local_path", VStr "diabetes-results")]) (Py.Ok (downloaded r));
   Ev cell (Call OS "walk" [VStr "diabetes-results"] []) (Py.Ok (walk_val tree))].

(** The value of [result_file] after the two loops over the walk, from
    its value [found] before them: every file whose name ends with
    [parallel_run_step.txt] replaces it. *)
Definition find_results (tree : list folder) (found : option string)
    : option string :=
  foldl (fun acc (d : folder) =>
           let '(root, _, files) := d in
           foldl (fun acc file =>
                    if str_endswith "parallel_run_step.txt" file
                    then Some (Py.path_join root file) else acc)
                 acc files)
        found tree.

(** *** States that differ in one global name *)

(** [s] with the global [name] bound to [v]. *)
Definition rebind (name : string) (v : val) (s : state) : state :=
  State (trace s) (stdout s) (<[name := v]> (globals s)).

(** The states [s1] and [s2] hold the same calls, the same output and the
    same globals, but for the name [name]. *)
Definition agree_off (name : string) (s1 s2 : state) : Prop :=
  trace s1 = trace s2 /\ stdout s1 = stdout s2 /\
  forall k, k <> name -> globals s1 !! k = globals s2 !! k.

(** The statement [m] does not look at the global [name]: from states
    that differ in it only, it ends the same way, in states that differ
    in it only. *)
Definition blind_to {A} (name : string) (m : Py.M state A) : Prop :=
  forall s1 s2, agree_off name s1 s2 ->
    fst (m s1) = fst (m s2) /\ agree_off name (snd (m s1)) (snd (m s2)).

End Notebook.

(* ===================================================================== *)
(** ** Reading the results file *)
(* ===================================================================== *)

Module Results.

(** [all(P(c) for c in s)]. *)
Fixpoint all_chars (P : ascii -> bool) (s : string) : bool :=
  match s with
  | EmptyString => true
  | String c s' => P c && all_chars P s'
  end.

(** The characters the reader takes as they stand: printable ASCII but
    for the double quote, which opens a quoted field. *)
Definition plain_char (c : ascii) : bool :=
  let n := nat_of_ascii c in
  (32 <=? n) && (n <=? 126) && negb (n =? 34).


(** A line that the reader cuts at the delimiters and nothing more: plain
    characters, and not blank (a blank line is skipped). *)
Definition unquoted (line : string) : bool :=
  all_chars plain_char line && negb (all_chars (Ascii.eqb " ") line).

Section WithPandas.

(** Two things are pandas' own: the frame it builds from the fields of
    the records, converting each column to numbers, missing values or
    text as it sees fit, and what it reads from a file that holds
    quoting, line breaks inside a field, control characters or blank
    lines. *)
Context {frame : Type}.
Variable to_frame : list (list string) -> frame.

(** A frame as read: the labels of its columns, and its values. *)
Record table := Table { columns : list string; content : frame }.

Variable read_other : list string -> Py.outcome table.

(** [pd.read_csv(result_file, delimiter=":", header=None)] on the lines
    of the file.  The first record sets the number of columns, labelled
    from 0; a later record with more fields is an error, one with fewer
    is filled up by pandas; a file without a record is an error.  The
    three errors are [ValueError]s. *)
Definition read_csv (lines : list string) : Py.outcome table :=
  if forallb unquoted lines then
    match map (Py.split_on ":") lines with
    | [] => Py.Raise (Py.Exn Py.ValueError "No columns to parse from file")
    | first :: rest =>
        if forallb (fun record => length record <=? length first) rest
        then Py.Ok (Table (map Py.str_nat (seq 0 (length first)))
                      (to_frame (first :: rest)))
        else Py.Raise (Py.Exn Py.ValueError "Error tokenizing data")
    end
  else read_other lines.

(** [df.columns = names]: one name per column. *)
Definition set_columns (names : list string) (df : table)
    : Py.outcome table :=
  if length names =? length (columns df)
  then Py.Ok (Table names (content df))
  else Py.Raise (Py.Exn Py.ValueError
         ("Length mismatch: Expected axis has "
          +:+ Py.str_nat (length (columns df)) +:+ " elements, new values have "
          +:+ Py.str_nat (length names) +:+ " elements")).

(** The two statements that read the results file in cells 22 and 34. *)
Definition read_results (lines : list string) : Py.outcome table :=
  match read_csv lines with
  | Py.Ok df => set_columns ["File"; "Prediction"] df
  | Py.Raise e => Py.Raise e
  end.

End WithPandas.

End Results.

(* ===================================================================== *)
(** ** Sample libraries, files and frames *)
(* ===================================================================== *)

Module Demo.

(** A fitted classifier: the number of features it was fitted on and its
    decision for one row. *)
Record tree := Tree { n_features_in : nat; decide_row : list Z -> Z }.

Definition diabetes_tree : tree :=
  Tree 8 (fun row => if Z.ltb 120 (default 0%Z (row !! 1)) then 1%Z else 0%Z).

Fixpoint rows (n_samples width : nat) (flat : list Z) : list (list Z) :=
  match n_samples with
  | O => []
  | S n => take width flat :: rows n width (drop width flat)
  end.

(** [predict] checks the width of its input against the fit, as the
    scikit-learn estimators do, and answers one label per row. *)
Definition predict (m : tree) (x : Script.ndarray Z) : Py.outcome (list Z) :=
  match Script.shape x with
  | [n_samples; n_features] =>
      if decide (n_features = n_features_in m)
      then Py.Ok (map (decide_row m) (rows n_samples n_features (Script.data x)))
      else Py.Raise (Py.Exn Py.ValueError
             "X has a different number of features than the fitted model expects")
  | _ => Py.Raise (Py.Exn Py.ValueError "Expected 2D array")
  end.

Definition patient_a : list Z := [2; 180; 74; 24; 21; 24; 1; 22]%Z.
Definition patient_b : list Z := [0; 148; 58; 11; 179; 39; 0; 45]%Z.
Definition patient_c : list Z := [3; 104; 51; 7; 24; 27; 1; 43]%Z.

(** The files on the node, as [genfromtxt] reads them. *)
Definition node_files : gmap string (Script.ndarray Z) :=
  list_to_map
    [("batch-data/1.csv", Script.NdArray [8] patient_a);
     ("batch-data/2.csv", Script.NdArray [8] patient_c);
     ("yesterday/1.csv", Script.NdArray [8] patient_b);
     ("batch-data/10:30.csv", Script.NdArray [8] patient_a);
     ("batch-data/short.csv", Script.NdArray [3] [2; 180; 74]%Z)].

Definition genfromtxt (f : string) : Py.outcome (Script.ndarray Z) :=
  match node_files !! f with
  | Some a => Py.Ok a
  | None => Py.Raise (Py.Exn Py.OSError (f +:+ " not found."))
  end.

Definition model_file : string :=
  "azureml-models/diabetes_model/1/diabetes_model.pkl".

Definition get_model_path (name : string) : Py.outcome string :=
  if decide (name = "diabetes_model") then Py.Ok model_file
  else Py.Raise (Py.Exn Py.OtherException ("Model " +:+ name +:+ " not found")).

Definition joblib_load (path : string) : Py.outcome tree :=
  if decide (path = model_file) then Py.Ok diabetes_tree
  else Py.Raise (Py.Exn Py.OSError (path +:+ " not found.")).

Definition str_label (p : Z) : string := pretty p.

(** A stand-in for what pandas makes of the fields, column by column: a
    column whose fields are all whole numbers (spaces before them apart)
    or markers of a missing value becomes numbers and missing values; any
    other column keeps its texts, the markers apart. *)
Inductive table_cell := Number (n : nat) | Missing | Text (s : string).

Fixpoint lstrip (s : string) : string :=
  match s with
  | String " " s' => lstrip s'
  | _ => s
  end.

Definition is_digit (c : ascii) : bool :=
  let n := nat_of_ascii c in (48 <=? n) && (n <=? 57).

Definition is_whole_number (field : string) : bool :=
  negb (String.eqb (lstrip field) EmptyString)
  && Results.all_chars is_digit (lstrip field).

(** [int(digits)]. *)
Fixpoint to_nat_from (acc : nat) (digits : string) : nat :=
  match digits with
  | EmptyString => acc
  | String c rest => to_nat_from (10 * acc + (nat_of_ascii c - 48)) rest
  end.

(** Some of the texts that pandas reads as a missing value. *)
Definition is_missing (field : string) : bool :=
  bool_decide (field ∈ [EmptyString; "NA"; "N/A"; "NaN"; "nan"; "NULL"; "null"]).

(** The column [j] of the records. *)
Definition column_of (j : nat) (records : list (list string)) : list string :=
  map (fun record => default EmptyString (record !! j)) records.

Definition convert_column (fields : list string) : list table_cell :=
  if forallb (fun f => is_whole_number f || is_missing f) fields
  then map (fun f => if is_missing f then Missing
                     else Number (to_nat_from 0 (lstrip f))) fields
  else map (fun f => if is_missing f then Missing else Text f) fields.

(** The frame, column by column. *)
Definition to_frame (records : list (list string)) : list (list table_cell) :=
  map (fun j => convert_column (column_of j records))
      (seq 0 (length (default [] (head records)))).

(** Files with quoting or blank lines are not read by the sample. *)
Definition read_other (lines : list string)
    : Py.outcome (Results.table (frame := list (list table_cell))) :=
  Py.Raise (Py.Exn Py.OtherException "not read by the sample").

Definition read_results := Results.read_results to_frame read_other.

Definition fresh_script : Script.state (value := Z) (model_t := tree) :=
  Script.State None [].

Definition init := Script.init (value := Z) get_model_path joblib_load.
Definition run := Script.run genfromtxt predict str_label.

(** The script's state once [init] has run. *)
Definition ready : Script.state (value := Z) (model_t := tree) :=
  snd (init fresh_script).

(** The types of the columns of the sample frames, and their numbers: an
    integer, or a float given by its tenths. *)
Inductive dtype := int64 | float64.

Inductive number := Int (n : nat) | Float (tenths : nat).

(** The text of a number: [7] for an integer, [7.5] and [7.0] for
    floats. *)
Definition repr (x : number) : string :=
  match x with
  | Int n => pretty n
  | Float t => pretty (t / 10) +:+ "." +:+ pretty (t mod 10)
  end.

(** Integers stay integers among themselves and become floats next to a
    column of floats. *)
Definition common_type (ts : list dtype) : dtype :=
  if forallb (fun t => match t with int64 => true | float64 => false end) ts
  then int64 else float64.

Definition astype (t : dtype) (x : number) : number :=
  match t, x with
  | float64, Int n => Float (10 * n)
  | int64, Float tenths => Int (tenths / 10)
  | _, _ => x
  end.

(** The columns [BMI] and [DiabetesPedigree] hold floats, the others
    integers. *)
Definition feature_dtype (name : string) : dtype :=
  if decide (name = "BMI" \/ name = "DiabetesPedigree") then float64 else int64.

(** The feature columns over [n] rows: column [j] holds [10 * i + j] at
    row [i], as an integer or, in a column of floats, as that many
    tenths. *)
Definition feature_columns_of (n : nat)
    : list (string * BatchData.Column (value := number) (dtype := dtype)) :=
  imap (fun j name =>
          (name,
           BatchData.Col (feature_dtype name)
             (map (fun i => match feature_dtype name with
                            | int64 => Int (10 * i + j)
                            | float64 => Float (10 * i + j)
                            end) (seq 0 n))))
       BatchData.feature_columns.

(** A frame of 120 rows with the eight feature columns and the label. *)
Definition frame_with_labels (labels : list nat) : BatchData.DataFrame :=
  BatchData.Frame 120
    (feature_columns_of 120
     ++ [(BatchData.label_column, BatchData.Col int64 (map Int labels))]).

Definition generate :=
  BatchData.generate repr common_type astype.

Definition frame_1 : BatchData.DataFrame := frame_with_labels (replicate 120 0).
Definition frame_2 : BatchData.DataFrame := frame_with_labels (replicate 120 1).

(** A draw of a hundred rows: the last hundred, backwards. *)
Definition picked : list nat := map (fun i => 119 - i) (seq 0 100).

Definition empty_disk : BatchData.state := BatchData.State ∅ ∅ [].

(** A disk on which a regular file has the name of the batch folder. *)
Definition occupied_disk : BatchData.state :=
  BatchData.State {[ "./batch-data" := "notes" ]} ∅ [].

(** A scripted platform: the calls named in [raises] raise, those named
    in [replies] give the listed value, any other call a new handle. *)
Definition scripted (raises : list (string * Py.exn))
    (replies : list (string * Notebook.val))
    (history : list Notebook.ev) (c : Notebook.call)
    : Py.outcome Notebook.val :=
  match BatchData.assoc (Notebook.call_fn c) raises with
  | Some e => Py.Raise e
  | None =>
      match BatchData.assoc (Notebook.call_fn c) replies with
      | Some v => Py.Ok v
      | None => Py.Ok (Notebook.VObj (length history))
      end
  end.

Definition replies : list (string * Notebook.val) :=
  [("Workspace.datastores",
      Notebook.VDict [("workspaceblobstore", Notebook.VObj 1);
                      ("workspacefilestore", Notebook.VObj 2)]);
   ("Datastore.name", Notebook.VStr "workspaceblobstore");
   ("Workspace.name", Notebook.VStr "aml-workspace");
   ("train_test_split",
      Notebook.VList [Notebook.VObj 11; Notebook.VObj 12;
                      Notebook.VObj 13; Notebook.VObj 14]);
   ("Run.get_metrics",
      Notebook.VDict [("Accuracy", Notebook.VFloat "0.889");
                      ("AUC", Notebook.VFloat "0.877")]);
   ("walk",
      Notebook.VList
        [Notebook.VList [Notebook.VStr "diabetes-results";
                         Notebook.VList [Notebook.VStr "azureml"];
                         Notebook.VList []];
         Notebook.VList [Notebook.VStr "diabetes-results/azureml";
                         Notebook.VList [];
                         Notebook.VList [Notebook.VStr "parallel_run_step.txt"]]]);
   ("PublishedPipeline.endpoint",
      Notebook.VStr "https://region.api.azureml.ms/pipelines/v1.0/PipelineRuns/PipelineSubmit/42");
   ("Response.json", Notebook.VDict [("Id", Notebook.VStr "run-0042")]);
   ("Workspace.experiments",
      Notebook.VDict [("mslearn-train-diabetes", Notebook.VObj 21);
                      ("mslearn-diabetes-batch", Notebook.VObj 22)])].

(** The cluster and nothing else exists already: every call succeeds. *)
Definition cloud : list Notebook.ev -> Notebook.call -> Py.outcome Notebook.val :=
  scripted [] replies.

(** No cluster of that name, and no quota left to create one. *)
Definition cloud_without_cluster
    : list Notebook.ev -> Notebook.call -> Py.outcome Notebook.val :=
  scripted
    [("ComputeTarget", Py.Exn Py.ComputeTargetException "ComputeTargetNotFound");
     ("ComputeTarget.create", Py.Exn Py.OtherException "Quota exceeded")]
    replies.

(** The data set cannot be registered. *)
Definition cloud_refusing_dataset
    : list Notebook.ev -> Notebook.call -> Py.outcome Notebook.val :=
  scripted
    [("FileDataset.register",
        Py.Exn Py.OtherException "There is already a dataset registered under name batch-data")]
    replies.

Definition version : Notebook.val := Notebook.VStr "1.34.0".
Definition cpu_image : Notebook.val :=
  Notebook.VStr "mcr.microsoft.com/azureml/openmpi3.1.2-ubuntu18.04".

Definition notebook lib := Notebook.notebook lib version cpu_image.

(** A kernel in which the workspace is connected and nothing else done. *)
Definition connected : Notebook.state :=
  Notebook.State [] [] {[ "ws" := Notebook.VObj 0 ]}.

(** The same kernel once the unregistered file data set is bound. *)
Definition with_dataset : Notebook.state :=
  Notebook.State [] []
    {[ "ws" := Notebook.VObj 0; "batch_data_set" := Notebook.VObj 5 ]}.

(** The kernel once the pipeline is published and the header fetched. *)
Definition published : Notebook.state :=
  Notebook.State [] []
    {[ "ws" := Notebook.VObj 0; "published_pipeline" := Notebook.VObj 40;
       "auth_header" := Notebook.VObj 41 ]}.

(** What [cloud] answers to the calls of cells 30 and 32 from there. *)
Definition cloud_replies : Notebook.rest_replies :=
  Notebook.RestReplies
    (Notebook.VStr "https://region.api.azureml.ms/pipelines/v1.0/PipelineRuns/PipelineSubmit/42")
    (Notebook.VObj 1)
    (Notebook.VDict [("Id", Notebook.VStr "run-0042")])
    (Notebook.VDict [("mslearn-train-diabetes", Notebook.VObj 21);
                     ("mslearn-diabetes-batch", Notebook.VObj 22)])
    (Notebook.VObj 4)
    (Notebook.VObj 5).

(** A registry that does not hold the model. *)
Definition get_missing_model_path (name : string) : Py.outcome string :=
  Py.Raise (Py.Exn Py.OtherException ("Model " +:+ name +:+ " not found")).

(** A frame of 40 rows with the eight feature columns. *)
Definition small_frame : BatchData.DataFrame :=
  BatchData.Frame 40 (feature_columns_of 40).

(** A frame of 120 rows that lacks the column [BMI]. *)
Definition frame_without_bmi : BatchData.DataFrame :=
  BatchData.Frame 120
    (filter (fun c => fst c <> "BMI") (BatchData.df_columns frame_1)).

(** A disk that holds a first batch file from an earlier run. *)
Definition stale_disk : BatchData.state :=
  BatchData.State {[ "./batch-data/1.csv" := "0,0,0,0,0,0,0,0" ]}
    {[ "./batch-data" ]} [].

(** The same folder, still empty. *)
Definition cleared_disk : BatchData.state :=
  BatchData.State ∅ {[ "./batch-data" ]} [].

(** Another draw of a hundred rows: the first hundred. *)
Definition picked_first : list nat := seq 0 100.

(** The access to the workspace is denied. *)
Definition cloud_denying
    : list Notebook.ev -> Notebook.call -> Py.outcome Notebook.val :=
  scripted [("ComputeTarget", Py.Exn Py.OtherException "AuthenticationException")]
    replies.

(** No cluster of that name; it is created, but does not come up. *)
Definition cloud_stalling
    : list Notebook.ev -> Notebook.call -> Py.outcome Notebook.val :=
  scripted
    [("ComputeTarget", Py.Exn Py.ComputeTargetException "ComputeTargetNotFound");
     ("ComputeTarget.wait_for_completion",
        Py.Exn Py.OtherException "Provisioning timed out")]
    replies.

(** The endpoint answers with an error body, without a run identifier. *)
Definition cloud_rejecting_post
    : list Notebook.ev -> Notebook.call -> Py.outcome Notebook.val :=
  scripted []
    (("Response.json",
        Notebook.VDict [("error", Notebook.VStr "PipelineNotFound")])
     :: replies).

(** The kernel once the environment is there, without a cluster. *)
Definition without_cluster : Notebook.state :=
  Notebook.State [] []
    {[ "ws" := Notebook.VObj 0;
       "experiment_folder" := Notebook.VStr Notebook.experiment_folder;
       "batch_env" := Notebook.VObj 7;
       "batch_data_set" := Notebook.VObj 5 ]}.

(** The kernel once the pipeline has run. *)
Definition after_run : Notebook.state :=
  Notebook.State [] []
    {[ "ws" := Notebook.VObj 0; "os" := Notebook.os_module;
       "pipeline_run" := Notebook.VObj 30 ]}.

(** The same, with a results file left from an earlier download. *)
Definition after_download : Notebook.state :=
  Notebook.rebind "result_file" (Notebook.VStr "old/parallel_run_step.txt")
    after_run.

(** What [scripted] answers to the first calls of a download from there. *)
Definition fetched : Notebook.download_replies :=
  Notebook.DownloadReplies (Notebook.VObj 0) (Notebook.VObj 1)
    (Notebook.VObj 2) (Notebook.VObj 3) (Notebook.VObj 4).

(** A downloaded folder with two results files, and an empty one. *)
Definition results_tree : list Notebook.folder :=
  [("diabetes-results", ["azureml"; "logs"], []);
   ("diabetes-results/azureml", [], ["parallel_run_step.txt"]);
   ("diabetes-results/logs", [], ["job.log"; "old_parallel_run_step.txt"])].

Definition empty_tree : list Notebook.folder :=
  [("diabetes-results", [], [])].

(** A platform like [cloud] whose walk yields the folder [tree]. *)
Definition cloud_with_tree (tree : list Notebook.folder)
    : list Notebook.ev -> Notebook.call -> Py.outcome Notebook.val :=
  scripted [] (("walk", Notebook.walk_val tree) :: replies).

End Demo.

(* ===================================================================== *)
(** * Properties *)
(* ===================================================================== *)

(** ** Strings and paths *)










(** ** Reading result lines back *)




Section ResultsFile.

Context {frame : Type}.
Variable to_frame : list (list string) -> frame.
Variable read_other : list string -> Py.outcome (Results.table (frame := frame)).


End ResultsFile.

(** ** The entry script *)

Section ScriptProperties.

Context {value label model_t : Type}.
Variable get_model_path : string -> Py.outcome string.
Variable joblib_load : string -> Py.outcome model_t.
Variable genfromtxt : string -> Py.outcome (Script.ndarray value).
Variable predict : model_t -> Script.ndarray value -> Py.outcome (list label).
Variable str_label : label -> string.

(** What pandas makes of the results file. *)
Context {frame : Type}.
Variable to_frame : list (list string) -> frame.
Variable read_other : list string -> Py.outcome (Results.table (frame := frame)).

Local Abbreviation init := (Script.init (value := value) get_model_path joblib_load).
Local Abbreviation run_body := (Script.run_body genfromtxt predict str_label).
Local Abbreviation run_loop := (Script.run_loop genfromtxt predict str_label).
Local Abbreviation run := (Script.run genfromtxt predict str_label).
Local Abbreviation predicted := (Script.predicted genfromtxt predict).
Local Abbreviation runs_to := (Script.runs_to genfromtxt predict str_label).

Ltac unfold_script :=
  unfold Script.run_body, Script.init, Py.bind, Script.emit, Py.lift,
    Script.get_model, Script.set_model, Py.ret; simpl.

(** One turn of the loop when the read and the prediction succeed. *)
Lemma run_body_ok f s m p :
  Script.glob_model s = Some m -> predicted m f p ->
  exists s',
    run_body f s
      = (Py.Ok (Script.format_result (Py.basename f) (str_label p)), s')
    /\ Script.glob_model s' = Some m.
Proof.
  intros Hm (data & rest & Hread & Hpred). unfold_script.
  rewrite Hread, Hm. simpl. rewrite Hpred. simpl. eauto.
Qed.

Lemma run_loop_ok m mini_batch :
  forall acc s,
    Script.glob_model s = Some m ->
    Forall (fun f => exists p, predicted m f p) mini_batch ->
    exists lines s',
      run_loop mini_batch acc s = (Py.Ok (acc ++ lines), s')
      /\ Forall2 (fun f line => exists p, predicted m f p /\
                    line = Script.format_result (Py.basename f) (str_label p))
           mini_batch lines.
Proof.
  induction mini_batch as [|f rest IH]; intros acc s Hm Hall.
  - exists [], s. rewrite app_nil_r. split; [reflexivity|constructor].
  - inversion Hall as [|? ? [p Hp] Hrest]; subst.
    destruct (run_body_ok f s m p Hm Hp) as (s1 & Hbody & Hm1).
    destruct (IH (acc ++ [Script.format_result (Py.basename f) (str_label p)])
                s1 Hm1 Hrest) as (lines & s' & Hloop & Hlines).
    exists (Script.format_result (Py.basename f) (str_label p) :: lines), s'.
    split.
    + cbn [Script.run_loop]. unfold Py.bind at 1. rewrite Hbody, Hloop.
      now rewrite <- app_assoc.
    + constructor; eauto.
Qed.

(** What one turn of the loop does to the state, however it ends. *)
Lemma run_body_effect f s :
  exists evs,
    snd (run_body f s) = Script.State (Script.glob_model s) (Script.events s ++ evs)
    /\ (forall m, Script.glob_model s = Some m -> Script.predictions_by m evs)
    /\ (Script.glob_model s = None -> Script.no_prediction evs).
Proof.
  unfold_script. destruct s as [gm evs0]; simpl.
  destruct (genfromtxt f) as [data|e]; simpl.
  2:{ eexists; split; [reflexivity|].
      split; intros; repeat constructor. }
  destruct gm as [m|]; simpl.
  2:{ eexists; split; [reflexivity|].
      split; intros; repeat constructor. }
  exists [Script.EvGenfromtxt f; Script.EvPredict m (Script.reshape_1_row data)].
  split.
  - destruct (predict m (Script.reshape_1_row data)) as [[|p rest]|e]; simpl;
      now rewrite <- app_assoc.
  - split; [intros m' [= ->]; repeat constructor | discriminate].
Qed.

Lemma run_loop_effect mini_batch :
  forall acc s,
    exists evs,
      snd (run_loop mini_batch acc s)
        = Script.State (Script.glob_model s) (Script.events s ++ evs)
      /\ (forall m, Script.glob_model s = Some m -> Script.predictions_by m evs)
      /\ (Script.glob_model s = None -> Script.no_prediction evs).
Proof.
  induction mini_batch as [|f rest IH]; intros acc s.
  - exists []. rewrite app_nil_r. destruct s. repeat split; intros; constructor.
  - cbn [Script.run_loop]. unfold Py.bind at 1.
    destruct (run_body_effect f s) as (evs1 & Hs1 & Hby1 & Hno1).
    destruct (run_body f s) as [[line|e] s1]; simpl in Hs1; subst s1.
    + destruct (IH (acc ++ [line])
                  (Script.State (Script.glob_model s) (Script.events s ++ evs1)))
        as (evs2 & Hs2 & Hby2 & Hno2).
      simpl in *. exists (evs1 ++ evs2). rewrite Hs2, app_assoc.
      split; [reflexivity|].
      split; [intros m Hm | intros Hm]; apply Forall_app; split.
      * now apply Hby1.
      * now apply Hby2.
      * now apply Hno1.
      * now apply Hno2.
    + exists evs1. simpl. auto.
Qed.

Lemma run_effect mini_batch s :
  Script.glob_model (snd (run mini_batch s)) = Script.glob_model s
  /\ (forall m, Script.glob_model s = Some m ->
        Script.predictions_by m (Script.new_events s (snd (run mini_batch s))))
  /\ (Script.glob_model s = None ->
        Script.no_prediction (Script.new_events s (snd (run mini_batch s)))).
Proof.
  unfold Script.run, Script.new_events.
  destruct (run_loop_effect mini_batch [] s) as (evs & -> & Hby & Hno).
  simpl. rewrite drop_app_length. auto.
Qed.

Lemma runs_to_keeps_model s s' :
  runs_to s s' -> Script.glob_model s' = Script.glob_model s.
Proof.
  induction 1 as [|s mini_batch s' _ IH]; [reflexivity|].
  destruct (run_effect mini_batch s') as [-> _]. exact IH.
Qed.

(** C8.  For the empty mini-batch [run] returns the empty list and leaves
    the state as it was: nothing is read, nothing predicted, nothing
    raised, even while the model is unbound. *)
Theorem run_empty_batch (s : Script.state) :
  run [] s = (Py.Ok [], s)
  /\ Script.new_events s (snd (run [] s)) = [].
Proof.
  split; [reflexivity|].
  unfold Script.new_events. simpl. apply drop_all.
Qed.

(** C1, as amended.  When the model is bound and, for every file of the
    mini-batch, the read succeeds and the model answers the file's values
    put in one row with a non-empty array, [run] returns a list as long as
    the mini-batch whose [i]-th element is the basename of the [i]-th
    path, then [": "], then the first element of that file's prediction
    array: one line per file, in the order of the paths. *)
Theorem run_one_line_per_file (mini_batch : list string)
    (s : Script.state) (m : model_t) :
  Script.glob_model s = Some m ->
  Forall (fun f => exists p, predicted m f p) mini_batch ->
  exists resultList s',
    run mini_batch s = (Py.Ok resultList, s') /\
    length resultList = length mini_batch /\
    forall i f, mini_batch !! i = Some f ->
      exists p, predicted m f p /\
        resultList !! i = Some (Py.basename f +:+ ": " +:+ str_label p).
Proof.
  intros Hm Hall.
  destruct (run_loop_ok m mini_batch [] s Hm Hall) as (lines & s' & Hrun & Hlines).
  exists lines, s'. split; [exact Hrun|]. split.
  - symmetry. eapply Forall2_length, Hlines.
  - intros i f Hf.
    destruct (Forall2_lookup_l _ _ _ _ _ Hlines Hf) as (line & Hline & p & Hp & ->).
    exists p. split; [exact Hp | exact Hline].
Qed.

(** C9.  Two paths with the same basename whose files get the same
    prediction give the same result line, whatever their directories:
    a mini-batch holding both yields that line twice. *)
Theorem same_basename_same_line (f1 f2 : string) (s : Script.state)
    (m : model_t) (p : label) :
  Script.glob_model s = Some m ->
  Py.basename f1 = Py.basename f2 ->
  predicted m f1 p -> predicted m f2 p ->
  fst (run [f1; f2] s)
  = Py.Ok [Py.basename f1 +:+ ": " +:+ str_label p;
           Py.basename f1 +:+ ": " +:+ str_label p].
Proof.
  intros Hm Hbase H1 H2.
  destruct (run_body_ok f1 s m p Hm H1) as (s1 & Hb1 & Hm1).
  destruct (run_body_ok f2 s1 m p Hm1 H2) as (s2 & Hb2 & Hm2).
  unfold Script.run. cbn [Script.run_loop]. unfold Py.bind.
  rewrite Hb1, Hb2, <- Hbase. reflexivity.
Qed.

(** C4.  When [init] succeeds it has asked the registry for the path of
    the model named [diabetes_model], loaded the model from that path and
    bound it to the global [model]; from then on, through any number of
    calls of [run], the global stays bound to that model and every
    prediction of every call is asked of it.  While the global is unbound
    no call of [run] makes a prediction. *)
Theorem init_binds_model_for_every_run (s s' : Script.state) :
  init s = (Py.Ok tt, s') ->
  exists path m,
    get_model_path "diabetes_model" = Py.Ok path /\
    joblib_load path = Py.Ok m /\
    Script.glob_model s' = Some m /\
    (forall s'' mini_batch,
        runs_to s' s'' ->
        Script.glob_model s'' = Some m /\
        Script.predictions_by m
          (Script.new_events s'' (snd (run mini_batch s'')))) /\
    (forall s0 mini_batch,
        Script.glob_model s0 = None ->
        Script.no_prediction
          (Script.new_events s0 (snd (run mini_batch s0)))).
Proof.
  unfold_script. intros Hinit.
  destruct (get_model_path "diabetes_model") as [path|e] eqn:Hpath;
    simpl in Hinit; [|discriminate].
  destruct (joblib_load path) as [m|e] eqn:Hload;
    simpl in Hinit; [|discriminate].
  injection Hinit as <-. exists path, m. simpl.
  split; [reflexivity|]. split; [exact Hload|]. split; [reflexivity|]. split.
  - intros s'' mini_batch Hruns.
    apply runs_to_keeps_model in Hruns. simpl in Hruns.
    split; [exact Hruns|]. now apply run_effect.
  - intros s0 mini_batch H0. now apply run_effect.
Qed.


End ScriptProperties.

(** A mini-batch that meets the conditions of C1 as amended: three files
    on the sample node. *)
Lemma run_one_line_per_file_witness :
  Script.glob_model Demo.ready = Some Demo.diabetes_tree /\
  Forall (fun f => exists p,
            Script.predicted Demo.genfromtxt Demo.predict Demo.diabetes_tree f p)
    ["batch-data/1.csv"; "batch-data/2.csv"; "yesterday/1.csv"] /\
  exists resultList s',
    Demo.run ["batch-data/1.csv"; "batch-data/2.csv"; "yesterday/1.csv"] Demo.ready
      = (Py.Ok resultList, s') /\
    length resultList = 3 /\
    forall i f,
      ["batch-data/1.csv"; "batch-data/2.csv"; "yesterday/1.csv"] !! i = Some f ->
      exists p,
        Script.predicted Demo.genfromtxt Demo.predict Demo.diabetes_tree f p /\
        resultList !! i = Some (Py.basename f +:+ ": " +:+ Demo.str_label p).
Proof.
  assert (H : Forall (fun f => exists p,
            Script.predicted Demo.genfromtxt Demo.predict Demo.diabetes_tree f p)
    ["batch-data/1.csv"; "batch-data/2.csv"; "yesterday/1.csv"]).
  { repeat constructor; eexists; eexists; eexists; split; vm_compute; reflexivity. }
  split; [reflexivity|]. split; [exact H|].
  exact (run_one_line_per_file Demo.genfromtxt Demo.predict Demo.str_label
           _ Demo.ready Demo.diabetes_tree eq_refl H).
Defined.

(** C1 as stated fails: a file of three values can be read, but the model
    fitted on eight features refuses the row of three, the exception
    leaves [run], and no list comes back. *)
Lemma run_raises_on_three_values :
  Demo.genfromtxt "batch-data/short.csv"
    = Py.Ok (Script.NdArray [3] [2; 180; 74]%Z) /\
  Script.glob_model Demo.ready = Some Demo.diabetes_tree /\
  ~ exists resultList,
      fst (Demo.run ["batch-data/short.csv"] Demo.ready) = Py.Ok resultList /\
      length resultList = 1.
Proof.
  split; [reflexivity|]. split; [reflexivity|].
  intros (resultList & H & _). vm_compute in H. discriminate H.
Qed.

(** Two paths that meet the conditions of C9: [1.csv] of two
    directories. *)
Lemma same_basename_same_line_witness :
  Script.glob_model Demo.ready = Some Demo.diabetes_tree /\
  Py.basename "batch-data/1.csv" = Py.basename "yesterday/1.csv" /\
  Script.predicted Demo.genfromtxt Demo.predict Demo.diabetes_tree
    "batch-data/1.csv" 1%Z /\
  Script.predicted Demo.genfromtxt Demo.predict Demo.diabetes_tree
    "yesterday/1.csv" 1%Z /\
  fst (Demo.run ["batch-data/1.csv"; "yesterday/1.csv"] Demo.ready)
  = Py.Ok ["1.csv: 1"; "1.csv: 1"].
Proof.
  assert (H1 : Script.predicted Demo.genfromtxt Demo.predict Demo.diabetes_tree
                 "batch-data/1.csv" 1%Z).
  { eexists; eexists; split; vm_compute; reflexivity. }
  assert (H2 : Script.predicted Demo.genfromtxt Demo.predict Demo.diabetes_tree
                 "yesterday/1.csv" 1%Z).
  { eexists; eexists; split; vm_compute; reflexivity. }
  split; [reflexivity|]. split; [reflexivity|].
  split; [exact H1|]. split; [exact H2|].
  exact (same_basename_same_line Demo.genfromtxt Demo.predict Demo.str_label
           "batch-data/1.csv" "yesterday/1.csv" Demo.ready Demo.diabetes_tree
           1%Z eq_refl eq_refl H1 H2).
Defined.

(** A state that meets the condition of C4: [init] succeeds on the sample
    node. *)
Lemma init_binds_model_for_every_run_witness :
  Demo.init Demo.fresh_script = (Py.Ok tt, Demo.ready) /\
  exists path m,
    Demo.get_model_path "diabetes_model" = Py.Ok path /\
    Demo.joblib_load path = Py.Ok m /\
    Script.glob_model Demo.ready = Some m /\
    (forall s'' mini_batch,
        Script.runs_to Demo.genfromtxt Demo.predict Demo.str_label Demo.ready s'' ->
        Script.glob_model s'' = Some m /\
        Script.predictions_by m
          (Script.new_events s'' (snd (Demo.run mini_batch s'')))) /\
    (forall s0 mini_batch,
        Script.glob_model s0 = None ->
        Script.no_prediction
          (Script.new_events s0 (snd (Demo.run mini_batch s0)))).
Proof.
  split; [reflexivity|].
  exact (init_binds_model_for_every_run Demo.get_model_path Demo.joblib_load
           Demo.genfromtxt Demo.predict Demo.str_label
           Demo.fresh_script Demo.ready eq_refl).
Defined.



(** ** Generating the batch data *)

(** The paths the loop writes to, computed from the source expression, are
    [./batch-data/1.csv] to [./batch-data/100.csv]. *)
Lemma loop_paths :
  Forall (fun i => Py.path_join BatchData.batch_folder (BatchData.fname i)
                   = BatchData.batch_file (i + 1)) (seq 0 100).
Proof. apply (bool_decide_unpack _). vm_compute. exact I. Qed.

Lemma batch_files_distinct : NoDup (map BatchData.batch_file (seq 1 100)).
Proof. apply (bool_decide_unpack _). vm_compute. exact I. Qed.

Lemma batch_file_inj k k' :
  1 <= k <= 100 -> 1 <= k' <= 100 ->
  BatchData.batch_file k = BatchData.batch_file k' -> k = k'.
Proof.
  intros Hk Hk' Heq.
  assert (H : forall j, 1 <= j <= 100 ->
            map BatchData.batch_file (seq 1 100) !! (j - 1)
            = Some (BatchData.batch_file j)).
  { intros j Hj. rewrite list_lookup_fmap, lookup_seq_lt by lia.
    simpl. f_equal. f_equal. lia. }
  pose proof (H k Hk) as H1. pose proof (H k' Hk') as H2.
  rewrite Heq in H1.
  pose proof (NoDup_lookup _ _ _ _ batch_files_distinct H1 H2). lia.
Qed.

Lemma loop_paths_distinct :
  NoDup (map (fun i => Py.path_join BatchData.batch_folder (BatchData.fname i))
             (seq 0 100)).
Proof. apply (bool_decide_unpack _). vm_compute. exact I. Qed.

Lemma loop_path i :
  i < 100 ->
  Py.path_join BatchData.batch_folder (BatchData.fname i)
  = BatchData.batch_file (i + 1).
Proof.
  intros Hi. pose proof loop_paths as H. rewrite Forall_lookup in H.
  apply (H i i). now apply lookup_seq_lt.
Qed.

(** Every batch file lies in the batch folder, and none has the name of
    the folder or of the working directory. *)
Lemma batch_files_in_folder :
  Forall (fun k => Py.dirname (BatchData.batch_file k) = BatchData.batch_folder /\
                   BatchData.batch_file k <> BatchData.batch_folder /\
                   BatchData.batch_file k <> EmptyString /\
                   BatchData.batch_file k <> ".") (seq 1 100).
Proof. apply (bool_decide_unpack _). vm_compute. exact I. Qed.

Lemma batch_file_in_folder k :
  1 <= k <= 100 ->
  Py.dirname (BatchData.batch_file k) = BatchData.batch_folder /\
  BatchData.batch_file k <> BatchData.batch_folder /\
  BatchData.batch_file k <> EmptyString /\
  BatchData.batch_file k <> ".".
Proof.
  intros Hk. pose proof batch_files_in_folder as H. rewrite Forall_lookup in H.
  apply (H (k - 1) k). rewrite lookup_seq_lt by lia. f_equal. lia.
Qed.

Section BatchDataProperties.

Context {value dtype : Type}.
Variable repr : value -> string.
Variable common_type : list dtype -> dtype.
Variable astype : dtype -> value -> value.

Local Abbreviation DataFrame := (BatchData.DataFrame (value := value) (dtype := dtype)).
Local Abbreviation Column := (BatchData.Column (value := value) (dtype := dtype)).
Local Abbreviation generate := (BatchData.generate repr common_type astype).
Local Abbreviation save_loop := (BatchData.save_loop repr).
Local Abbreviation values := (BatchData.values common_type astype).

Lemma assoc_Some_elem {A} k (v : A) l :
  BatchData.assoc k l = Some v -> (k, v) ∈ l.
Proof.
  induction l as [|[k' v'] l IH]; simpl; [discriminate|].
  destruct (decide (k' = k)) as [->|_].
  - intros [= ->]. apply list_elem_of_here.
  - intros H. apply list_elem_of_further. now apply IH.
Qed.

Lemma column_length (df : DataFrame) name col :
  BatchData.df_wf df -> BatchData.column name df = Some col ->
  length (BatchData.col_values col) = BatchData.df_nrows df.
Proof.
  intros Hwf Hcol. apply assoc_Some_elem in Hcol.
  unfold BatchData.df_wf in Hwf. rewrite Forall_forall in Hwf.
  exact (Hwf _ Hcol).
Qed.

(** [df[[names]]] succeeds when every name is a column, and gives the
    named columns in the order asked. *)
Lemma getitem_columns_go_ok (df : DataFrame) names :
  (forall name, name ∈ names -> is_Some (BatchData.column name df)) ->
  exists cols,
    BatchData.getitem_columns_go names df = Py.Ok cols /\
    Forall2 (fun name c => fst c = name /\ BatchData.column name df = Some (snd c))
      names cols.
Proof.
  induction names as [|name rest IH]; intros H.
  - exists []. split; [reflexivity|constructor].
  - destruct (H name) as [col Hcol]; [apply list_elem_of_here|].
    destruct IH as (cols & Hgo & Hcols).
    { intros n Hn. apply H. now apply list_elem_of_further. }
    exists ((name, col) :: cols). simpl. rewrite Hcol, Hgo.
    split; [reflexivity|]. constructor; auto.
Qed.

(** [df[[names]]] looks at the named columns only. *)
Lemma getitem_columns_go_ext (d1 d2 : DataFrame) names :
  (forall name, name ∈ names -> BatchData.column name d1 = BatchData.column name d2) ->
  BatchData.getitem_columns_go names d1 = BatchData.getitem_columns_go names d2.
Proof.
  induction names as [|name rest IH]; intros H; [reflexivity|].
  simpl. rewrite (H name) by apply list_elem_of_here.
  rewrite IH; [reflexivity|].
  intros n Hn. apply H. now apply list_elem_of_further.
Qed.

(** Taking rows that exist keeps their order. *)
Lemma omap_lookup_in_range (col : list value) picked :
  Forall (fun r => r < length col) picked ->
  forall k r, picked !! k = Some r ->
    omap (fun i => col !! i) picked !! k = col !! r.
Proof.
  induction 1 as [|i rest Hi _ IH]; intros k r Hk; [discriminate|].
  destruct (lookup_lt_is_Some_2 col i Hi) as [v Hv].
  simpl. rewrite Hv. destruct k as [|k]; simpl in *.
  - injection Hk as <-. now rewrite Hv.
  - now apply IH.
Qed.

(** The row of the sample at position [k] holds the values of the asked
    columns at the row drawn at position [k]. *)
Lemma sampled_row (df : DataFrame) names cols picked k r :
  BatchData.df_wf df ->
  Forall2 (fun name c => fst c = name /\ BatchData.column name df = Some (snd c))
    names cols ->
  Forall (fun r => r < BatchData.df_nrows df) picked ->
  picked !! k = Some r ->
  Forall2 (fun name v => BatchData.cell df name r = Some v) names
    (omap (fun c : string * Column => BatchData.col_values (snd c) !! k)
       (map (fun c => (fst c, BatchData.take_column picked (snd c))) cols)).
Proof.
  intros Hwf Hcols Hpicked Hk.
  assert (Hr : r < BatchData.df_nrows df).
  { rewrite Forall_lookup in Hpicked. exact (Hpicked _ _ Hk). }
  induction Hcols as [|name [n col] names cols [Hn Hcol] _ IH].
  - constructor.
  - simpl in Hn, Hcol.
    pose proof (column_length df name col Hwf Hcol) as Hlen.
    destruct (lookup_lt_is_Some_2 (BatchData.col_values col) r) as [v Hv]; [lia|].
    assert (Hrow : omap (fun i => BatchData.col_values col !! i) picked !! k
                   = Some v).
    { rewrite omap_lookup_in_range with (r := r);
        [exact Hv|now rewrite Hlen|assumption]. }
    cbn [map omap list_omap fst snd BatchData.take_column BatchData.col_values].
    rewrite Hrow.
    constructor; [|exact IH].
    unfold BatchData.cell. rewrite Hcol. simpl. exact Hv.
Qed.

(** The conversion to the common type is made value by value. *)
Lemma omap_cast {A} (t : dtype) (f : A -> option value) l :
  omap (fun c => astype t <$> f c) l = map (astype t) (omap f l).
Proof.
  induction l as [|c l IH]; [reflexivity|].
  cbn [omap list_omap]. destruct (f c); cbn; now rewrite IH.
Qed.

(** The types of the sampled columns are those of the columns asked. *)
Lemma sampled_dtypes n picked (cols : list (string * Column)) :
  BatchData.dtypes
    (BatchData.Frame n
       (map (fun c => (fst c, BatchData.take_column picked (snd c))) cols))
  = map (fun c => BatchData.col_dtype (snd c)) cols.
Proof.
  unfold BatchData.dtypes. cbn [BatchData.df_columns].
  rewrite map_map. reflexivity.
Qed.

(** The files after the loop, on a disk where the folder is there and no
    batch path is a directory: one insertion per index, in order. *)
Lemma save_loop_files (sample_ : list (list value)) range :
  forall s,
    Forall (fun i => is_Some (sample_ !! i)) range ->
    Forall (fun i =>
              BatchData.is_dir s
                (Py.dirname (Py.path_join BatchData.batch_folder (BatchData.fname i)))
              = true /\
              BatchData.is_dir s
                (Py.path_join BatchData.batch_folder (BatchData.fname i))
              = false) range ->
    exists s',
      save_loop range sample_ s = (Py.Ok tt, s') /\
      BatchData.stdout s' = BatchData.stdout s /\
      BatchData.dirs s' = BatchData.dirs s /\
      BatchData.files s'
      = foldl (fun fs i =>
                 <[Py.path_join BatchData.batch_folder (BatchData.fname i)
                   := BatchData.join "," (map repr (default [] (sample_ !! i)))]> fs)
              (BatchData.files s) range.
Proof.
  induction range as [|i rest IH]; intros s Hall Hdisk.
  - exists s. repeat split.
  - inversion Hall as [|? ? [row Hrow] Hrest]; subst.
    inversion Hdisk as [|? ? [Hparent Hpath] Hdisk']; subst.
    cbn [BatchData.save_loop]. unfold Py.bind, Py.lift, BatchData.getitem_row.
    rewrite Hrow. unfold BatchData.tofile. rewrite Hparent, Hpath. cbn [negb].
    destruct (IH (BatchData.State
                    (<[Py.path_join BatchData.batch_folder (BatchData.fname i)
                       := BatchData.join "," (map repr row)]> (BatchData.files s))
                    (BatchData.dirs s) (BatchData.stdout s)) Hrest Hdisk')
      as (s' & Hloop & Hout & Hdirs & Hfiles).
    exists s'. rewrite Hloop. split; [reflexivity|]. split; [exact Hout|].
    split; [exact Hdirs|].
    rewrite Hfiles. simpl. now rewrite Hrow.
Qed.

Lemma foldl_insert_other {A} (path : A -> string) (content : A -> string)
    range (m : gmap string string) p :
  (forall i, i ∈ range -> path i ≠ p) ->
  foldl (fun fs i => <[path i := content i]> fs) m range !! p = m !! p.
Proof.
  revert m. induction range as [|i rest IH]; intros m H; [reflexivity|].
  simpl. rewrite IH.
  - apply lookup_insert_ne. apply H, list_elem_of_here.
  - intros j Hj. apply H. now apply list_elem_of_further.
Qed.

Lemma foldl_insert_here {A} (path : A -> string) (content : A -> string)
    range (m : gmap string string) i :
  NoDup (map path range) -> i ∈ range ->
  foldl (fun fs i => <[path i := content i]> fs) m range !! path i
  = Some (content i).
Proof.
  revert m. induction range as [|j rest IH]; intros m Hnd Hi.
  - now apply elem_of_nil in Hi.
  - simpl in *. apply NoDup_cons in Hnd as [Hj Hnd].
    apply elem_of_cons in Hi as [->|Hi].
    + rewrite foldl_insert_other; [apply lookup_insert_eq|].
      intros k Hk Heq. apply Hj. rewrite <- Heq.
      now apply list_elem_of_fmap_2.
    + now apply IH.
Qed.

(** Once the folder is made, the loop can write every batch file. *)
Lemma writable_after_makedirs (s : BatchData.state) files out :
  BatchData.writable s ->
  Forall (fun i =>
            BatchData.is_dir
              (BatchData.State files ({[ BatchData.batch_folder ]} ∪ BatchData.dirs s) out)
              (Py.dirname (Py.path_join BatchData.batch_folder (BatchData.fname i)))
            = true /\
            BatchData.is_dir
              (BatchData.State files ({[ BatchData.batch_folder ]} ∪ BatchData.dirs s) out)
              (Py.path_join BatchData.batch_folder (BatchData.fname i))
            = false) (seq 0 100).
Proof.
  intros [_ Hdirs]. apply Forall_forall. intros i Hi. apply elem_of_seq in Hi.
  rewrite loop_path by lia.
  destruct (batch_file_in_folder (i + 1)) as (Hparent & Hfolder & Hempty & Hdot);
    [lia|].
  rewrite Hparent. unfold BatchData.is_dir. cbn [BatchData.dirs]. split.
  - apply bool_decide_eq_true. right. right.
    apply elem_of_union. left. now apply elem_of_singleton.
  - apply bool_decide_eq_false. intros [H|[H|H]]; [congruence..|].
    apply elem_of_union in H as [H|H].
    + apply elem_of_singleton in H. congruence.
    + apply (Hdirs (i + 1)); [lia|exact H].
Qed.

(** What the step leaves when the frame and the disk let it go through:
    the folder made, the three lines printed, and the files of before
    with one insertion per index, whose text is that of the row of the
    sampled array. *)
Lemma generate_outcome (diabetes : DataFrame) (picked : list nat) cols :
  BatchData.getitem_columns_go BatchData.feature_columns diabetes = Py.Ok cols ->
  100 <= BatchData.df_nrows diabetes ->
  length picked = 100 ->
  Forall (fun r => r < BatchData.df_nrows diabetes) picked ->
  forall s,
    BatchData.writable s ->
    generate diabetes picked s
    = (Py.Ok tt,
       BatchData.State
         (foldl (fun fs i =>
                   <[Py.path_join BatchData.batch_folder (BatchData.fname i)
                     := BatchData.join ","
                          (map repr
                             (default []
                                (values
                                   (BatchData.Frame (length picked)
                                      (map (fun c => (fst c,
                                              BatchData.take_column picked (snd c)))
                                           cols)) !! i)))]> fs)
                (BatchData.files s) (seq 0 100))
         ({[ BatchData.batch_folder ]} ∪ BatchData.dirs s)
         (((BatchData.stdout s ++ ["Folder created!"]) ++ ["Saving files..."])
            ++ ["files saved!"])).
Proof.
  intros Hgo Hrows Hlen Hpicked s Hwritable.
  set (cols' := map (fun c : string * Column =>
                       (fst c, BatchData.take_column picked (snd c))) cols).
  set (sample_ := values (BatchData.Frame (length picked) cols')).
  assert (Hall : Forall (fun i => is_Some (sample_ !! i)) (seq 0 100)).
  { apply Forall_forall. intros i Hi. apply elem_of_seq in Hi.
    unfold sample_, BatchData.values.
    cbn [BatchData.df_nrows BatchData.df_columns].
    rewrite list_lookup_fmap, lookup_seq_lt by lia. simpl. eauto. }
  destruct (save_loop_files sample_ (seq 0 100)
              (BatchData.State (BatchData.files s)
                 ({[ BatchData.batch_folder ]} ∪ BatchData.dirs s)
                 ((BatchData.stdout s ++ ["Folder created!"]) ++ ["Saving files..."]))
              Hall (writable_after_makedirs s _ _ Hwritable))
    as ([files1 dirs1 out1] & Hloop & Hout & Hdirs & Hfiles).
  cbn [BatchData.files BatchData.dirs BatchData.stdout] in Hout, Hdirs, Hfiles.
  subst out1 dirs1 files1.
  unfold BatchData.generate, Py.bind, Py.lift, BatchData.getitem_columns.
  rewrite Hgo. unfold BatchData.sample, BatchData.take_rows.
  cbn [BatchData.df_nrows BatchData.df_columns].
  assert ((BatchData.df_nrows diabetes <? 100) = false) as ->
    by (apply Nat.ltb_ge; lia).
  assert (forallb (fun i => i <? BatchData.df_nrows diabetes) picked = true) as ->.
  { apply forallb_forall. intros i Hi. apply Nat.ltb_lt.
    rewrite Forall_forall in Hpicked. apply Hpicked.
    now apply list_elem_of_In. }
  unfold BatchData.makedirs. destruct Hwritable as [-> _].
  unfold BatchData.print, Py.ret.
  cbn [BatchData.files BatchData.dirs BatchData.stdout].
  fold cols'. fold sample_. rewrite Hloop. reflexivity.
Qed.

(** C5, as amended.  Given the frame read from [data/diabetes2.csv],
    well formed, with the eight feature columns and at least a hundred
    rows, the hundred rows the generator draws, and a disk that lets the
    step write, the step ends without an exception, has made the folder
    and has written, for every [k] from 1 to 100, the file
    [./batch-data/k.csv]: it holds the values of the eight feature
    columns at the [k]-th drawn row, in the order of the column list,
    each converted to the common type of the eight columns, separated by
    commas.  No other path is touched, the hundred names are distinct,
    and the label column is not among the columns written. *)
Theorem generate_writes_hundred_files (diabetes : DataFrame)
    (picked : list nat) (s : BatchData.state) :
  BatchData.df_wf diabetes ->
  (forall name, name ∈ BatchData.feature_columns ->
     is_Some (BatchData.column name diabetes)) ->
  100 <= BatchData.df_nrows diabetes ->
  length picked = 100 ->
  Forall (fun r => r < BatchData.df_nrows diabetes) picked ->
  BatchData.writable s ->
  exists s' types,
    generate diabetes picked s = (Py.Ok tt, s') /\
    Forall2 (fun name t =>
               BatchData.col_dtype <$> BatchData.column name diabetes = Some t)
      BatchData.feature_columns types /\
    BatchData.dirs s' = {[ "./batch-data" ]} ∪ BatchData.dirs s /\
    (forall k, 1 <= k <= 100 ->
       exists r v1 v2 v3 v4 v5 v6 v7 v8,
         picked !! (k - 1) = Some r /\
         BatchData.cell diabetes "Pregnancies" r = Some v1 /\
         BatchData.cell diabetes "PlasmaGlucose" r = Some v2 /\
         BatchData.cell diabetes "DiastolicBloodPressure" r = Some v3 /\
         BatchData.cell diabetes "TricepsThickness" r = Some v4 /\
         BatchData.cell diabetes "SerumInsulin" r = Some v5 /\
         BatchData.cell diabetes "BMI" r = Some v6 /\
         BatchData.cell diabetes "DiabetesPedigree" r = Some v7 /\
         BatchData.cell diabetes "Age" r = Some v8 /\
         BatchData.files s' !! BatchData.batch_file k
         = Some (repr (astype (common_type types) v1) +:+ ","
                 +:+ repr (astype (common_type types) v2) +:+ ","
                 +:+ repr (astype (common_type types) v3) +:+ ","
                 +:+ repr (astype (common_type types) v4) +:+ ","
                 +:+ repr (astype (common_type types) v5) +:+ ","
                 +:+ repr (astype (common_type types) v6) +:+ ","
                 +:+ repr (astype (common_type types) v7) +:+ ","
                 +:+ repr (astype (common_type types) v8))) /\
    (forall path,
       (forall k, 1 <= k <= 100 -> path ≠ BatchData.batch_file k) ->
       BatchData.files s' !! path = BatchData.files s !! path) /\
    (forall k k', 1 <= k <= 100 -> 1 <= k' <= 100 ->
       BatchData.batch_file k = BatchData.batch_file k' -> k = k') /\
    "Diabetic" ∉ BatchData.feature_columns.
Proof.
  intros Hwf Hfeatures Hrows Hlen Hpicked Hwritable.
  destruct (getitem_columns_go_ok diabetes _ Hfeatures) as (cols & Hgo & Hcols).
  pose proof (generate_outcome diabetes picked cols Hgo Hrows Hlen Hpicked
                s Hwritable) as Hgen.
  set (cols' := map (fun c : string * Column =>
                       (fst c, BatchData.take_column picked (snd c))) cols) in *.
  set (sample_ := values (BatchData.Frame (length picked) cols')) in *.
  set (types := map (fun c : string * Column => BatchData.col_dtype (snd c)) cols).
  assert (Hsample : forall i, i < 100 ->
            sample_ !! i
            = Some (map (astype (common_type types))
                      (omap (fun c : string * Column =>
                               BatchData.col_values (snd c) !! i) cols'))).
  { intros i Hi. unfold sample_, BatchData.values.
    cbn [BatchData.df_nrows BatchData.df_columns].
    rewrite list_lookup_fmap, lookup_seq_lt by lia. cbn [fmap option_fmap option_map].
    unfold cols'. rewrite sampled_dtypes. fold types. fold cols'.
    now rewrite omap_cast. }
  eexists. exists types. split; [exact Hgen|].
  split; [|split; [|split; [|split; [|split]]]].
  - unfold types. apply Forall2_fmap_r.
    eapply Forall2_impl; [exact Hcols|].
    intros name c [_ Hc]. now rewrite Hc.
  - reflexivity.
  - intros k Hk. cbn [BatchData.files].
    destruct (lookup_lt_is_Some_2 picked (k - 1)) as [r Hr]; [lia|].
    pose proof (sampled_row diabetes _ cols picked (k - 1) r Hwf Hcols Hpicked Hr)
      as Hrow.
    fold cols' in Hrow.
    replace (BatchData.batch_file k)
      with (Py.path_join BatchData.batch_folder (BatchData.fname (k - 1))).
    2:{ rewrite loop_path by lia. f_equal. lia. }
    rewrite (foldl_insert_here
               (fun i => Py.path_join BatchData.batch_folder (BatchData.fname i))
               (fun i => BatchData.join "," (map repr (default [] (sample_ !! i)))))
      by (exact loop_paths_distinct || (apply elem_of_seq; lia)).
    rewrite Hsample by lia. cbn [default].
    remember (omap (fun c : string * Column =>
                      BatchData.col_values (snd c) !! (k - 1)) cols') as vs.
    clear Heqvs. unfold BatchData.feature_columns in Hrow.
    repeat match goal with
           | H : Forall2 _ (_ :: _) _ |- _ =>
               apply Forall2_cons_inv_l in H as (? & ? & ? & H & ->)
           | H : Forall2 _ [] _ |- _ => apply Forall2_nil_inv_l in H as ->
           end.
    do 9 eexists. split; [exact Hr|].
    repeat (split; [eassumption|]). reflexivity.
  - intros path Hpath. cbn [BatchData.files].
    apply (foldl_insert_other
             (fun i => Py.path_join BatchData.batch_folder (BatchData.fname i))
             (fun i => BatchData.join "," (map repr (default [] (sample_ !! i))))).
    intros i Hi. apply elem_of_seq in Hi. rewrite loop_path by lia.
    intros Heq. apply (Hpath (i + 1)); [lia|]. now symmetry.
  - exact batch_file_inj.
  - apply (bool_decide_unpack _). vm_compute. exact I.
Qed.

(** C10.  Two frames that hold the same feature columns over the same
    rows, whatever their label columns, give the same outcome for the same
    drawn rows: the same files with the same contents, or the same
    exception. *)
Theorem generate_ignores_label (d1 d2 : DataFrame) (picked : list nat)
    (s : BatchData.state) :
  BatchData.same_features d1 d2 ->
  generate d1 picked s = generate d2 picked s.
Proof.
  intros [Hrows Hcols].
  unfold BatchData.generate, Py.bind, Py.lift, BatchData.getitem_columns.
  rewrite (getitem_columns_go_ext d1 d2 _ Hcols), Hrows. reflexivity.
Qed.

End BatchDataProperties.

Lemma empty_disk_writable : BatchData.writable Demo.empty_disk.
Proof.
  split; [reflexivity|]. intros k _. cbn. set_solver.
Qed.

(** A frame, a draw and a disk that meet the conditions of C5: the sample
    frame of 120 rows and its last hundred rows, on an empty disk.  The
    first file holds the last row: the integers have become floats next
    to the two columns of floats. *)
Lemma generate_writes_hundred_files_witness :
  BatchData.df_wf Demo.frame_1 /\
  (forall name, name ∈ BatchData.feature_columns ->
     is_Some (BatchData.column name Demo.frame_1)) /\
  100 <= BatchData.df_nrows Demo.frame_1 /\
  length Demo.picked = 100 /\
  Forall (fun r => r < BatchData.df_nrows Demo.frame_1) Demo.picked /\
  BatchData.writable Demo.empty_disk /\
  BatchData.files (snd (Demo.generate Demo.frame_1 Demo.picked Demo.empty_disk))
    !! "./batch-data/1.csv"
  = Some "1190.0,1191.0,1192.0,1193.0,1194.0,119.5,119.6,1197.0" /\
  BatchData.files (snd (Demo.generate Demo.frame_1 Demo.picked Demo.empty_disk))
    !! "./batch-data/100.csv"
  = Some "200.0,201.0,202.0,203.0,204.0,20.5,20.6,207.0" /\
  exists s' types,
    Demo.generate Demo.frame_1 Demo.picked Demo.empty_disk = (Py.Ok tt, s') /\
    Forall2 (fun name t =>
               BatchData.col_dtype <$> BatchData.column name Demo.frame_1 = Some t)
      BatchData.feature_columns types /\
    BatchData.dirs s' = {[ "./batch-data" ]} ∪ BatchData.dirs Demo.empty_disk /\
    (forall k, 1 <= k <= 100 ->
       exists r v1 v2 v3 v4 v5 v6 v7 v8,
         Demo.picked !! (k - 1) = Some r /\
         BatchData.cell Demo.frame_1 "Pregnancies" r = Some v1 /\
         BatchData.cell Demo.frame_1 "PlasmaGlucose" r = Some v2 /\
         BatchData.cell Demo.frame_1 "DiastolicBloodPressure" r = Some v3 /\
         BatchData.cell Demo.frame_1 "TricepsThickness" r = Some v4 /\
         BatchData.cell Demo.frame_1 "SerumInsulin" r = Some v5 /\
         BatchData.cell Demo.frame_1 "BMI" r = Some v6 /\
         BatchData.cell Demo.frame_1 "DiabetesPedigree" r = Some v7 /\
         BatchData.cell Demo.frame_1 "Age" r = Some v8 /\
         BatchData.files s' !! BatchData.batch_file k
         = Some (Demo.repr (Demo.astype (Demo.common_type types) v1) +:+ ","
                 +:+ Demo.repr (Demo.astype (Demo.common_type types) v2) +:+ ","
                 +:+ Demo.repr (Demo.astype (Demo.common_type types) v3) +:+ ","
                 +:+ Demo.repr (Demo.astype (Demo.common_type types) v4) +:+ ","
                 +:+ Demo.repr (Demo.astype (Demo.common_type types) v5) +:+ ","
                 +:+ Demo.repr (Demo.astype (Demo.common_type types) v6) +:+ ","
                 +:+ Demo.repr (Demo.astype (Demo.common_type types) v7) +:+ ","
                 +:+ Demo.repr (Demo.astype (Demo.common_type types) v8))) /\
    (forall path,
       (forall k, 1 <= k <= 100 -> path ≠ BatchData.batch_file k) ->
       BatchData.files s' !! path = BatchData.files Demo.empty_disk !! path) /\
    (forall k k', 1 <= k <= 100 -> 1 <= k' <= 100 ->
       BatchData.batch_file k = BatchData.batch_file k' -> k = k') /\
    "Diabetic" ∉ BatchData.feature_columns.
Proof.
  assert (Hwf : BatchData.df_wf Demo.frame_1).
  { apply (bool_decide_unpack _). vm_compute. exact I. }
  assert (Hfeatures : forall name, name ∈ BatchData.feature_columns ->
            is_Some (BatchData.column name Demo.frame_1)).
  { apply Forall_forall. apply (bool_decide_unpack _). vm_compute. exact I. }
  assert (Hrows : 100 <= BatchData.df_nrows Demo.frame_1) by (simpl; lia).
  assert (Hlen : length Demo.picked = 100) by reflexivity.
  assert (Hpicked : Forall (fun r => r < BatchData.df_nrows Demo.frame_1) Demo.picked).
  { apply (bool_decide_unpack _). vm_compute. exact I. }
  split; [exact Hwf|]. split; [exact Hfeatures|]. split; [exact Hrows|].
  split; [exact Hlen|]. split; [exact Hpicked|].
  split; [exact empty_disk_writable|].
  split; [vm_compute; reflexivity|]. split; [vm_compute; reflexivity|].
  exact (generate_writes_hundred_files Demo.repr Demo.common_type Demo.astype
           Demo.frame_1 Demo.picked Demo.empty_disk Hwf Hfeatures Hrows Hlen
           Hpicked empty_disk_writable).
Defined.

(** C5 as stated fails on a disk where a regular file has the name of the
    folder: [os.makedirs] raises, the exception leaves the step, and no
    batch file is written. *)
Lemma occupied_folder_stops_generation :
  BatchData.files Demo.occupied_disk !! "./batch-data" = Some "notes" /\
  fst (Demo.generate Demo.frame_1 Demo.picked Demo.occupied_disk)
    = Py.Raise (Py.Exn Py.OSError "[Errno 17] File exists: './batch-data'") /\
  BatchData.stdout (snd (Demo.generate Demo.frame_1 Demo.picked Demo.occupied_disk))
    = [] /\
  BatchData.files (snd (Demo.generate Demo.frame_1 Demo.picked Demo.occupied_disk))
    !! "./batch-data/1.csv" = None /\
  ~ exists s',
      Demo.generate Demo.frame_1 Demo.picked Demo.occupied_disk = (Py.Ok tt, s').
Proof.
  split; [reflexivity|]. split; [vm_compute; reflexivity|].
  split; [vm_compute; reflexivity|]. split; [vm_compute; reflexivity|].
  intros (s' & H). apply (f_equal fst) in H. vm_compute in H. discriminate H.
Qed.

(** Two frames that meet the condition of C10: the same features, one
    labelled with zeros and one with ones. *)
Lemma generate_ignores_label_witness :
  BatchData.same_features Demo.frame_1 Demo.frame_2 /\
  BatchData.column BatchData.label_column Demo.frame_1
    ≠ BatchData.column BatchData.label_column Demo.frame_2 /\
  Demo.generate Demo.frame_1 Demo.picked Demo.empty_disk
  = Demo.generate Demo.frame_2 Demo.picked Demo.empty_disk.
Proof.
  assert (H : BatchData.same_features Demo.frame_1 Demo.frame_2).
  { split; [reflexivity|]. intros name Hname.
    unfold BatchData.feature_columns in Hname.
    repeat (apply elem_of_cons in Hname as [->|Hname];
            [vm_compute; reflexivity|]).
    now apply elem_of_nil in Hname. }
  split; [exact H|]. split; [intros Heq; vm_compute in Heq; discriminate Heq|].
  exact (generate_ignores_label Demo.repr Demo.common_type Demo.astype
           Demo.frame_1 Demo.frame_2 Demo.picked Demo.empty_disk H).
Defined.

(** ** The notebook: the order of the calls *)

Section NotebookOrder.

Import Notebook.

Variable lib : list ev -> call -> Py.outcome val.
Variable azureml_VERSION : val.
Variable DEFAULT_CPU_IMAGE : val.

Lemma ranked_nil lo hi : lo <= hi -> ranked lo hi [].
Proof. intros H. repeat split; [assumption|constructor|constructor]. Qed.

Lemma ranked_app lo mid hi evs1 evs2 :
  ranked lo mid evs1 -> ranked mid hi evs2 -> ranked lo hi (evs1 ++ evs2).
Proof.
  intros (Hlo & Hs1 & Hb1) (Hhi & Hs2 & Hb2).
  rewrite Forall_forall in Hb1, Hb2.
  split; [lia|]. split.
  - apply StronglySorted_app_2; [|assumption..].
    intros x1 x2 H1 H2. specialize (Hb1 _ H1). specialize (Hb2 _ H2). lia.
  - apply Forall_app. split; apply Forall_forall; intros e He.
    + specialize (Hb1 _ He). lia.
    + specialize (Hb2 _ He). lia.
Qed.

Lemma ranked_weaken lo hi lo' hi' evs :
  ranked lo hi evs -> lo' <= lo -> hi <= hi' -> ranked lo' hi' evs.
Proof.
  intros (H & Hs & Hb) Hlo Hhi. split; [lia|]. split; [assumption|].
  eapply Forall_impl; [exact Hb|]. simpl. intros e He. lia.
Qed.

Lemma adds_pure {A} k (m : Py.M state A) :
  (forall s, trace (snd (m s)) = trace s) -> adds_ranked k k m.
Proof.
  intros H s. exists []. rewrite app_nil_r. split; [apply H|].
  now apply ranked_nil.
Qed.

Lemma adds_ret {A} k (a : A) : adds_ranked k k (Py.ret a).
Proof. now apply adds_pure. Qed.

Lemma adds_lift {A} k (r : Py.outcome A) : adds_ranked k k (Py.lift r).
Proof. now apply adds_pure. Qed.

Lemma adds_assign k name v : adds_ranked k k (assign name v).
Proof. now apply adds_pure. Qed.

Lemma adds_print k parts : adds_ranked k k (print parts).
Proof. now apply adds_pure. Qed.

Lemma adds_load k name : adds_ranked k k (load name).
Proof.
  apply adds_pure. intros s. unfold load. now destruct (globals s !! name).
Qed.

Lemma adds_issue k cell c :
  (forall r, cell_rank (Ev cell c r) = k) -> adds_ranked k k (issue lib cell c).
Proof.
  intros H s. exists [Ev cell c (lib (trace s) c)]. split; [reflexivity|].
  split; [lia|]. split.
  - repeat constructor.
  - repeat constructor; rewrite H; lia.
Qed.

Lemma adds_bind {A B} lo mid hi (m : Py.M state A) (k : A -> Py.M state B) :
  mid <= hi ->
  adds_ranked lo mid m -> (forall a, adds_ranked mid hi (k a)) ->
  adds_ranked lo hi (Py.bind m k).
Proof.
  intros Hle Hm Hk s. unfold Py.bind.
  destruct (Hm s) as (evs1 & Ht1 & Hr1).
  destruct (m s) as [[a|e] s1]; simpl in Ht1.
  - destruct (Hk a s1) as (evs2 & Ht2 & Hr2).
    exists (evs1 ++ evs2). rewrite Ht2, Ht1, app_assoc.
    split; [reflexivity|]. now apply ranked_app with mid.
  - exists evs1. split; [exact Ht1|].
    destruct Hr1 as (? & ? & ?). eapply ranked_weaken; [split; eauto| |]; lia.
Qed.

Lemma adds_try {A} lo mid hi (body : Py.M state A) handles handler :
  mid <= hi ->
  adds_ranked lo mid body -> (forall e, adds_ranked mid hi (handler e)) ->
  adds_ranked lo hi (Py.try_except body handles handler).
Proof.
  intros Hle Hb Hh s. unfold Py.try_except.
  destruct (Hb s) as (evs1 & Ht1 & Hr1).
  assert (Hw : ranked lo hi evs1).
  { destruct Hr1 as (? & ? & ?). eapply ranked_weaken; [split; eauto| |]; lia. }
  destruct (body s) as [[a|e] s1]; simpl in Ht1.
  - exists evs1. now split.
  - destruct (handles e).
    + destruct (Hh e s1) as (evs2 & Ht2 & Hr2).
      exists (evs1 ++ evs2). rewrite Ht2, Ht1, app_assoc.
      split; [reflexivity|]. now apply ranked_app with mid.
    + exists evs1. now split.
Qed.

Lemma adds_for_each {A} k (items : list A) body :
  (forall x, adds_ranked k k (body x)) -> adds_ranked k k (for_each items body).
Proof.
  intros Hbody. induction items as [|x rest IH]; simpl.
  - apply adds_ret.
  - apply adds_bind with k; auto.
Qed.

Lemma adds_load_builtin k name : adds_ranked k k (load_builtin name).
Proof.
  apply adds_pure. intros s. unfold load_builtin.
  now destruct (globals s !! name).
Qed.

Lemma adds_unbind k name : adds_ranked k k (unbind name).
Proof. now apply adds_pure. Qed.

Lemma adds_finally {A} k (body : Py.M state A) cleanup :
  adds_ranked k k body -> (forall s, trace (snd (cleanup s)) = trace s) ->
  adds_ranked k k (Py.finally body cleanup).
Proof.
  intros Hbody Hclean s. unfold Py.finally.
  destruct (Hbody s) as (evs & Ht & Hr). exists evs. split; [|exact Hr].
  destruct (body s) as [r s1]. simpl in Ht.
  specialize (Hclean s1). destruct (cleanup s1) as [[[]|e] s2];
    simpl in *; congruence.
Qed.

Lemma adds_call_next k cell f x :
  (forall c r, cell_rank (Ev cell c r) = k) ->
  adds_ranked k k (call_next lib cell f x).
Proof.
  intros H. unfold call_next, lib_call.
  destruct f; try apply adds_lift; try (apply adds_issue; intros; apply H).
  destruct (String.eqb _ _); apply adds_issue; intros; apply H.
Qed.

Lemma adds_os_walk k cell os top :
  (forall c r, cell_rank (Ev cell c r) = k) ->
  adds_ranked k k (os_walk lib cell os top).
Proof.
  intros H. unfold os_walk, lib_call.
  destruct (is_os os); [apply adds_issue; intros; apply H|apply adds_lift].
Qed.

(** Every statement of a cell adds its calls at the cell's place. *)
Ltac at_rank k :=
  repeat
    (intros;
     lazymatch goal with
     | |- adds_ranked _ _ (Py.bind _ _) => apply (adds_bind k k k); [lia| |]
     | |- adds_ranked _ _ (Py.try_except _ _ _) =>
         apply (adds_try k k k); [lia| |]
     | |- adds_ranked _ _ (for_each _ _) => apply (adds_for_each k)
     | |- adds_ranked _ _ (issue _ _ _) => apply (adds_issue k); reflexivity
     | |- adds_ranked _ _ (Py.ret _) => apply adds_ret
     | |- adds_ranked _ _ (Py.lift _) => apply adds_lift
     | |- adds_ranked _ _ (assign _ _) => apply adds_assign
     | |- adds_ranked _ _ (print _) => apply adds_print
     | |- adds_ranked _ _ (load _) => apply adds_load
     | |- adds_ranked _ _ (load_builtin _) => apply adds_load_builtin
     | |- adds_ranked _ _ (unbind _) => apply adds_unbind
     | |- adds_ranked _ _ (Py.finally _ _) =>
         apply (adds_finally k); [|reflexivity]
     | |- adds_ranked _ _ (call_next _ _ _ _) =>
         apply (adds_call_next k); reflexivity
     | |- adds_ranked _ _ (os_walk _ _ _ _) =>
         apply (adds_os_walk k); reflexivity
     | |- adds_ranked _ _ (match ?p with pair _ _ => _ end) => destruct p
     | |- adds_ranked _ _ (if ?b then _ else _) => destruct b
     end).

Lemma cell_2_rank : adds_ranked 0 0 (cell_2 lib azureml_VERSION).
Proof. unfold cell_2, lib_call, lib_do. at_rank 0. Qed.

Lemma cell_4_train_rank : adds_ranked 1 1 (cell_4_train lib).
Proof. unfold cell_4_train, lib_call, lib_do, lib_call. at_rank 1. Qed.

Lemma cell_4_register_rank : adds_ranked 2 2 (cell_4_register lib).
Proof. unfold cell_4_register, lib_call, lib_do, lib_call. at_rank 2. Qed.

Lemma cell_6_rank : adds_ranked 3 3 (cell_6 lib).
Proof.
  unfold cell_6, import_os, cell_6_datastores, cell_6_generate, cell_6_upload,
    cell_6_register, cell_6_try_register, except_as, lib_do, lib_call.
  at_rank 3.
Qed.

Lemma cell_8_rank : adds_ranked 4 4 (cell_8 lib).
Proof. unfold cell_8, cell_8_create, except_as, lib_do, lib_call. at_rank 4. Qed.

Lemma cell_10_rank : adds_ranked 5 5 (cell_10 lib).
Proof. unfold cell_10, import_os, lib_do, lib_call. at_rank 5. Qed.

Lemma cell_12_rank : adds_ranked 5 5 (cell_12 lib).
Proof. unfold cell_12, writefile, lib_do, lib_call. at_rank 5. Qed.

Lemma cell_14_rank : adds_ranked 5 5 (cell_14 lib).
Proof. unfold cell_14, writefile, lib_do, lib_call. at_rank 5. Qed.

Lemma cell_16_rank : adds_ranked 5 5 (cell_16 lib DEFAULT_CPU_IMAGE).
Proof. unfold cell_16, lib_do, lib_call. at_rank 5. Qed.

Lemma cell_18_rank : adds_ranked 5 5 (cell_18 lib).
Proof. unfold cell_18, lib_do, lib_call. at_rank 5. Qed.

Lemma cell_20_rank : adds_ranked 6 6 (cell_20 lib).
Proof. unfold cell_20, lib_do, lib_call. at_rank 6. Qed.

Lemma cell_22_rank : adds_ranked 7 7 (cell_22 lib).
Proof. unfold cell_22, download_results, lib_do, lib_call. at_rank 7. Qed.

Lemma cell_24_rank : adds_ranked 8 8 (cell_24 lib).
Proof. unfold cell_24, lib_do, lib_call. at_rank 8. Qed.

Lemma cell_26_rank : adds_ranked 8 8 (cell_26 lib).
Proof. unfold cell_26, lib_do, lib_call. at_rank 8. Qed.

Lemma cell_28_rank : adds_ranked 9 9 (cell_28 lib).
Proof. unfold cell_28, lib_do, lib_call. at_rank 9. Qed.

Lemma cell_30_rank : adds_ranked 9 9 (cell_30 lib).
Proof. unfold cell_30, lib_do, lib_call. at_rank 9. Qed.

Lemma cell_32_rank : adds_ranked 10 10 (cell_32 lib).
Proof. unfold cell_32, lib_do, lib_call. at_rank 10. Qed.

Lemma cell_34_rank : adds_ranked 11 11 (cell_34 lib).
Proof. unfold cell_34, download_results, lib_do, lib_call. at_rank 11. Qed.

(** One statement after another: the places of the first end where the
    places of the second begin, or before. *)
Lemma adds_seq {A B} lo a b hi (m : Py.M state A) (k : Py.M state B) :
  adds_ranked lo a m -> adds_ranked b hi k -> a <= b ->
  adds_ranked lo hi (m ;; k).
Proof.
  intros Hm Hk Hab.
  assert (Hbh : b <= hi) by (destruct (Hk initial) as (? & _ & ? & _); assumption).
  apply (adds_bind lo a hi); [lia|exact Hm|].
  intros _ s. destruct (Hk s) as (evs & Ht & Hr). exists evs.
  split; [exact Ht|]. apply (ranked_weaken b hi); [exact Hr|lia..].
Qed.

Lemma cell_4_rank : adds_ranked 1 2 (cell_4 lib).
Proof.
  apply (adds_seq 1 1 2 2); [apply cell_4_train_rank|apply cell_4_register_rank|lia].
Qed.

Lemma notebook_rank :
  adds_ranked 0 11 (notebook lib azureml_VERSION DEFAULT_CPU_IMAGE).
Proof.
  unfold notebook.
  apply (adds_seq 0 0 1 11); [apply cell_2_rank| |lia].
  apply (adds_seq 1 2 3 11); [apply cell_4_rank| |lia].
  apply (adds_seq 3 3 4 11); [apply cell_6_rank| |lia].
  apply (adds_seq 4 4 5 11); [apply cell_8_rank| |lia].
  apply (adds_seq 5 5 5 11); [apply cell_10_rank| |lia].
  apply (adds_seq 5 5 5 11); [apply cell_12_rank| |lia].
  apply (adds_seq 5 5 5 11); [apply cell_14_rank| |lia].
  apply (adds_seq 5 5 5 11); [apply cell_16_rank| |lia].
  apply (adds_seq 5 5 6 11); [apply cell_18_rank| |lia].
  apply (adds_seq 6 6 7 11); [apply cell_20_rank| |lia].
  apply (adds_seq 7 7 8 11); [apply cell_22_rank| |lia].
  apply (adds_seq 8 8 8 11); [apply cell_24_rank| |lia].
  apply (adds_seq 8 8 9 11); [apply cell_26_rank| |lia].
  apply (adds_seq 9 9 9 11); [apply cell_28_rank| |lia].
  apply (adds_seq 9 9 10 11); [apply cell_30_rank| |lia].
  apply (adds_seq 10 10 11 11); [apply cell_32_rank|apply cell_34_rank|lia].
Qed.

(** C7, as amended.  Whatever the libraries answer and whatever the state
    the run starts in, the calls the notebook makes follow the order of
    its cells: workspace connect, train, register the model, upload the
    batch data, provision compute, define the pipeline step, run the
    pipeline, download the results, publish, call the REST endpoint, poll
    for completion, download the results again.  No call of a stage is
    made before a call of a stage that comes earlier in this order. *)
Theorem calls_follow_cell_order (s : state) :
  in_cell_order
    (new_calls s (snd (notebook lib azureml_VERSION DEFAULT_CPU_IMAGE s))).
Proof.
  destruct (notebook_rank s) as (evs & Ht & _ & Hsorted & _).
  unfold new_calls. rewrite Ht, drop_app_length. exact Hsorted.
Qed.

End NotebookOrder.

(** C7 as stated fails: on a platform where every call succeeds, the run
    downloads the results between running the pipeline and publishing
    it, so its platform calls are not in the listed order, in which the
    download comes last. *)
Lemma download_precedes_publish :
  fst (Demo.notebook Demo.cloud Notebook.initial) = Py.Ok tt /\
  Notebook.stage_sequence
    (Notebook.platform_calls
       (Notebook.trace (snd (Demo.notebook Demo.cloud Notebook.initial))))
  = [Notebook.Connect; Notebook.Train; Notebook.Register; Notebook.Upload;
     Notebook.Provision; Notebook.Define; Notebook.RunPipeline;
     Notebook.Download; Notebook.Publish; Notebook.Rest; Notebook.Poll;
     Notebook.Download] /\
  ~ Notebook.in_listed_order
      (Notebook.platform_calls
         (Notebook.trace (snd (Demo.notebook Demo.cloud Notebook.initial)))).
Proof.
  split; [vm_compute; reflexivity|]. split; [vm_compute; reflexivity|].
  unfold Notebook.in_listed_order.
  apply (bool_decide_unpack _). vm_compute. exact I.
Qed.

(** ** The notebook: resources that exist, exceptions that are caught *)

Section NotebookSteps.

Import Notebook.

Variable lib : list ev -> call -> Py.outcome val.

Ltac unfold_cell :=
  unfold lib_do, lib_call, except_as;
  unfold Py.try_except, Py.finally, Py.bind, issue, assign, unbind, load, print,
    Py.lift, Py.ret;
  simpl.

(** Case analysis on the outcome of the earliest call not yet decided. *)
Ltac destruct_call :=
  match goal with
  | |- context [lib ?h ?c] =>
      lazymatch h with
      | context [lib _ _] => fail
      | _ =>
          lazymatch c with
          | context [lib _ _] => fail
          | _ => destruct (lib h c) as [?|?] eqn:?; simpl
          end
      end
  end.

(** The handler [except Exception as ex: print(ex)] on the exception [e]. *)
Lemma print_handler_ok h o g e :
  except_as "ex" (let! ex := load "ex" in print [str_val ex]) e (State h o g)
  = (Py.Ok tt, State h (o ++ [Py.exn_msg e]) (delete "ex" g)).
Proof.
  unfold_cell. rewrite lookup_insert_eq. simpl.
  now rewrite delete_insert_eq.
Qed.

(** C2, as amended.  With the workspace bound:
    - when the cluster exists, the lookup answers with it and raises
      nothing: cell 8 makes that one call, binds the target it got to
      [inference_cluster], prints that it found the cluster, and ends
      without an exception;
    - when the lookup raises [ComputeTargetException], that exception is
      caught and not printed, and the creation is tried: the provisioning
      configuration is asked for, then the cluster is created from it
      under the name of the lookup and bound to [inference_cluster], then
      waited for.  The first of these calls that raises ends the
      creation: an [Exception] is caught and printed, and no [Exception]
      leaves the cell;
    - when registering the data set raises an [Exception], it is caught
      and printed, nothing leaves the statement, and [batch_data_set]
      stays bound to the unregistered file data set. *)
Theorem cluster_found_or_exception_caught (s : state) (ws : val) :
  globals s !! "ws" = Some ws ->
  (forall target,
     lib (trace s) (lookup_call ws) = Py.Ok target ->
     cell_8 lib s
     = (Py.Ok tt,
        State (trace s ++ [Ev 8 (lookup_call ws) (Py.Ok target)])
              (stdout s ++ ["Found existing cluster, use it."])
              (<["inference_cluster" := target]>
                 (<["cluster_name" := VStr cluster_name]> (globals s))))) /\
  (forall e,
     lib (trace s) (lookup_call ws) = Py.Raise e ->
     Py.is_ComputeTargetException e = true ->
     exists first created,
       new_calls s (snd (cell_8 lib s))
       = Ev 8 (lookup_call ws) (Py.Raise e)
         :: Ev 8 (Call AzureML "AmlCompute.provisioning_configuration" []
                    [("vm_size", VStr "STANDARD_DS11_V2"); ("max_nodes", VInt 2)])
              first
         :: created /\
       (forall e', fst (cell_8 lib s) = Py.Raise e' ->
          Py.is_Exception e' = false) /\
       match first with
       | Py.Raise e1 => created = [] /\ handled e1 s (cell_8 lib s)
       | Py.Ok compute_config =>
           exists second waited,
             created
             = Ev 8 (Call AzureML "ComputeTarget.create"
                       [ws; VStr "CT-915-02-JMDL"; compute_config] [])
                  second
               :: waited /\
             match second with
             | Py.Raise e2 => waited = [] /\ handled e2 s (cell_8 lib s)
             | Py.Ok target =>
                 globals (snd (cell_8 lib s)) !! "inference_cluster"
                   = Some target /\
                 exists third,
                   waited
                   = [Ev 8 (Call AzureML "ComputeTarget.wait_for_completion"
                              [target] [("show_output", VBool true)])
                        third] /\
                   match third with
                   | Py.Raise e3 => handled e3 s (cell_8 lib s)
                   | Py.Ok _ =>
                       fst (cell_8 lib s) = Py.Ok tt /\
                       stdout (snd (cell_8 lib s)) = stdout s
                   end
             end
       end) /\
  (forall batch_data_set e,
     globals s !! "batch_data_set" = Some batch_data_set ->
     lib (trace s) (register_call batch_data_set ws) = Py.Raise e ->
     Py.is_Exception e = true ->
     cell_6_try_register lib s
     = (Py.Ok tt,
        State (trace s ++ [Ev 6 (register_call batch_data_set ws) (Py.Raise e)])
              (stdout s ++ [Py.exn_msg e]) (delete "ex" (globals s))) /\
     globals (snd (cell_6_try_register lib s)) !! "batch_data_set"
     = Some batch_data_set).
Proof.
  intros Hws. split; [|split].
  - intros target Hlookup. unfold cell_8. unfold_cell.
    rewrite lookup_insert_ne, Hws by discriminate. simpl.
    rewrite Hlookup. reflexivity.
  - intros e Hlookup Hclass.
    destruct (cell_8 lib s) as [r s'] eqn:Hcell. revert Hcell.
    unfold cell_8, cell_8_create. unfold_cell.
    rewrite lookup_insert_ne, Hws by discriminate. simpl.
    rewrite Hlookup, Hclass. simpl.
    repeat (destruct_call; rewrite ?lookup_insert_ne, ?Hws by discriminate; simpl);
      repeat match goal with
             | |- context [Py.is_Exception ?e] =>
                 destruct (Py.is_Exception e) eqn:?; simpl
             end;
      rewrite ?lookup_insert_eq; simpl;
      intros [= <- <-];
      unfold new_calls, handled; cbn [fst snd trace stdout globals];
      rewrite <- ?app_assoc; cbn [app]; rewrite drop_app_length;
      (eexists; eexists; split; [reflexivity|]);
      (split; [intros e' He'; try discriminate He'; injection He' as <-;
               assumption|]);
      repeat first
        [ reflexivity
        | progress cbn beta iota
        | match goal with
          | H : Py.is_Exception ?e = _ |- context [Py.is_Exception ?e] =>
              rewrite H
          end
        | split
        | eexists
        | apply lookup_delete_eq
        | apply lookup_insert_eq
        | rewrite lookup_delete_ne, lookup_insert_ne by discriminate;
          apply lookup_insert_eq ].
  - intros batch_data_set e Hds Hregister Hclass.
    assert (Hcell : cell_6_try_register lib s
     = (Py.Ok tt,
        State (trace s ++ [Ev 6 (register_call batch_data_set ws) (Py.Raise e)])
              (stdout s ++ [Py.exn_msg e]) (delete "ex" (globals s)))).
    { unfold cell_6_try_register. unfold_cell. rewrite Hds, Hws. simpl.
      rewrite Hregister, Hclass. simpl.
      rewrite lookup_insert_eq. simpl. now rewrite delete_insert_eq. }
    rewrite Hcell. split; [reflexivity|]. simpl.
    now rewrite lookup_delete_ne by discriminate.
Qed.

(** C6, as amended.  With the published pipeline, the authentication
    header and the workspace bound, and a platform that answers the calls
    of cells 30 and 32 with a JSON body that holds an identifier under
    ["Id"]: the POST goes to the endpoint of the published pipeline with
    the experiment name in its JSON payload, the identifier read from the
    body is bound to [run_id], the pipeline run is built from the
    experiment [mslearn-diabetes-batch] and exactly that identifier, and
    the run so built is the one waited for.  The two cells make these six
    calls and no other. *)
Theorem rest_run_id_is_polled (s : state)
    (published_pipeline auth_header ws experiment run_id : val)
    (r : rest_replies) :
  globals s !! "published_pipeline" = Some published_pipeline ->
  globals s !! "auth_header" = Some auth_header ->
  globals s !! "ws" = Some ws ->
  answers lib (trace s)
    [Ev 30 (Call AzureML "PublishedPipeline.endpoint" [published_pipeline] [])
       (Py.Ok (rest_endpoint r));
     Ev 30 (Call Requests "post" [rest_endpoint r]
              [("headers", auth_header);
               ("json", VDict [("ExperimentName",
                                VStr "mslearn-diabetes-batch")])])
       (Py.Ok (response r));
     Ev 30 (Call Requests "Response.json" [response r] [])
       (Py.Ok (body r));
     Ev 32 (Call AzureML "Workspace.experiments" [ws] [])
       (Py.Ok (experiments r));
     Ev 32 (Call AzureML "PipelineRun" [experiment; run_id] [])
       (Py.Ok (published_pipeline_run r));
     Ev 32 (Call AzureML "PipelineRun.wait_for_completion"
              [published_pipeline_run r] [("show_output", VBool true)])
       (Py.Ok (finished r))] ->
  subscript (body r) "Id" = Py.Ok run_id ->
  subscript (experiments r) "mslearn-diabetes-batch" = Py.Ok experiment ->
  exists s',
    (cell_30 lib ;; cell_32 lib) s = (Py.Ok tt, s') /\
    trace s'
    = trace s
      ++ [Ev 30 (Call AzureML "PublishedPipeline.endpoint" [published_pipeline] [])
            (Py.Ok (rest_endpoint r));
          Ev 30 (Call Requests "post" [rest_endpoint r]
                   [("headers", auth_header);
                    ("json", VDict [("ExperimentName",
                                     VStr "mslearn-diabetes-batch")])])
            (Py.Ok (response r));
          Ev 30 (Call Requests "Response.json" [response r] [])
            (Py.Ok (body r));
          Ev 32 (Call AzureML "Workspace.experiments" [ws] [])
            (Py.Ok (experiments r));
          Ev 32 (Call AzureML "PipelineRun" [experiment; run_id] [])
            (Py.Ok (published_pipeline_run r));
          Ev 32 (Call AzureML "PipelineRun.wait_for_completion"
                   [published_pipeline_run r] [("show_output", VBool true)])
            (Py.Ok (finished r))] /\
    globals s' !! "run_id" = Some run_id /\
    globals s' !! "published_pipeline_run" = Some (published_pipeline_run r).
Proof.
  intros Hpp Hauth Hws Hlib Hid Hexp.
  pose proof (Hlib 0 _ eq_refl) as H0.
  pose proof (Hlib 1 _ eq_refl) as H1.
  pose proof (Hlib 2 _ eq_refl) as H2.
  pose proof (Hlib 3 _ eq_refl) as H3.
  pose proof (Hlib 4 _ eq_refl) as H4.
  pose proof (Hlib 5 _ eq_refl) as H5.
  cbn [take ev_call ev_result] in H0, H1, H2, H3, H4, H5.
  rewrite app_nil_r in H0.
  eexists. split; [|split; [|split]].
  - unfold cell_30, cell_32, endpoint_call, post_call, json_call,
      experiments_call, pipeline_run_call, wait_call.
    unfold_cell. rewrite Hpp. simpl.
    rewrite H0. simpl.
    rewrite lookup_insert_ne, Hauth by discriminate. simpl.
    rewrite H1. simpl. rewrite <- ?app_assoc. simpl.
    rewrite H2. simpl. rewrite Hid. simpl.
    rewrite !lookup_insert_ne, Hws by discriminate. simpl.
    rewrite <- ?app_assoc. simpl.
    rewrite H3. simpl. rewrite Hexp. simpl.
    rewrite lookup_insert_eq. simpl.
    rewrite <- ?app_assoc. simpl.
    rewrite H4. simpl. rewrite <- ?app_assoc. simpl.
    rewrite H5. simpl. rewrite <- ?app_assoc. simpl.
    reflexivity.
  - reflexivity.
  - simpl. rewrite lookup_insert_ne by discriminate. apply lookup_insert_eq.
  - simpl. apply lookup_insert_eq.
Qed.

End NotebookSteps.

(** The three cases of C2 as amended on sample platforms: one where the
    cluster exists, one where it does not and cannot be created (the
    lookup's exception is not printed, the creation's is), and one that
    refuses the data set. *)
Lemma cluster_found_or_exception_caught_witness :
  Notebook.globals Demo.connected !! "ws" = Some (Notebook.VObj 0) /\
  (Demo.cloud [] (Notebook.lookup_call (Notebook.VObj 0))
     = Py.Ok (Notebook.VObj 0) /\
   Notebook.cell_8 Demo.cloud Demo.connected
   = (Py.Ok tt,
      Notebook.State
        [Notebook.Ev 8 (Notebook.lookup_call (Notebook.VObj 0))
           (Py.Ok (Notebook.VObj 0))]
        ["Found existing cluster, use it."]
        (<["inference_cluster" := Notebook.VObj 0]>
           (<["cluster_name" := Notebook.VStr Notebook.cluster_name]>
              (Notebook.globals Demo.connected))))) /\
  (Demo.cloud_without_cluster [] (Notebook.lookup_call (Notebook.VObj 0))
     = Py.Raise (Py.Exn Py.ComputeTargetException "ComputeTargetNotFound") /\
   fst (Notebook.cell_8 Demo.cloud_without_cluster Demo.connected) = Py.Ok tt /\
   Notebook.stdout (snd (Notebook.cell_8 Demo.cloud_without_cluster Demo.connected))
     = ["Quota exceeded"] /\
   Notebook.trace (snd (Notebook.cell_8 Demo.cloud_without_cluster Demo.connected))
     = [Notebook.Ev 8 (Notebook.lookup_call (Notebook.VObj 0))
          (Py.Raise (Py.Exn Py.ComputeTargetException "ComputeTargetNotFound"));
        Notebook.Ev 8
          (Notebook.Call Notebook.AzureML "AmlCompute.provisioning_configuration" []
             [("vm_size", Notebook.VStr "STANDARD_DS11_V2");
              ("max_nodes", Notebook.VInt 2)])
          (Py.Ok (Notebook.VObj 1));
        Notebook.Ev 8
          (Notebook.Call Notebook.AzureML "ComputeTarget.create"
             [Notebook.VObj 0; Notebook.VStr "CT-915-02-JMDL"; Notebook.VObj 1] [])
          (Py.Raise (Py.Exn Py.OtherException "Quota exceeded"))] /\
   exists first created,
     Notebook.new_calls Demo.connected
       (snd (Notebook.cell_8 Demo.cloud_without_cluster Demo.connected))
     = Notebook.Ev 8 (Notebook.lookup_call (Notebook.VObj 0))
         (Py.Raise (Py.Exn Py.ComputeTargetException "ComputeTargetNotFound"))
       :: Notebook.Ev 8
            (Notebook.Call Notebook.AzureML "AmlCompute.provisioning_configuration" []
               [("vm_size", Notebook.VStr "STANDARD_DS11_V2");
                ("max_nodes", Notebook.VInt 2)])
            first
       :: created /\
     first = Py.Ok (Notebook.VObj 1) /\
     (forall e',
        fst (Notebook.cell_8 Demo.cloud_without_cluster Demo.connected)
          = Py.Raise e' -> Py.is_Exception e' = false)) /\
  Notebook.cell_6_try_register Demo.cloud_refusing_dataset Demo.with_dataset
  = (Py.Ok tt,
     Notebook.State
       [Notebook.Ev 6
          (Notebook.register_call (Notebook.VObj 5) (Notebook.VObj 0))
          (Py.Raise (Py.Exn Py.OtherException
             "There is already a dataset registered under name batch-data"))]
       ["There is already a dataset registered under name batch-data"]
       (delete "ex" (Notebook.globals Demo.with_dataset))) /\
  Notebook.globals
    (snd (Notebook.cell_6_try_register Demo.cloud_refusing_dataset Demo.with_dataset))
    !! "batch_data_set" = Some (Notebook.VObj 5).
Proof.
  destruct (cluster_found_or_exception_caught Demo.cloud Demo.connected (Notebook.VObj 0) eq_refl)
    as (Hfound & _ & _).
  destruct (cluster_found_or_exception_caught Demo.cloud_without_cluster Demo.connected
              (Notebook.VObj 0) eq_refl) as (_ & Hcreate & _).
  destruct (cluster_found_or_exception_caught Demo.cloud_refusing_dataset Demo.with_dataset
              (Notebook.VObj 0) eq_refl) as (_ & _ & Hregister).
  split; [reflexivity|]. split; [split; [reflexivity|]|split; [|split]].
  - exact (Hfound (Notebook.VObj 0) eq_refl).
  - split; [reflexivity|]. split; [vm_compute; reflexivity|].
    split; [vm_compute; reflexivity|]. split; [vm_compute; reflexivity|].
    destruct (Hcreate _ eq_refl eq_refl) as (first & created & Hcalls & Hout & _).
    exists first, created. split; [exact Hcalls|]. split; [|exact Hout].
    vm_compute in Hcalls. now injection Hcalls as <- _.
  - exact (proj1 (Hregister (Notebook.VObj 5) _ eq_refl eq_refl eq_refl)).
  - exact (proj2 (Hregister (Notebook.VObj 5) _ eq_refl eq_refl eq_refl)).
Defined.

(** C2 as stated fails for the cluster: when it exists the lookup answers
    with it, no call of the cell raises, so there is no exception to
    catch or print; the cell prints that it found the cluster and binds
    it. *)
Lemma existing_cluster_raises_nothing :
  Demo.cloud [] (Notebook.lookup_call (Notebook.VObj 0))
    = Py.Ok (Notebook.VObj 0) /\
  fst (Notebook.cell_8 Demo.cloud Demo.connected) = Py.Ok tt /\
  Notebook.stdout (snd (Notebook.cell_8 Demo.cloud Demo.connected))
    = ["Found existing cluster, use it."] /\
  Notebook.globals (snd (Notebook.cell_8 Demo.cloud Demo.connected))
    !! "inference_cluster" = Some (Notebook.VObj 0) /\
  ~ exists ev e,
      ev ∈ Notebook.trace (snd (Notebook.cell_8 Demo.cloud Demo.connected)) /\
      Notebook.ev_result ev = Py.Raise e /\
      Py.exn_msg e
        ∈ Notebook.stdout (snd (Notebook.cell_8 Demo.cloud Demo.connected)).
Proof.
  split; [reflexivity|]. split; [reflexivity|]. split; [reflexivity|].
  split; [vm_compute; reflexivity|].
  intros (ev & e & Hin & Hres & _).
  change (Notebook.trace (snd (Notebook.cell_8 Demo.cloud Demo.connected)))
    with [Notebook.Ev 8 (Notebook.lookup_call (Notebook.VObj 0))
            (Py.Ok (Notebook.VObj 0))] in Hin.
  apply list_elem_of_singleton in Hin. subst ev. discriminate Hres.
Qed.

(** A platform that meets the conditions of C6: the sample platform, from
    the kernel in which the pipeline is published.  The identifier
    [run-0042] of the response is the one the pipeline run is built
    from. *)
Lemma rest_run_id_is_polled_witness :
  Notebook.answers Demo.cloud (Notebook.trace Demo.published)
    [Notebook.Ev 30
            (Notebook.Call Notebook.AzureML "PublishedPipeline.endpoint"
               [Notebook.VObj 40] [])
            (Py.Ok (Notebook.VStr
               "https://region.api.azureml.ms/pipelines/v1.0/PipelineRuns/PipelineSubmit/42"));
          Notebook.Ev 30
            (Notebook.Call Notebook.Requests "post"
               [Notebook.VStr
                  "https://region.api.azureml.ms/pipelines/v1.0/PipelineRuns/PipelineSubmit/42"]
               [("headers", Notebook.VObj 41);
                ("json", Notebook.VDict
                           [("ExperimentName",
                             Notebook.VStr "mslearn-diabetes-batch")])])
            (Py.Ok (Notebook.VObj 1));
          Notebook.Ev 30
            (Notebook.Call Notebook.Requests "Response.json" [Notebook.VObj 1] [])
            (Py.Ok (Notebook.VDict [("Id", Notebook.VStr "run-0042")]));
          Notebook.Ev 32
            (Notebook.Call Notebook.AzureML "Workspace.experiments"
               [Notebook.VObj 0] [])
            (Py.Ok (Notebook.VDict
                      [("mslearn-train-diabetes", Notebook.VObj 21);
                       ("mslearn-diabetes-batch", Notebook.VObj 22)]));
          Notebook.Ev 32
            (Notebook.Call Notebook.AzureML "PipelineRun"
               [Notebook.VObj 22; Notebook.VStr "run-0042"] [])
            (Py.Ok (Notebook.VObj 4));
          Notebook.Ev 32
            (Notebook.Call Notebook.AzureML "PipelineRun.wait_for_completion"
               [Notebook.VObj 4] [("show_output", Notebook.VBool true)])
            (Py.Ok (Notebook.VObj 5))] /\
  Notebook.subscript (Notebook.VDict [("Id", Notebook.VStr "run-0042")]) "Id"
    = Py.Ok (Notebook.VStr "run-0042") /\
  exists s',
    (Notebook.cell_30 Demo.cloud ;; Notebook.cell_32 Demo.cloud) Demo.published
      = (Py.Ok tt, s') /\
    Notebook.trace s'
    = Notebook.trace Demo.published
      ++ [Notebook.Ev 30
            (Notebook.Call Notebook.AzureML "PublishedPipeline.endpoint"
               [Notebook.VObj 40] [])
            (Py.Ok (Notebook.VStr
               "https://region.api.azureml.ms/pipelines/v1.0/PipelineRuns/PipelineSubmit/42"));
          Notebook.Ev 30
            (Notebook.Call Notebook.Requests "post"
               [Notebook.VStr
                  "https://region.api.azureml.ms/pipelines/v1.0/PipelineRuns/PipelineSubmit/42"]
               [("headers", Notebook.VObj 41);
                ("json", Notebook.VDict
                           [("ExperimentName",
                             Notebook.VStr "mslearn-diabetes-batch")])])
            (Py.Ok (Notebook.VObj 1));
          Notebook.Ev 30
            (Notebook.Call Notebook.Requests "Response.json" [Notebook.VObj 1] [])
            (Py.Ok (Notebook.VDict [("Id", Notebook.VStr "run-0042")]));
          Notebook.Ev 32
            (Notebook.Call Notebook.AzureML "Workspace.experiments"
               [Notebook.VObj 0] [])
            (Py.Ok (Notebook.VDict
                      [("mslearn-train-diabetes", Notebook.VObj 21);
                       ("mslearn-diabetes-batch", Notebook.VObj 22)]));
          Notebook.Ev 32
            (Notebook.Call Notebook.AzureML "PipelineRun"
               [Notebook.VObj 22; Notebook.VStr "run-0042"] [])
            (Py.Ok (Notebook.VObj 4));
          Notebook.Ev 32
            (Notebook.Call Notebook.AzureML "PipelineRun.wait_for_completion"
               [Notebook.VObj 4] [("show_output", Notebook.VBool true)])
            (Py.Ok (Notebook.VObj 5))] /\
    Notebook.globals s' !! "run_id" = Some (Notebook.VStr "run-0042") /\
    Notebook.globals s' !! "published_pipeline_run" = Some (Notebook.VObj 4).
Proof.
  assert (H : Notebook.answers Demo.cloud (Notebook.trace Demo.published)
    [Notebook.Ev 30
            (Notebook.Call Notebook.AzureML "PublishedPipeline.endpoint"
               [Notebook.VObj 40] [])
            (Py.Ok (Notebook.VStr
               "https://region.api.azureml.ms/pipelines/v1.0/PipelineRuns/PipelineSubmit/42"));
          Notebook.Ev 30
            (Notebook.Call Notebook.Requests "post"
               [Notebook.VStr
                  "https://region.api.azureml.ms/pipelines/v1.0/PipelineRuns/PipelineSubmit/42"]
               [("headers", Notebook.VObj 41);
                ("json", Notebook.VDict
                           [("ExperimentName",
                             Notebook.VStr "mslearn-diabetes-batch")])])
            (Py.Ok (Notebook.VObj 1));
          Notebook.Ev 30
            (Notebook.Call Notebook.Requests "Response.json" [Notebook.VObj 1] [])
            (Py.Ok (Notebook.VDict [("Id", Notebook.VStr "run-0042")]));
          Notebook.Ev 32
            (Notebook.Call Notebook.AzureML "Workspace.experiments"
               [Notebook.VObj 0] [])
            (Py.Ok (Notebook.VDict
                      [("mslearn-train-diabetes", Notebook.VObj 21);
                       ("mslearn-diabetes-batch", Notebook.VObj 22)]));
          Notebook.Ev 32
            (Notebook.Call Notebook.AzureML "PipelineRun"
               [Notebook.VObj 22; Notebook.VStr "run-0042"] [])
            (Py.Ok (Notebook.VObj 4));
          Notebook.Ev 32
            (Notebook.Call Notebook.AzureML "PipelineRun.wait_for_completion"
               [Notebook.VObj 4] [("show_output", Notebook.VBool true)])
            (Py.Ok (Notebook.VObj 5))]).
  { intros i e Hi.
    do 6 (destruct i as [|i]; [injection Hi as <-; vm_compute; reflexivity|]).
    discriminate Hi. }
  split; [exact H|]. split; [reflexivity|].
  exact (rest_run_id_is_polled Demo.cloud Demo.published
           (Notebook.VObj 40) (Notebook.VObj 41) (Notebook.VObj 0)
           (Notebook.VObj 22) (Notebook.VStr "run-0042") Demo.cloud_replies
           eq_refl eq_refl eq_refl H eq_refl eq_refl).
Defined.

(** C6 as stated fails on a platform whose endpoint answers the POST with
    an error body: the POST carries the experiment name, the JSON body of
    the response holds no ["Id"], reading it raises [KeyError], and no
    pipeline run is built or waited for. *)
Lemma error_body_holds_no_run_id :
  Notebook.trace
    (snd ((Notebook.cell_30 Demo.cloud_rejecting_post ;;
           Notebook.cell_32 Demo.cloud_rejecting_post) Demo.published))
  = [Notebook.Ev 30
       (Notebook.Call Notebook.AzureML "PublishedPipeline.endpoint"
          [Notebook.VObj 40] [])
       (Py.Ok (Notebook.VStr
          "https://region.api.azureml.ms/pipelines/v1.0/PipelineRuns/PipelineSubmit/42"));
     Notebook.Ev 30
       (Notebook.Call Notebook.Requests "post"
          [Notebook.VStr
             "https://region.api.azureml.ms/pipelines/v1.0/PipelineRuns/PipelineSubmit/42"]
          [("headers", Notebook.VObj 41);
           ("json", Notebook.VDict
                      [("ExperimentName", Notebook.VStr "mslearn-diabetes-batch")])])
       (Py.Ok (Notebook.VObj 1));
     Notebook.Ev 30
       (Notebook.Call Notebook.Requests "Response.json" [Notebook.VObj 1] [])
       (Py.Ok (Notebook.VDict [("error", Notebook.VStr "PipelineNotFound")]))] /\
  Notebook.subscript
    (Notebook.VDict [("error", Notebook.VStr "PipelineNotFound")]) "Id"
    = Py.Raise (Py.Exn Py.KeyError "Id") /\
  fst ((Notebook.cell_30 Demo.cloud_rejecting_post ;;
        Notebook.cell_32 Demo.cloud_rejecting_post) Demo.published)
    = Py.Raise (Py.Exn Py.KeyError "Id") /\
  Notebook.globals
    (snd ((Notebook.cell_30 Demo.cloud_rejecting_post ;;
           Notebook.cell_32 Demo.cloud_rejecting_post) Demo.published))
    !! "run_id" = None /\
  ~ exists ev,
      ev ∈ Notebook.trace
             (snd ((Notebook.cell_30 Demo.cloud_rejecting_post ;;
                    Notebook.cell_32 Demo.cloud_rejecting_post) Demo.published)) /\
      Notebook.call_fn (Notebook.ev_call ev) = "PipelineRun".
Proof.
  assert (Htrace : Notebook.trace
    (snd ((Notebook.cell_30 Demo.cloud_rejecting_post ;;
           Notebook.cell_32 Demo.cloud_rejecting_post) Demo.published))
  = [Notebook.Ev 30
       (Notebook.Call Notebook.AzureML "PublishedPipeline.endpoint"
          [Notebook.VObj 40] [])
       (Py.Ok (Notebook.VStr
          "https://region.api.azureml.ms/pipelines/v1.0/PipelineRuns/PipelineSubmit/42"));
     Notebook.Ev 30
       (Notebook.Call Notebook.Requests "post"
          [Notebook.VStr
             "https://region.api.azureml.ms/pipelines/v1.0/PipelineRuns/PipelineSubmit/42"]
          [("headers", Notebook.VObj 41);
           ("json", Notebook.VDict
                      [("ExperimentName", Notebook.VStr "mslearn-diabetes-batch")])])
       (Py.Ok (Notebook.VObj 1));
     Notebook.Ev 30
       (Notebook.Call Notebook.Requests "Response.json" [Notebook.VObj 1] [])
       (Py.Ok (Notebook.VDict [("error", Notebook.VStr "PipelineNotFound")]))])
    by (vm_compute; reflexivity).
  split; [exact Htrace|]. split; [reflexivity|].
  split; [vm_compute; reflexivity|]. split; [vm_compute; reflexivity|].
  intros (ev & Hin & Hfn). rewrite Htrace in Hin.
  repeat (apply elem_of_cons in Hin as [->|Hin]; [discriminate Hfn|]).
  now apply elem_of_nil in Hin.
Qed.

(* ===================================================================== *)
(** * Further properties of the code *)
(* ===================================================================== *)

(** ** The entry script: failures, order of the calls, splitting *)

Section ScriptFurther.

Context {value label model_t : Type}.
Variable get_model_path : string -> Py.outcome string.
Variable joblib_load : string -> Py.outcome model_t.
Variable genfromtxt : string -> Py.outcome (Script.ndarray value).
Variable predict : model_t -> Script.ndarray value -> Py.outcome (list label).
Variable str_label : label -> string.

Local Abbreviation init := (Script.init (value := value) get_model_path joblib_load).
Local Abbreviation run_body := (Script.run_body genfromtxt predict str_label).
Local Abbreviation run_loop := (Script.run_loop genfromtxt predict str_label).
Local Abbreviation run := (Script.run genfromtxt predict str_label).
Local Abbreviation predicted := (Script.predicted genfromtxt predict).
Local Abbreviation refused := (Script.refused genfromtxt predict).

Lemma reads_app (evs1 evs2 : list (Script.event (value := value) (model_t := model_t))) :
  Script.reads (evs1 ++ evs2) = Script.reads evs1 ++ Script.reads evs2.
Proof. unfold Script.reads. apply omap_app. Qed.

(** A turn of the loop that succeeds: one read, then one prediction. *)
Lemma run_body_ok_events f s m p :
  Script.glob_model s = Some m -> predicted m f p ->
  exists x,
    run_body f s
    = (Py.Ok (Script.format_result (Py.basename f) (str_label p)),
       Script.State (Some m)
         (Script.events s ++ [Script.EvGenfromtxt f; Script.EvPredict m x])).
Proof.
  intros Hm (data & rest & Hread & Hpred).
  exists (Script.reshape_1_row data).
  unfold Script.run_body, Py.bind, Script.emit, Py.lift, Script.get_model, Py.ret.
  simpl. rewrite Hread, Hm. simpl. rewrite Hpred. simpl.
  now rewrite <- app_assoc.
Qed.

(** A turn of the loop that fails: the file is read, nothing after it. *)
Lemma run_body_refused f s m e :
  Script.glob_model s = Some m -> refused m f e ->
  exists evs,
    run_body f s = (Py.Raise e, Script.State (Some m) (Script.events s ++ evs))
    /\ Script.reads evs = [f].
Proof.
  intros Hm Href.
  unfold Script.run_body, Py.bind, Script.emit, Py.lift, Script.get_model, Py.ret.
  simpl. destruct Href as [Hread | (data & Hread & [Hpred | [Hpred Hitem]])];
    rewrite Hread; simpl.
  - exists [Script.EvGenfromtxt f]. rewrite Hm. now split.
  - rewrite Hm. simpl. rewrite Hpred. simpl.
    exists [Script.EvGenfromtxt f;
            Script.EvPredict m (Script.reshape_1_row data)].
    rewrite <- app_assoc. now split.
  - rewrite Hm. simpl. rewrite Hpred. simpl. simpl in Hitem.
    injection Hitem as <-.
    exists [Script.EvGenfromtxt f;
            Script.EvPredict m (Script.reshape_1_row data)].
    rewrite <- app_assoc. now split.
Qed.

(** The loop over files that all succeed, with the calls it makes. *)
Lemma run_loop_ok_events m mini_batch :
  forall acc s,
    Script.glob_model s = Some m ->
    Forall (fun f => exists p, predicted m f p) mini_batch ->
    exists lines evs,
      run_loop mini_batch acc s
      = (Py.Ok (acc ++ lines), Script.State (Some m) (Script.events s ++ evs))
      /\ length lines = length mini_batch
      /\ Script.reads evs = mini_batch
      /\ length evs = 2 * length mini_batch
      /\ Script.predictions_by m evs.
Proof.
  induction mini_batch as [|f rest IH]; intros acc s Hm Hall.
  - exists [], []. rewrite !app_nil_r. destruct s as [gm evs0]. simpl in *.
    subst gm. repeat split. constructor.
  - inversion Hall as [|? ? [p Hp] Hrest]; subst.
    destruct (run_body_ok_events f s m p Hm Hp) as (x & Hbody).
    destruct (IH (acc ++ [Script.format_result (Py.basename f) (str_label p)])
                (Script.State (Some m)
                   (Script.events s ++ [Script.EvGenfromtxt f; Script.EvPredict m x]))
                eq_refl Hrest)
      as (lines & evs & Hloop & Hlen & Hreads & Hcount & Hby).
    exists (Script.format_result (Py.basename f) (str_label p) :: lines),
           ([Script.EvGenfromtxt f; Script.EvPredict m x] ++ evs).
    split; [|split; [|split; [|split]]].
    + cbn [Script.run_loop]. unfold Py.bind at 1. rewrite Hbody, Hloop.
      simpl. now rewrite <- !app_assoc.
    + simpl. now rewrite Hlen.
    + simpl. now rewrite Hreads.
    + simpl. rewrite Hcount. lia.
    + repeat constructor. exact Hby.
Qed.

(** The loop started with lines already collected puts them in front. *)
Lemma run_loop_acc mini_batch :
  forall acc s,
    run_loop mini_batch acc s
    = match run_loop mini_batch [] s with
      | (Py.Ok lines, s') => (Py.Ok (acc ++ lines), s')
      | (Py.Raise e, s') => (Py.Raise e, s')
      end.
Proof.
  induction mini_batch as [|f rest IH]; intros acc s.
  - simpl. unfold Py.ret. now rewrite app_nil_r.
  - cbn [Script.run_loop]. unfold Py.bind.
    destruct (run_body f s) as [[line|e] s1]; [|reflexivity].
    rewrite (IH (acc ++ [line])), (IH ([] ++ [line])).
    destruct (run_loop rest [] s1) as [[lines|e] s2]; [|reflexivity].
    now rewrite <- app_assoc.
Qed.

Lemma run_loop_app b1 b2 :
  forall acc s,
    run_loop (b1 ++ b2) acc s
    = match run_loop b1 acc s with
      | (Py.Ok lines, s') => run_loop b2 lines s'
      | (Py.Raise e, s') => (Py.Raise e, s')
      end.
Proof.
  induction b1 as [|f rest IH]; intros acc s.
  - reflexivity.
  - cbn [app Script.run_loop]. unfold Py.bind.
    destruct (run_body f s) as [[line|e] s1]; [|reflexivity].
    apply IH.
Qed.

(** X1.  When the files before [f] in the mini-batch are read and
    predicted and the turn for [f] fails with [e], [run] ends with [e] and
    returns no line, not even those of the files before; the files read
    are those before [f] and [f], and none after it. *)
Theorem run_stops_at_first_failure (good rest : list string) (f : string)
    (s : Script.state) (m : model_t) (e : Py.exn) :
  Script.glob_model s = Some m ->
  Forall (fun g => exists p, predicted m g p) good ->
  refused m f e ->
  exists s',
    run (good ++ f :: rest) s = (Py.Raise e, s') /\
    Script.glob_model s' = Some m /\
    Script.reads (Script.new_events s s') = good ++ [f].
Proof.
  intros Hm Hgood Href. unfold Script.run. rewrite run_loop_app.
  destruct (run_loop_ok_events m good [] s Hm Hgood)
    as (lines & evs & Hloop & _ & Hreads & _ & _).
  rewrite Hloop. cbn [Script.run_loop]. unfold Py.bind.
  destruct (run_body_refused f (Script.State (Some m) (Script.events s ++ evs))
              m e eq_refl Href) as (evs' & Hbody & Hreads').
  rewrite Hbody. simpl. eexists. split; [reflexivity|]. split; [reflexivity|].
  unfold Script.new_events. simpl.
  rewrite <- app_assoc, drop_app_length, reads_app, Hreads, Hreads'.
  reflexivity.
Qed.

(** X2.  While the global [model] is unbound, [run] on a mini-batch whose
    first file can be read reads that file and then raises [NameError]:
    nothing is predicted and no other file is read. *)
Theorem run_before_init_raises_NameError (f : string) (rest : list string)
    (s : Script.state) (data : Script.ndarray value) :
  Script.glob_model s = None ->
  genfromtxt f = Py.Ok data ->
  run (f :: rest) s
  = (Py.Raise (Py.Exn Py.NameError "name 'model' is not defined"),
     Script.State None (Script.events s ++ [Script.EvGenfromtxt f])).
Proof.
  intros Hm Hread. unfold Script.run. cbn [Script.run_loop].
  unfold Script.run_body, Py.bind, Script.emit, Py.lift, Script.get_model.
  simpl. rewrite Hread, Hm. reflexivity.
Qed.

(** X3.  Running a mini-batch made of two parts is running the first part
    and then the second from the state the first leaves: when both parts
    go through, the lines are those of the first part followed by those of
    the second; when the first part fails, the second is not run; when
    the second fails, the lines of the first are not returned either. *)
Theorem run_app (b1 b2 : list string) (s : Script.state) :
  run (b1 ++ b2) s
  = match run b1 s with
    | (Py.Ok lines1, s1) =>
        match run b2 s1 with
        | (Py.Ok lines2, s2) => (Py.Ok (lines1 ++ lines2), s2)
        | (Py.Raise e, s2) => (Py.Raise e, s2)
        end
    | (Py.Raise e, s1) => (Py.Raise e, s1)
    end.
Proof.
  unfold Script.run. rewrite run_loop_app.
  destruct (run_loop b1 [] s) as [[lines1|e] s1]; [|reflexivity].
  apply run_loop_acc.
Qed.

(** X4.  When [init] fails, the exception is the registry's or the
    loader's, and the global [model] is as it was before the call: a
    model bound by an earlier [init] stays bound. *)
Theorem init_failure_keeps_model (s s' : Script.state) (e : Py.exn) :
  init s = (Py.Raise e, s') ->
  Script.glob_model s' = Script.glob_model s /\
  (get_model_path "diabetes_model" = Py.Raise e \/
   exists path,
     get_model_path "diabetes_model" = Py.Ok path /\
     joblib_load path = Py.Raise e).
Proof.
  unfold Script.init, Py.bind, Script.emit, Py.lift, Script.set_model. simpl.
  destruct (get_model_path "diabetes_model") as [path|e1] eqn:Hpath; simpl.
  - destruct (joblib_load path) as [m|e2] eqn:Hload; simpl; [discriminate|].
    intros [= <- <-]. split; [reflexivity|]. right. eauto.
  - intros [= <- <-]. split; [reflexivity|]. now left.
Qed.

(** X5.  When every file of the mini-batch is read and predicted, [run]
    reads each file once, in the order of the mini-batch, makes two
    library calls per file (the read and the prediction), asks every
    prediction of the bound model, and leaves the model bound. *)
Theorem run_reads_each_file_once (mini_batch : list string)
    (s : Script.state) (m : model_t) :
  Script.glob_model s = Some m ->
  Forall (fun f => exists p, predicted m f p) mini_batch ->
  exists lines s',
    run mini_batch s = (Py.Ok lines, s') /\
    Script.glob_model s' = Some m /\
    Script.reads (Script.new_events s s') = mini_batch /\
    length (Script.new_events s s') = 2 * length mini_batch /\
    Script.predictions_by m (Script.new_events s s').
Proof.
  intros Hm Hall.
  destruct (run_loop_ok_events m mini_batch [] s Hm Hall)
    as (lines & evs & Hloop & _ & Hreads & Hcount & Hby).
  exists lines, (Script.State (Some m) (Script.events s ++ evs)).
  split; [exact Hloop|]. split; [reflexivity|].
  unfold Script.new_events. simpl. rewrite drop_app_length. auto.
Qed.

End ScriptFurther.

(** Files that meet the conditions of X1: a good file, then the file of
    three values, then a file that is never reached. *)
Lemma run_stops_at_first_failure_witness :
  Script.glob_model Demo.ready = Some Demo.diabetes_tree /\
  Forall (fun g => exists p,
            Script.predicted Demo.genfromtxt Demo.predict Demo.diabetes_tree g p)
    ["batch-data/1.csv"] /\
  Script.refused Demo.genfromtxt Demo.predict Demo.diabetes_tree
    "batch-data/short.csv"
    (Py.Exn Py.ValueError
       "X has a different number of features than the fitted model expects") /\
  exists s',
    Demo.run (["batch-data/1.csv"] ++ "batch-data/short.csv" :: ["batch-data/2.csv"])
      Demo.ready
    = (Py.Raise (Py.Exn Py.ValueError
         "X has a different number of features than the fitted model expects"), s') /\
    Script.glob_model s' = Some Demo.diabetes_tree /\
    Script.reads (Script.new_events Demo.ready s')
    = ["batch-data/1.csv"] ++ ["batch-data/short.csv"].
Proof.
  assert (Hgood : Forall (fun g => exists p,
            Script.predicted Demo.genfromtxt Demo.predict Demo.diabetes_tree g p)
    ["batch-data/1.csv"]).
  { repeat constructor; eexists; eexists; eexists; split; vm_compute; reflexivity. }
  assert (Href : Script.refused Demo.genfromtxt Demo.predict Demo.diabetes_tree
    "batch-data/short.csv"
    (Py.Exn Py.ValueError
       "X has a different number of features than the fitted model expects")).
  { right. eexists. split; [vm_compute; reflexivity|]. left. reflexivity. }
  split; [reflexivity|]. split; [exact Hgood|]. split; [exact Href|].
  exact (run_stops_at_first_failure Demo.genfromtxt Demo.predict Demo.str_label
           ["batch-data/1.csv"] ["batch-data/2.csv"] "batch-data/short.csv"
           Demo.ready Demo.diabetes_tree _ eq_refl Hgood Href).
Defined.

(** A state that meets the conditions of X2: the node before [init]. *)
Lemma run_before_init_raises_NameError_witness :
  Script.glob_model Demo.fresh_script = None /\
  Demo.genfromtxt "batch-data/1.csv" = Py.Ok (Script.NdArray [8] Demo.patient_a) /\
  Demo.run ["batch-data/1.csv"; "batch-data/2.csv"] Demo.fresh_script
  = (Py.Raise (Py.Exn Py.NameError "name 'model' is not defined"),
     Script.State None
       (Script.events Demo.fresh_script ++ [Script.EvGenfromtxt "batch-data/1.csv"])).
Proof.
  split; [reflexivity|]. split; [reflexivity|].
  exact (run_before_init_raises_NameError Demo.genfromtxt Demo.predict
           Demo.str_label "batch-data/1.csv" ["batch-data/2.csv"]
           Demo.fresh_script _ eq_refl eq_refl).
Defined.

(** A call that meets the condition of X4: [init] once the model has left
    the registry, on a node where it was loaded before. *)
Lemma init_failure_keeps_model_witness :
  Script.init Demo.get_missing_model_path Demo.joblib_load Demo.ready
  = (Py.Raise (Py.Exn Py.OtherException "Model diabetes_model not found"),
     Script.State (Some Demo.diabetes_tree)
       (Script.events Demo.ready ++ [Script.EvGetModelPath "diabetes_model"])) /\
  Script.glob_model
    (Script.State (Some Demo.diabetes_tree)
       (Script.events Demo.ready ++ [Script.EvGetModelPath "diabetes_model"]))
  = Script.glob_model Demo.ready.
Proof.
  split; [reflexivity|].
  exact (proj1 (init_failure_keeps_model Demo.get_missing_model_path
                  Demo.joblib_load Demo.ready _ _ eq_refl)).
Defined.

(** A mini-batch that meets the conditions of X5: two files of the sample
    node. *)
Lemma run_reads_each_file_once_witness :
  Script.glob_model Demo.ready = Some Demo.diabetes_tree /\
  Forall (fun f => exists p,
            Script.predicted Demo.genfromtxt Demo.predict Demo.diabetes_tree f p)
    ["batch-data/2.csv"; "yesterday/1.csv"] /\
  exists lines s',
    Demo.run ["batch-data/2.csv"; "yesterday/1.csv"] Demo.ready = (Py.Ok lines, s') /\
    Script.glob_model s' = Some Demo.diabetes_tree /\
    Script.reads (Script.new_events Demo.ready s')
    = ["batch-data/2.csv"; "yesterday/1.csv"] /\
    length (Script.new_events Demo.ready s') = 2 * 2 /\
    Script.predictions_by Demo.diabetes_tree (Script.new_events Demo.ready s').
Proof.
  assert (H : Forall (fun f => exists p,
            Script.predicted Demo.genfromtxt Demo.predict Demo.diabetes_tree f p)
    ["batch-data/2.csv"; "yesterday/1.csv"]).
  { repeat constructor; eexists; eexists; eexists; split; vm_compute; reflexivity. }
  split; [reflexivity|]. split; [exact H|].
  exact (run_reads_each_file_once Demo.genfromtxt Demo.predict Demo.str_label
           _ Demo.ready Demo.diabetes_tree eq_refl H).
Defined.

(** ** From the batch files to the results table *)


Section ResultsOfBatchFiles.

Context {frame : Type}.
Variable to_frame : list (list string) -> frame.
Variable read_other : list string -> Py.outcome (Results.table (frame := frame)).


End ResultsOfBatchFiles.


(** ** Generating the batch data: refusals and reruns *)

Section BatchDataFurther.

Context {value dtype : Type}.
Variable repr : value -> string.
Variable common_type : list dtype -> dtype.
Variable astype : dtype -> value -> value.

Local Abbreviation DataFrame := (BatchData.DataFrame (value := value) (dtype := dtype)).
Local Abbreviation generate := (BatchData.generate repr common_type astype).

(** [df[[names]]] fails on the first name that is no column. *)
Lemma getitem_columns_go_missing (df : DataFrame) names :
  (exists name, name ∈ names /\ BatchData.column name df = None) ->
  exists missing,
    missing ∈ names /\ BatchData.column missing df = None /\
    BatchData.getitem_columns_go names df
    = Py.Raise (Py.Exn Py.KeyError (missing +:+ " not in index")).
Proof.
  induction names as [|name rest IH]; intros (n & Hn & Hcol).
  - now apply elem_of_nil in Hn.
  - simpl. destruct (BatchData.column name df) as [col|] eqn:Hname.
    + destruct IH as (missing & Hin & Hmiss & Hgo).
      { exists n. split; [|exact Hcol].
        apply elem_of_cons in Hn as [->|Hn]; [congruence|exact Hn]. }
      exists missing. rewrite Hgo.
      split; [now apply list_elem_of_further|]. now split.
    + exists name. split; [apply list_elem_of_here|]. now split.
Qed.

(** X7.  A frame that has the feature columns but fewer than a hundred
    rows makes the step end with the [ValueError] of the sample, before
    the folder is made and before anything is printed or written: the
    disk and the output are as they were. *)
Theorem generate_refuses_small_frame (diabetes : DataFrame)
    (picked : list nat) (s : BatchData.state) :
  (forall name, name ∈ BatchData.feature_columns ->
     is_Some (BatchData.column name diabetes)) ->
  BatchData.df_nrows diabetes < 100 ->
  generate diabetes picked s
  = (Py.Raise (Py.Exn Py.ValueError
       "Cannot take a larger sample than population when 'replace=False'"), s) /\
  BatchData.dirs (snd (generate diabetes picked s)) = BatchData.dirs s.
Proof.
  intros Hfeatures Hrows.
  destruct (getitem_columns_go_ok diabetes _ Hfeatures) as (cols & Hgo & _).
  unfold BatchData.generate, Py.bind, Py.lift, BatchData.getitem_columns.
  rewrite Hgo. unfold BatchData.sample.
  cbn [BatchData.df_nrows].
  assert ((BatchData.df_nrows diabetes <? 100) = true) as ->
    by (apply Nat.ltb_lt; lia).
  split; reflexivity.
Qed.

(** X8.  A frame that lacks one of the eight feature columns makes the
    step end with a [KeyError] that names a missing feature column,
    before anything is printed or written, however many rows it has. *)
Theorem generate_refuses_missing_column (diabetes : DataFrame)
    (picked : list nat) (s : BatchData.state) :
  (exists name, name ∈ BatchData.feature_columns /\
                BatchData.column name diabetes = None) ->
  exists missing,
    missing ∈ BatchData.feature_columns /\
    BatchData.column missing diabetes = None /\
    generate diabetes picked s
    = (Py.Raise (Py.Exn Py.KeyError (missing +:+ " not in index")), s).
Proof.
  intros Hmissing.
  destruct (getitem_columns_go_missing diabetes _ Hmissing)
    as (missing & Hin & Hcol & Hgo).
  exists missing. split; [exact Hin|]. split; [exact Hcol|].
  unfold BatchData.generate, Py.bind, Py.lift, BatchData.getitem_columns.
  now rewrite Hgo.
Qed.

(** X9.  What the step leaves on the disk does not depend on what the
    hundred batch files held before: on two disks that let the step
    write, with the same directories and the same files at every other
    path, the same frame and the same draw go through and leave the same
    files.  Running the cell again replaces the earlier sample whole. *)
Theorem generate_overwrites_batch_files (diabetes : DataFrame)
    (picked : list nat) (s1 s2 : BatchData.state) :
  (forall name, name ∈ BatchData.feature_columns ->
     is_Some (BatchData.column name diabetes)) ->
  100 <= BatchData.df_nrows diabetes ->
  length picked = 100 ->
  Forall (fun r => r < BatchData.df_nrows diabetes) picked ->
  BatchData.writable s1 ->
  BatchData.dirs s1 = BatchData.dirs s2 ->
  (forall path,
     (forall k, 1 <= k <= 100 -> path <> BatchData.batch_file k) ->
     BatchData.files s1 !! path = BatchData.files s2 !! path) ->
  fst (generate diabetes picked s1) = Py.Ok tt /\
  fst (generate diabetes picked s2) = Py.Ok tt /\
  BatchData.files (snd (generate diabetes picked s1))
  = BatchData.files (snd (generate diabetes picked s2)).
Proof.
  intros Hfeatures Hrows Hlen Hpicked Hw1 Hdirs Hagree.
  assert (Hw2 : BatchData.writable s2).
  { destruct Hw1 as [Hfolder Hpaths]. split.
    - rewrite <- Hagree; [exact Hfolder|].
      intros k Hk Heq. destruct (batch_file_in_folder k Hk) as (_ & Hne & _).
      now apply Hne.
    - rewrite <- Hdirs. exact Hpaths. }
  destruct (getitem_columns_go_ok diabetes _ Hfeatures) as (cols & Hgo & _).
  rewrite (generate_outcome repr common_type astype diabetes picked cols
             Hgo Hrows Hlen Hpicked s1 Hw1),
    (generate_outcome repr common_type astype diabetes picked cols
       Hgo Hrows Hlen Hpicked s2 Hw2).
  cbn [fst snd BatchData.files].
  split; [reflexivity|]. split; [reflexivity|].
  apply map_eq. intros path.
  destruct (decide (path ∈ map (fun i => Py.path_join BatchData.batch_folder
                                           (BatchData.fname i)) (seq 0 100)))
    as [Hin|Hout].
  - apply list_elem_of_fmap in Hin as (i & -> & Hi).
    rewrite !(foldl_insert_here
                (fun i => Py.path_join BatchData.batch_folder (BatchData.fname i)))
      by (exact loop_paths_distinct || exact Hi).
    reflexivity.
  - rewrite !(foldl_insert_other
                (fun i => Py.path_join BatchData.batch_folder (BatchData.fname i))).
    + apply Hagree. intros k Hk ->. apply Hout.
      apply list_elem_of_fmap. exists (k - 1). split.
      * rewrite loop_path by lia. f_equal. lia.
      * apply elem_of_seq. lia.
    + intros i Hi Heq. apply Hout. apply list_elem_of_fmap. eauto.
    + intros i Hi Heq. apply Hout. apply list_elem_of_fmap. eauto.
Qed.

End BatchDataFurther.

(** A frame that meets the conditions of X7: the eight columns, forty
    rows; the folder is not there before and not there after. *)
Lemma generate_refuses_small_frame_witness :
  (forall name, name ∈ BatchData.feature_columns ->
     is_Some (BatchData.column name Demo.small_frame)) /\
  BatchData.df_nrows Demo.small_frame < 100 /\
  ("./batch-data" ∉ BatchData.dirs Demo.empty_disk) /\
  Demo.generate Demo.small_frame Demo.picked Demo.empty_disk
  = (Py.Raise (Py.Exn Py.ValueError
       "Cannot take a larger sample than population when 'replace=False'"),
     Demo.empty_disk) /\
  BatchData.dirs (snd (Demo.generate Demo.small_frame Demo.picked Demo.empty_disk))
  = BatchData.dirs Demo.empty_disk.
Proof.
  assert (Hfeatures : forall name, name ∈ BatchData.feature_columns ->
            is_Some (BatchData.column name Demo.small_frame)).
  { apply Forall_forall. apply (bool_decide_unpack _). vm_compute. exact I. }
  assert (Hrows : BatchData.df_nrows Demo.small_frame < 100) by (simpl; lia).
  split; [exact Hfeatures|]. split; [exact Hrows|].
  split; [cbn; apply not_elem_of_empty|].
  exact (generate_refuses_small_frame Demo.repr Demo.common_type Demo.astype
           Demo.small_frame Demo.picked Demo.empty_disk Hfeatures Hrows).
Defined.

(** A frame that meets the condition of X8: 120 rows, no [BMI]. *)
Lemma generate_refuses_missing_column_witness :
  (exists name, name ∈ BatchData.feature_columns /\
                BatchData.column name Demo.frame_without_bmi = None) /\
  exists missing,
    missing ∈ BatchData.feature_columns /\
    BatchData.column missing Demo.frame_without_bmi = None /\
    Demo.generate Demo.frame_without_bmi Demo.picked Demo.empty_disk
    = (Py.Raise (Py.Exn Py.KeyError (missing +:+ " not in index")),
       Demo.empty_disk).
Proof.
  assert (H : exists name, name ∈ BatchData.feature_columns /\
                BatchData.column name Demo.frame_without_bmi = None).
  { exists "BMI". split; [|reflexivity].
    apply (bool_decide_unpack _). vm_compute. exact I. }
  split; [exact H|].
  exact (generate_refuses_missing_column Demo.repr Demo.common_type Demo.astype
           Demo.frame_without_bmi Demo.picked Demo.empty_disk H).
Defined.

(** Two disks that meet the conditions of X9: the folder with a first
    batch file left by an earlier run, and the folder empty. *)
Lemma generate_overwrites_batch_files_witness :
  (forall name, name ∈ BatchData.feature_columns ->
     is_Some (BatchData.column name Demo.frame_1)) /\
  100 <= BatchData.df_nrows Demo.frame_1 /\
  length Demo.picked_first = 100 /\
  Forall (fun r => r < BatchData.df_nrows Demo.frame_1) Demo.picked_first /\
  BatchData.writable Demo.stale_disk /\
  BatchData.dirs Demo.stale_disk = BatchData.dirs Demo.cleared_disk /\
  (forall path,
     (forall k, 1 <= k <= 100 -> path <> BatchData.batch_file k) ->
     BatchData.files Demo.stale_disk !! path
     = BatchData.files Demo.cleared_disk !! path) /\
  BatchData.files Demo.stale_disk !! "./batch-data/1.csv"
    = Some "0,0,0,0,0,0,0,0" /\
  BatchData.files
    (snd (Demo.generate Demo.frame_1 Demo.picked_first Demo.stale_disk))
    !! "./batch-data/1.csv"
    = Some "0.0,1.0,2.0,3.0,4.0,0.5,0.6,7.0" /\
  fst (Demo.generate Demo.frame_1 Demo.picked_first Demo.stale_disk) = Py.Ok tt /\
  fst (Demo.generate Demo.frame_1 Demo.picked_first Demo.cleared_disk) = Py.Ok tt /\
  BatchData.files
    (snd (Demo.generate Demo.frame_1 Demo.picked_first Demo.stale_disk))
  = BatchData.files
      (snd (Demo.generate Demo.frame_1 Demo.picked_first Demo.cleared_disk)).
Proof.
  assert (Hfeatures : forall name, name ∈ BatchData.feature_columns ->
            is_Some (BatchData.column name Demo.frame_1)).
  { apply Forall_forall. apply (bool_decide_unpack _). vm_compute. exact I. }
  assert (Hrows : 100 <= BatchData.df_nrows Demo.frame_1) by (simpl; lia).
  assert (Hlen : length Demo.picked_first = 100) by reflexivity.
  assert (Hpicked : Forall (fun r => r < BatchData.df_nrows Demo.frame_1)
                      Demo.picked_first).
  { apply (bool_decide_unpack _). vm_compute. exact I. }
  assert (Hfirst : BatchData.batch_file 1 = "./batch-data/1.csv")
    by (vm_compute; reflexivity).
  assert (Hwritable : BatchData.writable Demo.stale_disk).
  { split.
    - unfold Demo.stale_disk. cbn [BatchData.files].
      apply lookup_singleton_ne. discriminate.
    - intros k Hk Hin. unfold Demo.stale_disk in Hin. cbn [BatchData.dirs] in Hin.
      apply elem_of_singleton in Hin.
      destruct (batch_file_in_folder k Hk) as (_ & Hne & _). now apply Hne. }
  assert (Hagree : forall path,
     (forall k, 1 <= k <= 100 -> path <> BatchData.batch_file k) ->
     BatchData.files Demo.stale_disk !! path
     = BatchData.files Demo.cleared_disk !! path).
  { intros path Hpath.
    unfold Demo.stale_disk, Demo.cleared_disk. cbn [BatchData.files].
    rewrite lookup_empty. apply lookup_singleton_ne. intros Heq.
    apply (Hpath 1); [lia|]. rewrite Hfirst. symmetry. exact Heq. }
  split; [exact Hfeatures|]. split; [exact Hrows|]. split; [exact Hlen|].
  split; [exact Hpicked|]. split; [exact Hwritable|]. split; [reflexivity|].
  split; [exact Hagree|]. split; [reflexivity|].
  split; [vm_compute; reflexivity|].
  exact (generate_overwrites_batch_files Demo.repr Demo.common_type Demo.astype
           Demo.frame_1 Demo.picked_first Demo.stale_disk Demo.cleared_disk
           Hfeatures Hrows Hlen Hpicked Hwritable eq_refl Hagree).
Defined.

(** ** The notebook: what the handlers leave out, and what follows *)

Section NotebookFurther.

Import Notebook.

Variable lib : list ev -> call -> Py.outcome val.

Ltac unfold_cell :=
  unfold lib_do, lib_call, except_as;
  unfold Py.try_except, Py.finally, Py.bind, issue, assign, unbind, load, print,
    Py.lift, Py.ret;
  simpl.

(** X11.  The handler of cell 8 is for [ComputeTargetException] only: an
    exception of another class raised by the lookup of the cluster leaves
    the cell after that one call; no cluster is created, nothing is
    printed and [inference_cluster] is not bound by the cell. *)
Theorem other_lookup_failure_leaves_cell_8 (s : state) (ws : val) (e : Py.exn) :
  globals s !! "ws" = Some ws ->
  lib (trace s) (lookup_call ws) = Py.Raise e ->
  Py.is_ComputeTargetException e = false ->
  cell_8 lib s
  = (Py.Raise e,
     State (trace s ++ [Ev 8 (lookup_call ws) (Py.Raise e)]) (stdout s)
           (<["cluster_name" := VStr cluster_name]> (globals s))).
Proof.
  intros Hws Hlookup Hclass. unfold cell_8. unfold_cell.
  rewrite lookup_insert_ne, Hws by discriminate. simpl.
  rewrite Hlookup, Hclass. reflexivity.
Qed.

(** X12.  When the cluster is absent and its creation raises an
    [Exception], cell 8 prints it and ends without an exception, and
    [inference_cluster] is left as it was: unbound in a new kernel. *)
Theorem failed_creation_binds_nothing (s : state) (ws compute_config : val)
    (e0 e : Py.exn) :
  globals s !! "ws" = Some ws ->
  answers lib (trace s)
    [Ev 8 (lookup_call ws) (Py.Raise e0);
     Ev 8 provisioning_call (Py.Ok compute_config);
     Ev 8 (create_call ws compute_config) (Py.Raise e)] ->
  Py.is_ComputeTargetException e0 = true ->
  Py.is_Exception e = true ->
  exists s',
    cell_8 lib s = (Py.Ok tt, s') /\
    trace s'
    = trace s ++ [Ev 8 (lookup_call ws) (Py.Raise e0);
                  Ev 8 provisioning_call (Py.Ok compute_config);
                  Ev 8 (create_call ws compute_config) (Py.Raise e)] /\
    stdout s' = stdout s ++ [Py.exn_msg e] /\
    globals s' !! "inference_cluster" = globals s !! "inference_cluster".
Proof.
  intros Hws Hlib Hclass0 Hclass.
  pose proof (Hlib 0 _ eq_refl) as H0.
  pose proof (Hlib 1 _ eq_refl) as H1.
  pose proof (Hlib 2 _ eq_refl) as H2.
  cbn [take ev_call ev_result] in H0, H1, H2. rewrite app_nil_r in H0.
  unfold provisioning_call, create_call in H1, H2.
  eexists. split; [|split; [|split]].
  - unfold cell_8, cell_8_create. unfold_cell.
    rewrite lookup_insert_ne, Hws by discriminate. simpl.
    rewrite H0, Hclass0. simpl.
    rewrite H1. simpl.
    rewrite !lookup_insert_ne, Hws by discriminate. simpl.
    rewrite <- ?app_assoc. simpl.
    rewrite H2, Hclass. simpl.
    rewrite lookup_insert_eq. simpl.
    rewrite <- ?app_assoc. simpl. reflexivity.
  - reflexivity.
  - reflexivity.
  - simpl. rewrite lookup_delete_ne by discriminate.
    now rewrite !lookup_insert_ne by discriminate.
Qed.

(** X13.  When the cluster is absent, is created, and waiting for it
    raises an [Exception], cell 8 prints the exception and ends without
    one, and [inference_cluster] stays bound to the target that did not
    come up: the cells after it go on with that target. *)
Theorem failed_wait_keeps_target (s : state) (ws compute_config target : val)
    (e0 e : Py.exn) :
  globals s !! "ws" = Some ws ->
  answers lib (trace s)
    [Ev 8 (lookup_call ws) (Py.Raise e0);
     Ev 8 provisioning_call (Py.Ok compute_config);
     Ev 8 (create_call ws compute_config) (Py.Ok target);
     Ev 8 (wait_cluster_call target) (Py.Raise e)] ->
  Py.is_ComputeTargetException e0 = true ->
  Py.is_Exception e = true ->
  exists s',
    cell_8 lib s = (Py.Ok tt, s') /\
    stdout s' = stdout s ++ [Py.exn_msg e] /\
    globals s' !! "inference_cluster" = Some target.
Proof.
  intros Hws Hlib Hclass0 Hclass.
  pose proof (Hlib 0 _ eq_refl) as H0.
  pose proof (Hlib 1 _ eq_refl) as H1.
  pose proof (Hlib 2 _ eq_refl) as H2.
  pose proof (Hlib 3 _ eq_refl) as H3.
  cbn [take ev_call ev_result] in H0, H1, H2, H3. rewrite app_nil_r in H0.
  unfold provisioning_call, create_call, wait_cluster_call in H1, H2, H3.
  eexists. split; [|split].
  - unfold cell_8, cell_8_create. unfold_cell.
    rewrite lookup_insert_ne, Hws by discriminate. simpl.
    rewrite H0, Hclass0. simpl.
    rewrite H1. simpl.
    rewrite !lookup_insert_ne, Hws by discriminate. simpl.
    rewrite <- ?app_assoc. simpl.
    rewrite H2. simpl.
    rewrite <- ?app_assoc. simpl.
    rewrite H3, Hclass. simpl.
    rewrite lookup_insert_eq. simpl.
    reflexivity.
  - reflexivity.
  - simpl. rewrite lookup_delete_ne, lookup_insert_ne by discriminate.
    apply lookup_insert_eq.
Qed.

(** X14.  With [inference_cluster] unbound, cell 18 raises [NameError]
    when it comes to the configuration of the parallel run: the output
    configuration is the only call it has made, and neither the
    configuration nor the step is built. *)
Theorem cell_18_needs_the_cluster (s : state) (folder batch_env output_dir : val) :
  globals s !! "experiment_folder" = Some folder ->
  globals s !! "batch_env" = Some batch_env ->
  globals s !! "inference_cluster" = None ->
  lib (trace s) output_dir_call = Py.Ok output_dir ->
  cell_18 lib s
  = (Py.Raise (Py.Exn Py.NameError "name 'inference_cluster' is not defined"),
     State (trace s ++ [Ev 18 output_dir_call (Py.Ok output_dir)]) (stdout s)
           (<["output_dir" := output_dir]> (globals s))).
Proof.
  intros Hfolder Henv Hcluster Hout. unfold cell_18. unfold_cell.
  unfold output_dir_call in Hout. rewrite Hout. simpl.
  rewrite lookup_insert_ne, Hfolder by discriminate. simpl.
  rewrite lookup_insert_ne, Henv by discriminate. simpl.
  rewrite lookup_insert_ne, Hcluster by discriminate. reflexivity.
Qed.

(** X15.  When the JSON body of the response holds no ["Id"], cell 30
    raises [KeyError] after its three calls, [run_id] is left as it was,
    and the run of the cells stops there: no pipeline run is built and
    nothing is waited for. *)
Theorem missing_run_id_stops_the_run (s : state)
    (published_pipeline auth_header endpoint resp : val)
    (items : list (string * val)) :
  globals s !! "published_pipeline" = Some published_pipeline ->
  globals s !! "auth_header" = Some auth_header ->
  answers lib (trace s)
    [Ev 30 (endpoint_call published_pipeline) (Py.Ok endpoint);
     Ev 30 (post_call endpoint auth_header) (Py.Ok resp);
     Ev 30 (json_call resp) (Py.Ok (VDict items))] ->
  BatchData.assoc "Id" items = None ->
  exists s',
    (cell_30 lib ;; cell_32 lib) s = (Py.Raise (Py.Exn Py.KeyError "Id"), s') /\
    trace s'
    = trace s ++ [Ev 30 (endpoint_call published_pipeline) (Py.Ok endpoint);
                  Ev 30 (post_call endpoint auth_header) (Py.Ok resp);
                  Ev 30 (json_call resp) (Py.Ok (VDict items))] /\
    globals s' !! "run_id" = globals s !! "run_id".
Proof.
  intros Hpp Hauth Hlib Hid.
  pose proof (Hlib 0 _ eq_refl) as H0.
  pose proof (Hlib 1 _ eq_refl) as H1.
  pose proof (Hlib 2 _ eq_refl) as H2.
  cbn [take ev_call ev_result] in H0, H1, H2. rewrite app_nil_r in H0.
  eexists. split; [|split].
  - unfold cell_30, cell_32. unfold_cell. rewrite Hpp. simpl.
    rewrite H0. simpl.
    rewrite lookup_insert_ne, Hauth by discriminate. simpl.
    rewrite H1. simpl. rewrite <- ?app_assoc. simpl.
    rewrite H2. simpl. rewrite Hid. simpl.
    rewrite <- ?app_assoc. simpl. reflexivity.
  - reflexivity.
  - simpl. now rewrite !lookup_insert_ne by discriminate.
Qed.

(** *** Looking for the results file *)

Local Abbreviation in_folder root :=
  (fun (acc : option string) (file : string) =>
     if str_endswith "parallel_run_step.txt" file
     then Some (Py.path_join root file) else acc).

(** The loop over the files of one folder, as cells 22 and 34 write it. *)
Local Abbreviation files_body root :=
  (fun file : val =>
     assign "file" file ;;
     let! hit := Py.lift (endswith file "parallel_run_step.txt") in
     if hit : bool then
       let! os := load "os" in
       let! result_file := Py.lift (os_path_join os root file) in
       assign "result_file" result_file
     else Py.ret tt).

Lemma in_folder_found root files :
  forall acc,
    foldl (in_folder root) acc files
    = match foldl (in_folder root) None files with
      | Some p => Some p
      | None => acc
      end.
Proof.
  induction files as [|file rest IH]; intros acc; [reflexivity|].
  simpl. destruct (str_endswith "parallel_run_step.txt" file).
  - rewrite (IH (Some (Py.path_join root file))).
    now destruct (foldl (in_folder root) None rest).
  - apply IH.
Qed.

(** A results file found later replaces one found earlier. *)
Lemma find_results_found tree :
  forall acc,
    find_results tree acc
    = match find_results tree None with
      | Some p => Some p
      | None => acc
      end.
Proof.
  unfold find_results.
  induction tree as [|[[root dirs] files] rest IH]; intros acc; [reflexivity|].
  simpl. rewrite (IH (foldl (in_folder root) acc files)),
    (IH (foldl (in_folder root) None files)), (in_folder_found root files acc).
  destruct (foldl _ None rest); [reflexivity|].
  now destruct (foldl (in_folder root) None files).
Qed.

Lemma for_each_cons {A} (x : A) rest (body : A -> Py.M state unit) s :
  for_each (x :: rest) body s
  = match body x s with
    | (Py.Ok _, s1) => for_each rest body s1
    | (Py.Raise e, s1) => (Py.Raise e, s1)
    end.
Proof. reflexivity. Qed.

(** One turn of the loop over the files, with [os] bound to the module:
    the file is bound, and [result_file] with it when the name of the file
    ends as asked. *)
Lemma files_body_step root file s :
  globals s !! "os" = Some os_module ->
  files_body (VStr root) (VStr file) s
  = (Py.Ok tt,
     State (trace s) (stdout s)
       (if str_endswith "parallel_run_step.txt" file
        then <["result_file" := VStr (Py.path_join root file)]>
               (<["file" := VStr file]> (globals s))
        else <["file" := VStr file]> (globals s))).
Proof.
  intros Hos. unfold Py.bind, assign, load, Py.lift, Py.ret. simpl.
  destruct (str_endswith "parallel_run_step.txt" file); [|reflexivity].
  cbn [globals]. rewrite lookup_insert_ne, Hos by discriminate. reflexivity.
Qed.

Lemma files_loop root files :
  forall s,
    globals s !! "os" = Some os_module ->
    exists s',
      for_each (map VStr files) (files_body (VStr root)) s = (Py.Ok tt, s') /\
      trace s' = trace s /\ stdout s' = stdout s /\
      globals s' !! "os" = Some os_module /\
      globals s' !! "result_file"
      = match foldl (in_folder root) None files with
        | Some p => Some (VStr p)
        | None => globals s !! "result_file"
        end.
Proof.
  induction files as [|file rest IH]; intros s Hos.
  - exists s. now repeat split.
  - cbn [map]. rewrite for_each_cons, files_body_step by exact Hos.
    match goal with |- context [for_each _ _ ?s1] =>
      destruct (IH s1) as (s' & Hloop & Ht & Ho & Hos' & Hg) end.
    { cbn [globals]. destruct (str_endswith "parallel_run_step.txt" file);
        rewrite !lookup_insert_ne by discriminate; exact Hos. }
    exists s'. rewrite Hloop. cbn [trace stdout globals] in Ht, Ho, Hg.
    split; [reflexivity|]. split; [exact Ht|]. split; [exact Ho|].
    split; [exact Hos'|].
    rewrite Hg. cbn [foldl].
    destruct (str_endswith "parallel_run_step.txt" file).
    + rewrite lookup_insert_eq.
      rewrite (in_folder_found root rest (Some (Py.path_join root file))).
      now destruct (foldl (in_folder root) None rest).
    + now rewrite lookup_insert_ne by discriminate.
Qed.

(** The loop over the folders of the walk. *)
Lemma walk_loop tree :
  forall s,
    globals s !! "os" = Some os_module ->
    exists s',
      for_each
        (map (fun d : folder =>
                let '(root, dirs, files) := d in
                VList [VStr root; VList (map VStr dirs); VList (map VStr files)])
             tree)
        (fun entry =>
           let! triple := Py.lift (unpack3 entry) in
           let '(root, dirs, files) := triple in
           assign "root" root ;;
           assign "dirs" dirs ;;
           assign "files" files ;;
           let! names := Py.lift (iterate files) in
           for_each names (files_body root)) s
      = (Py.Ok tt, s') /\
      trace s' = trace s /\ stdout s' = stdout s /\
      globals s' !! "result_file"
      = match find_results tree None with
        | Some p => Some (VStr p)
        | None => globals s !! "result_file"
        end.
Proof.
  induction tree as [|[[root dirs] files] rest IH]; intros s Hos.
  - exists s. now repeat split.
  - cbn [map]. rewrite for_each_cons.
    unfold Py.bind at 1 2 3 4 5, Py.lift at 1 2, assign at 1 2 3.
    cbn [unpack3 iterate trace stdout globals].
    match goal with |- context [for_each (map VStr files) _ ?s0] =>
      destruct (files_loop root files s0) as (s1 & Hfiles & Ht1 & Ho1 & Hos1 & Hg1)
    end.
    { cbn [globals]. rewrite !lookup_insert_ne by discriminate. exact Hos. }
    rewrite Hfiles. cbn [trace stdout globals] in Ht1, Ho1, Hg1.
    destruct (IH s1 Hos1) as (s' & Hloop & Ht & Ho & Hg).
    exists s'. rewrite Hloop.
    split; [reflexivity|]. split; [congruence|]. split; [congruence|].
    rewrite Hg, Hg1. unfold find_results. cbn [foldl].
    fold (find_results rest (foldl (in_folder root) None files)).
    fold (find_results rest None).
    rewrite (find_results_found rest (foldl (in_folder root) None files)).
    destruct (find_results rest None); [reflexivity|].
    destruct (foldl (in_folder root) None files); [reflexivity|].
    now rewrite !lookup_insert_ne by discriminate.
Qed.

(** *** Stepping through a cell *)

Lemma issue_ok h o g cell c v {A} (k : val -> Py.M state A) :
  lib h c = Py.Ok v ->
  Py.bind (issue lib cell c) k (State h o g)
  = k v (State (h ++ [Ev cell c (Py.Ok v)]) o g).
Proof. intros H. unfold Py.bind, issue. simpl. now rewrite H. Qed.

Lemma lib_do_ok h o g cell l fn args kwargs v {A} (k : unit -> Py.M state A) :
  lib h (Call l fn args kwargs) = Py.Ok v ->
  Py.bind (lib_do lib cell l fn args kwargs) k (State h o g)
  = k tt (State (h ++ [Ev cell (Call l fn args kwargs) (Py.Ok v)]) o g).
Proof.
  intros H. unfold lib_do, lib_call, Py.bind, issue, Py.ret. simpl.
  now rewrite H.
Qed.

Lemma load_ok h o (g : gmap string val) name v {A} (k : val -> Py.M state A) :
  g !! name = Some v ->
  Py.bind (load name) k (State h o g) = k v (State h o g).
Proof. intros H. unfold Py.bind, load. simpl. now rewrite H. Qed.

Lemma load_unbound h o (g : gmap string val) name {A} (k : val -> Py.M state A) :
  g !! name = None ->
  Py.bind (load name) k (State h o g)
  = (Py.Raise (Py.Exn Py.NameError ("name '" +:+ name +:+ "' is not defined")),
     State h o g).
Proof. intros H. unfold Py.bind, load. simpl. now rewrite H. Qed.

Lemma load_builtin_unbound h o (g : gmap string val) name {A}
    (k : val -> Py.M state A) :
  g !! name = None ->
  Py.bind (load_builtin name) k (State h o g) = k (VBuiltin name) (State h o g).
Proof. intros H. unfold Py.bind, load_builtin. simpl. now rewrite H. Qed.

Lemma assign_then h o g name v {A} (k : unit -> Py.M state A) :
  Py.bind (assign name v) k (State h o g) = k tt (State h o (<[name := v]> g)).
Proof. reflexivity. Qed.

Lemma lift_then {A B} (a : A) (k : A -> Py.M state B) s :
  Py.bind (Py.lift (Py.Ok a)) k s = k a s.
Proof. reflexivity. Qed.

Lemma bind_ok {A B} (m : Py.M state A) (k : A -> Py.M state B) s a s' :
  m s = (Py.Ok a, s') -> Py.bind m k s = k a s'.
Proof. intros H. unfold Py.bind. now rewrite H. Qed.

(** With the names [next] and [os] as Python and cell 6 leave them, the
    two go to the generator and to the walk of the folder. *)
Lemma call_next_builtin cell x :
  call_next lib cell (VBuiltin "next") x
  = issue lib cell (Call AzureML "generator.__next__" [x] []).
Proof. reflexivity. Qed.

Lemma os_walk_module cell top :
  os_walk lib cell os_module top = issue lib cell (Call OS "walk" [VStr top] []).
Proof. reflexivity. Qed.

(** The end of a download: the results file is read and shown. *)
Local Abbreviation read_results cell :=
  (let! result_file := load "result_file" in
   let! df := lib_call lib cell Pandas "read_csv" [result_file]
                [("delimiter", VStr ":"); ("header", VNone)] in
   assign "df" df ;;
   lib_do lib cell Pandas "DataFrame.columns="
     [df; VList [VStr "File"; VStr "Prediction"]] [] ;;
   lib_do lib cell Pandas "DataFrame.head" [df; VInt 20] []).

(** A download whose calls are answered, up to the reading of the file:
    the calls made so far, and the value of [result_file] found. *)
Lemma download_up_to_walk (cell : nat) (s : state) (pipeline_run : val)
    (r : download_replies) (tree : list folder) :
  globals s !! "pipeline_run" = Some pipeline_run ->
  globals s !! "os" = Some os_module ->
  globals s !! "next" = None ->
  answers lib (trace s) (download_calls cell pipeline_run r tree) ->
  exists s1,
    download_results lib cell s = read_results cell s1 /\
    trace s1 = trace s ++ download_calls cell pipeline_run r tree /\
    stdout s1 = stdout s /\
    globals s1 !! "result_file"
    = match find_results tree None with
      | Some p => Some (VStr p)
      | None => globals s !! "result_file"
      end.
Proof.
  destruct s as [h o g]. cbn [trace stdout globals]. intros Hrun Hos Hnext Hlib.
  pose proof (Hlib 0 _ eq_refl) as H0.
  pose proof (Hlib 1 _ eq_refl) as H1.
  pose proof (Hlib 2 _ eq_refl) as H2.
  pose proof (Hlib 3 _ eq_refl) as H3.
  pose proof (Hlib 4 _ eq_refl) as H4.
  pose proof (Hlib 5 _ eq_refl) as H5.
  cbn [take download_calls ev_call ev_result] in H0, H1, H2, H3, H4, H5.
  rewrite app_nil_r in H0.
  unfold download_results.
  rewrite (lib_do_ok _ _ _ _ _ _ _ _ _ _ H0).
  rewrite (load_builtin_unbound _ _ _ _ _ Hnext).
  rewrite (load_ok _ _ _ _ _ _ Hrun).
  unfold lib_call at 1. rewrite (issue_ok _ _ _ _ _ _ _ H1).
  rewrite <- app_assoc. cbn [app].
  rewrite call_next_builtin, (issue_ok _ _ _ _ _ _ _ H2).
  rewrite <- app_assoc. cbn [app]. rewrite assign_then.
  unfold lib_call at 1. rewrite (issue_ok _ _ _ _ _ _ _ H3).
  rewrite <- app_assoc. cbn [app]. rewrite assign_then.
  rewrite (lib_do_ok _ _ _ _ _ _ _ _ _ _ H4).
  rewrite <- app_assoc. cbn [app].
  rewrite (load_ok _ _ _ "os" os_module)
    by (rewrite !lookup_insert_ne by discriminate; exact Hos).
  rewrite os_walk_module, (issue_ok _ _ _ _ _ _ _ H5).
  rewrite <- app_assoc. cbn [app].
  cbn [iterate walk_val]. rewrite lift_then.
  match goal with |- context [Py.bind (for_each _ _) _ ?s0] =>
    destruct (walk_loop tree s0) as (s1 & Hloop & Ht & Ho & Hg) end.
  { cbn [globals]. rewrite !lookup_insert_ne by discriminate. exact Hos. }
  exists s1. rewrite (bind_ok _ _ _ _ _ Hloop).
  cbn [trace stdout globals] in Ht, Ho, Hg.
  split; [reflexivity|]. split; [exact Ht|]. split; [exact Ho|].
  rewrite Hg. now rewrite !lookup_insert_ne by discriminate.
Qed.

(** X16.  In a kernel where [os] is the module that cell 6 imported and
    no cell has bound [next], when the calls of a download are answered
    and no file of the downloaded folder has a name that ends with
    [parallel_run_step.txt], and no results file is left bound from
    before, the download raises [NameError] on [result_file] after the
    walk; no file is read. *)
Theorem download_without_results_file (cell : nat) (s : state)
    (pipeline_run : val) (r : download_replies) (tree : list folder) :
  globals s !! "pipeline_run" = Some pipeline_run ->
  globals s !! "os" = Some os_module ->
  globals s !! "next" = None ->
  globals s !! "result_file" = None ->
  answers lib (trace s) (download_calls cell pipeline_run r tree) ->
  find_results tree None = None ->
  fst (download_results lib cell s)
    = Py.Raise (Py.Exn Py.NameError "name 'result_file' is not defined") /\
  trace (snd (download_results lib cell s))
    = trace s ++ download_calls cell pipeline_run r tree.
Proof.
  intros Hrun Hos Hnext Hfile Hlib Hnone.
  destruct (download_up_to_walk cell s pipeline_run r tree Hrun Hos Hnext Hlib)
    as ([h1 o1 g1] & Hdown & Ht & _ & Hg).
  rewrite Hnone, Hfile in Hg. cbn [trace globals] in Ht, Hg.
  rewrite Hdown, (load_unbound _ _ _ _ _ Hg). now split.
Qed.

(** X17.  In such a kernel, when the calls of a download are answered,
    the file it reads is the last one the walk finds whose name ends with
    [parallel_run_step.txt]; when the walk finds none, it is the file
    that [result_file] was left bound to before, by the earlier
    download. *)
Theorem download_reads_last_results_file (cell : nat) (s : state)
    (pipeline_run result_file : val) (r : download_replies)
    (tree : list folder) :
  globals s !! "pipeline_run" = Some pipeline_run ->
  globals s !! "os" = Some os_module ->
  globals s !! "next" = None ->
  answers lib (trace s) (download_calls cell pipeline_run r tree) ->
  match find_results tree None with
  | Some p => Some (VStr p)
  | None => globals s !! "result_file"
  end = Some result_file ->
  exists reply later,
    trace (snd (download_results lib cell s))
    = trace s ++ download_calls cell pipeline_run r tree
      ++ Ev cell (read_results_call result_file) reply :: later.
Proof.
  intros Hrun Hos Hnext Hlib Hfound.
  destruct (download_up_to_walk cell s pipeline_run r tree Hrun Hos Hnext Hlib)
    as ([h1 o1 g1] & Hdown & Ht & _ & Hg).
  rewrite Hfound in Hg. cbn [trace globals] in Ht, Hg.
  rewrite Hdown, (load_ok _ _ _ _ _ _ Hg).
  unfold lib_call at 1, lib_do, lib_call.
  unfold Py.bind, issue, assign, Py.ret. cbn [trace stdout globals].
  fold (read_results_call result_file). subst h1.
  destruct (lib _ (read_results_call result_file)) as [df|e] eqn:Hread.
  - cbn [trace snd].
    destruct (lib _ (Call Pandas "DataFrame.columns=" _ _)) as [?|?].
    + destruct (lib _ (Call Pandas "DataFrame.head" _ _)) as [?|?];
        cbn [trace snd]; rewrite <- !app_assoc; cbn [app];
        eexists; eexists; reflexivity.
    + cbn [trace snd]. rewrite <- !app_assoc. cbn [app].
      eexists; eexists; reflexivity.
  - cbn [trace snd]. rewrite <- !app_assoc.
    eexists; eexists; reflexivity.
Qed.

(** *** What a download does not look at *)

Lemma blind_ret {A} name (a : A) : blind_to name (Py.ret a).
Proof. intros s1 s2 H. now split. Qed.

Lemma blind_lift {A} name (r : Py.outcome A) : blind_to name (Py.lift r).
Proof. intros s1 s2 H. now split. Qed.

Lemma blind_print name parts : blind_to name (print parts).
Proof.
  intros s1 s2 (Ht & Ho & Hg). split; [reflexivity|].
  unfold print. simpl. repeat split; [exact Ht|now rewrite Ho|exact Hg].
Qed.

Lemma blind_assign name x v : blind_to name (assign x v).
Proof.
  intros s1 s2 (Ht & Ho & Hg). split; [reflexivity|].
  unfold assign. cbn [snd trace stdout globals].
  split; [exact Ht|]. split; [exact Ho|].
  intros k Hk. cbn [globals]. destruct (decide (x = k)) as [->|Hne].
  - now rewrite !lookup_insert_eq.
  - rewrite !lookup_insert_ne by exact Hne. now apply Hg.
Qed.

Lemma blind_load name x : x <> name -> blind_to name (load x).
Proof.
  intros Hx s1 s2 (Ht & Ho & Hg). unfold load. rewrite (Hg x Hx).
  destruct (globals s2 !! x); simpl; now repeat split.
Qed.

Lemma blind_load_builtin name x : x <> name -> blind_to name (load_builtin x).
Proof.
  intros Hx s1 s2 (Ht & Ho & Hg). unfold load_builtin. rewrite (Hg x Hx).
  destruct (globals s2 !! x); simpl; now repeat split.
Qed.

Lemma blind_issue name cell c : blind_to name (issue lib cell c).
Proof.
  intros s1 s2 (Ht & Ho & Hg). unfold issue. simpl. rewrite Ht.
  now repeat split.
Qed.

Lemma blind_call_next name cell f x : blind_to name (call_next lib cell f x).
Proof.
  unfold call_next, lib_call.
  destruct f; try apply blind_lift; try apply blind_issue.
  destruct (String.eqb _ _); apply blind_issue.
Qed.

Lemma blind_os_walk name cell os top : blind_to name (os_walk lib cell os top).
Proof.
  unfold os_walk, lib_call.
  destruct (is_os os); [apply blind_issue|apply blind_lift].
Qed.

Lemma blind_bind {A B} name (m : Py.M state A) (k : A -> Py.M state B) :
  blind_to name m -> (forall a, blind_to name (k a)) ->
  blind_to name (Py.bind m k).
Proof.
  intros Hm Hk s1 s2 H. unfold Py.bind.
  destruct (Hm s1 s2 H) as [Hr Hs].
  destruct (m s1) as [[a1|e1] t1], (m s2) as [[a2|e2] t2];
    simpl in Hr, Hs; try discriminate.
  - injection Hr as <-. now apply Hk.
  - injection Hr as <-. now split.
Qed.

Lemma blind_for_each {A} name (items : list A) body :
  (forall x, blind_to name (body x)) -> blind_to name (for_each items body).
Proof.
  intros Hbody. induction items as [|x rest IH]; simpl.
  - apply blind_ret.
  - apply blind_bind; auto.
Qed.

Lemma download_blind name cell :
  name ∉ ["pipeline_run"; "os"; "next"; "result_file"] ->
  blind_to name (download_results lib cell).
Proof.
  intros Hname.
  assert (Hne : forall x, x ∈ ["pipeline_run"; "os"; "next"; "result_file"] ->
                  x <> name)
    by (intros x Hx ->; contradiction).
  unfold download_results, lib_do, lib_call.
  repeat
    (intros;
     lazymatch goal with
     | |- blind_to _ (Py.bind _ _) => apply blind_bind
     | |- blind_to _ (for_each _ _) => apply blind_for_each
     | |- blind_to _ (issue _ _ _) => apply blind_issue
     | |- blind_to _ (call_next _ _ _ _) => apply blind_call_next
     | |- blind_to _ (os_walk _ _ _ _) => apply blind_os_walk
     | |- blind_to _ (Py.ret _) => apply blind_ret
     | |- blind_to _ (Py.lift _) => apply blind_lift
     | |- blind_to _ (assign _ _) => apply blind_assign
     | |- blind_to _ (print _) => apply blind_print
     | |- blind_to _ (load _) =>
         apply blind_load; apply Hne; set_solver
     | |- blind_to _ (load_builtin _) =>
         apply blind_load_builtin; apply Hne; set_solver
     | |- blind_to _ (match ?p with pair _ _ => _ end) => destruct p
     | |- blind_to _ (if ?b then _ else _) => destruct b
     end).
Qed.

(** X18.  A download looks at four global names and no other:
    [pipeline_run], [os], [next] and [result_file].  With any other name
    bound to another value, such as the run started through the REST
    endpoint in [published_pipeline_run] or its identifier in [run_id],
    it makes the same calls, prints the same and ends the same way.  The
    download of cell 34 fetches the output of the run that cell 20
    submitted. *)
Theorem download_ignores_other_names (cell : nat) (name : string) (v : val)
    (s : state) :
  name ∉ ["pipeline_run"; "os"; "next"; "result_file"] ->
  fst (download_results lib cell (rebind name v s))
    = fst (download_results lib cell s) /\
  trace (snd (download_results lib cell (rebind name v s)))
    = trace (snd (download_results lib cell s)) /\
  stdout (snd (download_results lib cell (rebind name v s)))
    = stdout (snd (download_results lib cell s)).
Proof.
  intros Hname.
  destruct (download_blind name cell Hname (rebind name v s) s)
    as (Hr & Ht & Ho & _).
  - unfold rebind, agree_off. cbn [trace stdout globals].
    split; [reflexivity|]. split; [reflexivity|].
    intros k Hk. apply lookup_insert_ne. congruence.
  - now repeat split.
Qed.

End NotebookFurther.

(** A platform that meets the conditions of X11: the lookup is denied. *)
Lemma other_lookup_failure_leaves_cell_8_witness :
  Notebook.globals Demo.connected !! "ws" = Some (Notebook.VObj 0) /\
  Demo.cloud_denying (Notebook.trace Demo.connected)
    (Notebook.lookup_call (Notebook.VObj 0))
    = Py.Raise (Py.Exn Py.OtherException "AuthenticationException") /\
  Notebook.cell_8 Demo.cloud_denying Demo.connected
  = (Py.Raise (Py.Exn Py.OtherException "AuthenticationException"),
     Notebook.State
       (Notebook.trace Demo.connected
        ++ [Notebook.Ev 8 (Notebook.lookup_call (Notebook.VObj 0))
              (Py.Raise (Py.Exn Py.OtherException "AuthenticationException"))])
       (Notebook.stdout Demo.connected)
       (<["cluster_name" := Notebook.VStr Notebook.cluster_name]>
          (Notebook.globals Demo.connected))).
Proof.
  split; [reflexivity|]. split; [reflexivity|].
  exact (other_lookup_failure_leaves_cell_8 Demo.cloud_denying Demo.connected
           (Notebook.VObj 0) _ eq_refl eq_refl eq_refl).
Defined.

(** A platform that meets the conditions of X12: no cluster, and no quota
    to create one. *)
Lemma failed_creation_binds_nothing_witness :
  Notebook.answers Demo.cloud_without_cluster (Notebook.trace Demo.connected)
    [Notebook.Ev 8 (Notebook.lookup_call (Notebook.VObj 0))
       (Py.Raise (Py.Exn Py.ComputeTargetException "ComputeTargetNotFound"));
     Notebook.Ev 8 Notebook.provisioning_call (Py.Ok (Notebook.VObj 1));
     Notebook.Ev 8 (Notebook.create_call (Notebook.VObj 0) (Notebook.VObj 1))
       (Py.Raise (Py.Exn Py.OtherException "Quota exceeded"))] /\
  exists s',
    Notebook.cell_8 Demo.cloud_without_cluster Demo.connected = (Py.Ok tt, s') /\
    Notebook.trace s'
    = Notebook.trace Demo.connected
      ++ [Notebook.Ev 8 (Notebook.lookup_call (Notebook.VObj 0))
            (Py.Raise (Py.Exn Py.ComputeTargetException "ComputeTargetNotFound"));
          Notebook.Ev 8 Notebook.provisioning_call (Py.Ok (Notebook.VObj 1));
          Notebook.Ev 8 (Notebook.create_call (Notebook.VObj 0) (Notebook.VObj 1))
            (Py.Raise (Py.Exn Py.OtherException "Quota exceeded"))] /\
    Notebook.stdout s' = Notebook.stdout Demo.connected ++ ["Quota exceeded"] /\
    Notebook.globals s' !! "inference_cluster"
    = Notebook.globals Demo.connected !! "inference_cluster".
Proof.
  assert (H : Notebook.answers Demo.cloud_without_cluster
                (Notebook.trace Demo.connected)
    [Notebook.Ev 8 (Notebook.lookup_call (Notebook.VObj 0))
       (Py.Raise (Py.Exn Py.ComputeTargetException "ComputeTargetNotFound"));
     Notebook.Ev 8 Notebook.provisioning_call (Py.Ok (Notebook.VObj 1));
     Notebook.Ev 8 (Notebook.create_call (Notebook.VObj 0) (Notebook.VObj 1))
       (Py.Raise (Py.Exn Py.OtherException "Quota exceeded"))]).
  { intros i e Hi.
    do 3 (destruct i as [|i]; [injection Hi as <-; vm_compute; reflexivity|]).
    discriminate Hi. }
  split; [exact H|].
  exact (failed_creation_binds_nothing Demo.cloud_without_cluster Demo.connected
           (Notebook.VObj 0) (Notebook.VObj 1) _ _ eq_refl H eq_refl eq_refl).
Defined.

(** A platform that meets the conditions of X13: the cluster is created
    and does not come up. *)
Lemma failed_wait_keeps_target_witness :
  Notebook.answers Demo.cloud_stalling (Notebook.trace Demo.connected)
    [Notebook.Ev 8 (Notebook.lookup_call (Notebook.VObj 0))
       (Py.Raise (Py.Exn Py.ComputeTargetException "ComputeTargetNotFound"));
     Notebook.Ev 8 Notebook.provisioning_call (Py.Ok (Notebook.VObj 1));
     Notebook.Ev 8 (Notebook.create_call (Notebook.VObj 0) (Notebook.VObj 1))
       (Py.Ok (Notebook.VObj 2));
     Notebook.Ev 8 (Notebook.wait_cluster_call (Notebook.VObj 2))
       (Py.Raise (Py.Exn Py.OtherException "Provisioning timed out"))] /\
  exists s',
    Notebook.cell_8 Demo.cloud_stalling Demo.connected = (Py.Ok tt, s') /\
    Notebook.stdout s'
    = Notebook.stdout Demo.connected ++ ["Provisioning timed out"] /\
    Notebook.globals s' !! "inference_cluster" = Some (Notebook.VObj 2).
Proof.
  assert (H : Notebook.answers Demo.cloud_stalling (Notebook.trace Demo.connected)
    [Notebook.Ev 8 (Notebook.lookup_call (Notebook.VObj 0))
       (Py.Raise (Py.Exn Py.ComputeTargetException "ComputeTargetNotFound"));
     Notebook.Ev 8 Notebook.provisioning_call (Py.Ok (Notebook.VObj 1));
     Notebook.Ev 8 (Notebook.create_call (Notebook.VObj 0) (Notebook.VObj 1))
       (Py.Ok (Notebook.VObj 2));
     Notebook.Ev 8 (Notebook.wait_cluster_call (Notebook.VObj 2))
       (Py.Raise (Py.Exn Py.OtherException "Provisioning timed out"))]).
  { intros i e Hi.
    do 4 (destruct i as [|i]; [injection Hi as <-; vm_compute; reflexivity|]).
    discriminate Hi. }
  split; [exact H|].
  exact (failed_wait_keeps_target Demo.cloud_stalling Demo.connected
           (Notebook.VObj 0) (Notebook.VObj 1) (Notebook.VObj 2) _ _
           eq_refl H eq_refl eq_refl).
Defined.

(** A kernel that meets the conditions of X14: the folder and the
    environment are there, the cluster is not. *)
Lemma cell_18_needs_the_cluster_witness :
  Notebook.globals Demo.without_cluster !! "inference_cluster" = None /\
  Demo.cloud (Notebook.trace Demo.without_cluster) Notebook.output_dir_call
    = Py.Ok (Notebook.VObj 0) /\
  Notebook.cell_18 Demo.cloud Demo.without_cluster
  = (Py.Raise (Py.Exn Py.NameError "name 'inference_cluster' is not defined"),
     Notebook.State
       (Notebook.trace Demo.without_cluster
        ++ [Notebook.Ev 18 Notebook.output_dir_call (Py.Ok (Notebook.VObj 0))])
       (Notebook.stdout Demo.without_cluster)
       (<["output_dir" := Notebook.VObj 0]>
          (Notebook.globals Demo.without_cluster))).
Proof.
  split; [reflexivity|]. split; [reflexivity|].
  exact (cell_18_needs_the_cluster Demo.cloud Demo.without_cluster
           (Notebook.VStr Notebook.experiment_folder) (Notebook.VObj 7)
           (Notebook.VObj 0) eq_refl eq_refl eq_refl eq_refl).
Defined.

(** A platform that meets the conditions of X15: the endpoint answers
    with an error body. *)
Lemma missing_run_id_stops_the_run_witness :
  Notebook.answers Demo.cloud_rejecting_post (Notebook.trace Demo.published)
    [Notebook.Ev 30 (Notebook.endpoint_call (Notebook.VObj 40))
       (Py.Ok (Notebook.rest_endpoint Demo.cloud_replies));
     Notebook.Ev 30
       (Notebook.post_call (Notebook.rest_endpoint Demo.cloud_replies)
          (Notebook.VObj 41))
       (Py.Ok (Notebook.VObj 1));
     Notebook.Ev 30 (Notebook.json_call (Notebook.VObj 1))
       (Py.Ok (Notebook.VDict [("error", Notebook.VStr "PipelineNotFound")]))] /\
  BatchData.assoc "Id" [("error", Notebook.VStr "PipelineNotFound")] = None /\
  exists s',
    (Notebook.cell_30 Demo.cloud_rejecting_post ;;
     Notebook.cell_32 Demo.cloud_rejecting_post) Demo.published
    = (Py.Raise (Py.Exn Py.KeyError "Id"), s') /\
    Notebook.trace s'
    = Notebook.trace Demo.published
      ++ [Notebook.Ev 30 (Notebook.endpoint_call (Notebook.VObj 40))
            (Py.Ok (Notebook.rest_endpoint Demo.cloud_replies));
          Notebook.Ev 30
            (Notebook.post_call (Notebook.rest_endpoint Demo.cloud_replies)
               (Notebook.VObj 41))
            (Py.Ok (Notebook.VObj 1));
          Notebook.Ev 30 (Notebook.json_call (Notebook.VObj 1))
            (Py.Ok (Notebook.VDict [("error", Notebook.VStr "PipelineNotFound")]))] /\
    Notebook.globals s' !! "run_id" = Notebook.globals Demo.published !! "run_id".
Proof.
  assert (H : Notebook.answers Demo.cloud_rejecting_post
                (Notebook.trace Demo.published)
    [Notebook.Ev 30 (Notebook.endpoint_call (Notebook.VObj 40))
       (Py.Ok (Notebook.rest_endpoint Demo.cloud_replies));
     Notebook.Ev 30
       (Notebook.post_call (Notebook.rest_endpoint Demo.cloud_replies)
          (Notebook.VObj 41))
       (Py.Ok (Notebook.VObj 1));
     Notebook.Ev 30 (Notebook.json_call (Notebook.VObj 1))
       (Py.Ok (Notebook.VDict [("error", Notebook.VStr "PipelineNotFound")]))]).
  { intros i e Hi.
    do 3 (destruct i as [|i]; [injection Hi as <-; vm_compute; reflexivity|]).
    discriminate Hi. }
  split; [exact H|]. split; [reflexivity|].
  exact (missing_run_id_stops_the_run Demo.cloud_rejecting_post Demo.published
           (Notebook.VObj 40) (Notebook.VObj 41) _ (Notebook.VObj 1) _
           eq_refl eq_refl H eq_refl).
Defined.

Lemma cloud_with_tree_answers tree :
  Notebook.answers (Demo.cloud_with_tree tree) []
    (Notebook.download_calls 22 (Notebook.VObj 30) Demo.fetched tree).
Proof.
  intros i e Hi.
  do 6 (destruct i as [|i]; [injection Hi as <-; reflexivity|]).
  discriminate Hi.
Qed.

(** A download that meets the conditions of X16: the folder comes back
    empty, in a kernel that has not downloaded before. *)
Lemma download_without_results_file_witness :
  Notebook.globals Demo.after_run !! "pipeline_run" = Some (Notebook.VObj 30) /\
  Notebook.globals Demo.after_run !! "os" = Some (Notebook.VModule "os") /\
  Notebook.globals Demo.after_run !! "next" = None /\
  Notebook.globals Demo.after_run !! "result_file" = None /\
  Notebook.find_results Demo.empty_tree None = None /\
  fst (Notebook.download_results (Demo.cloud_with_tree Demo.empty_tree) 22
         Demo.after_run)
    = Py.Raise (Py.Exn Py.NameError "name 'result_file' is not defined") /\
  Notebook.trace
    (snd (Notebook.download_results (Demo.cloud_with_tree Demo.empty_tree) 22
            Demo.after_run))
    = Notebook.trace Demo.after_run
      ++ Notebook.download_calls 22 (Notebook.VObj 30) Demo.fetched Demo.empty_tree.
Proof.
  split; [reflexivity|]. split; [reflexivity|]. split; [reflexivity|].
  split; [reflexivity|]. split; [reflexivity|].
  exact (download_without_results_file (Demo.cloud_with_tree Demo.empty_tree) 22
           Demo.after_run (Notebook.VObj 30) Demo.fetched Demo.empty_tree
           eq_refl eq_refl eq_refl eq_refl
           (cloud_with_tree_answers Demo.empty_tree) eq_refl).
Defined.

(** Two downloads that meet the conditions of X17: a folder with two
    files that end as asked, of which the last is read, and an empty
    folder in a kernel that holds the file of an earlier download. *)
Lemma download_reads_last_results_file_witness :
  Notebook.globals Demo.after_run !! "os" = Some (Notebook.VModule "os") /\
  Notebook.globals Demo.after_run !! "next" = None /\
  Notebook.find_results Demo.results_tree None
    = Some "diabetes-results/logs/old_parallel_run_step.txt" /\
  (exists reply later,
     Notebook.trace
       (snd (Notebook.download_results (Demo.cloud_with_tree Demo.results_tree) 22
               Demo.after_run))
     = Notebook.trace Demo.after_run
       ++ Notebook.download_calls 22 (Notebook.VObj 30) Demo.fetched
            Demo.results_tree
       ++ Notebook.Ev 22
            (Notebook.read_results_call
               (Notebook.VStr "diabetes-results/logs/old_parallel_run_step.txt"))
            reply :: later) /\
  Notebook.find_results Demo.empty_tree None = None /\
  (exists reply later,
     Notebook.trace
       (snd (Notebook.download_results (Demo.cloud_with_tree Demo.empty_tree) 22
               Demo.after_download))
     = Notebook.trace Demo.after_download
       ++ Notebook.download_calls 22 (Notebook.VObj 30) Demo.fetched
            Demo.empty_tree
       ++ Notebook.Ev 22
            (Notebook.read_results_call
               (Notebook.VStr "old/parallel_run_step.txt"))
            reply :: later).
Proof.
  split; [reflexivity|]. split; [reflexivity|]. split; [reflexivity|]. split.
  - exact (download_reads_last_results_file
             (Demo.cloud_with_tree Demo.results_tree) 22 Demo.after_run
             (Notebook.VObj 30) _ Demo.fetched Demo.results_tree
             eq_refl eq_refl eq_refl
             (cloud_with_tree_answers Demo.results_tree) eq_refl).
  - split; [reflexivity|].
    exact (download_reads_last_results_file
             (Demo.cloud_with_tree Demo.empty_tree) 22 Demo.after_download
             (Notebook.VObj 30) _ Demo.fetched Demo.empty_tree
             eq_refl eq_refl eq_refl
             (cloud_with_tree_answers Demo.empty_tree) eq_refl).
Defined.

(** A name that meets the condition of X18: the run started through the
    endpoint.  The name [os] does not: with it bound to something else,
    the download ends at the walk. *)
Lemma download_ignores_other_names_witness :
  ("published_pipeline_run" ∉ ["pipeline_run"; "os"; "next"; "result_file"]) /\
  fst (Notebook.download_results Demo.cloud 34
         (Notebook.rebind "os" (Notebook.VObj 9) Demo.after_run))
    = Py.Raise (Py.Exn Py.AttributeError "object has no attribute 'walk'") /\
  fst (Notebook.download_results Demo.cloud 34 Demo.after_run) = Py.Ok tt /\
  fst (Notebook.download_results Demo.cloud 34
         (Notebook.rebind "published_pipeline_run" (Notebook.VObj 9) Demo.after_run))
    = fst (Notebook.download_results Demo.cloud 34 Demo.after_run) /\
  Notebook.trace
    (snd (Notebook.download_results Demo.cloud 34
            (Notebook.rebind "published_pipeline_run" (Notebook.VObj 9)
               Demo.after_run)))
    = Notebook.trace (snd (Notebook.download_results Demo.cloud 34 Demo.after_run)) /\
  Notebook.stdout
    (snd (Notebook.download_results Demo.cloud 34
            (Notebook.rebind "published_pipeline_run" (Notebook.VObj 9)
               Demo.after_run)))
    = Notebook.stdout (snd (Notebook.download_results Demo.cloud 34 Demo.after_run)).
Proof.
  assert (H : "published_pipeline_run"
              ∉ ["pipeline_run"; "os"; "next"; "result_file"]).
  { apply (bool_decide_unpack _). vm_compute. exact I. }
  split; [exact H|]. split; [vm_compute; reflexivity|].
  split; [vm_compute; reflexivity|].
  exact (download_ignores_other_names Demo.cloud 34 "published_pipeline_run"
           (Notebook.VObj 9) Demo.after_run H).
Defined.
